(** * The agent tool-execution core of [ai_agent_tools.py]

    A shallow embedding of the data query engine ([AnalysisTools]) and of
    the tool-calling loop ([AIAgent]) of [src/ai_agent_tools.py], together
    with the properties the specification states about them.

    Python values are the JSON tree of the specification ([json]); code that
    can raise lives in the error monad [py]; what the program reads from
    outside (files, the JSON decoder, the language model) is a [World].

    The callers of the core in [src/app.py], the streaming loop
    [stream_agent_response] and the endpoints over the tools, are
    embedded after it; further properties of the operations, of the loops
    and of the endpoints close the development. *)

From Stdlib Require Import ZArith List String Ascii Bool Lia.
From Stdlib Require Import Floats.PrimFloat Floats.SpecFloat Floats.FloatOps.
From Stdlib Require Import DecimalString.
From Stdlib Require Import Sorting.Permutation Sorting.Sorted.
Import ListNotations.

Local Open Scope string_scope.
Local Open Scope Z_scope.
Local Open Scope list_scope.

(** String concatenation, Python's [+] and f-strings. *)
Infix "+++" := String.append (right associativity, at level 60).

(** ** Python values *)

(** The values the program handles are what [json.loads] produces: [None],
    [bool], [int] (unbounded), [float] (binary64), [str], [list] and [dict]
    with string keys, in insertion order.  A [str] is a sequence of
    characters; the characters modelled are U+0000 to U+00FF.  The results
    of the operations are built from the same values. *)
Unset Elimination Schemes.
Inductive json : Type :=
| JNull
| JBool (b : bool)
| JInt (z : Z)
| JFloat (f : float)
| JStr (s : string)
| JList (l : list json)
| JDict (d : list (string * json)).
Set Elimination Schemes.

Section JsonInduction.
Variable P : json -> Prop.
Hypothesis HNull : P JNull.
Hypothesis HBool : forall b, P (JBool b).
Hypothesis HInt : forall z, P (JInt z).
Hypothesis HFloat : forall f, P (JFloat f).
Hypothesis HStr : forall s, P (JStr s).
Hypothesis HList : forall l, Forall P l -> P (JList l).
Hypothesis HDict : forall d, Forall (fun kv => P (snd kv)) d -> P (JDict d).

Fixpoint json_ind (v : json) : P v :=
  match v with
  | JNull => HNull
  | JBool b => HBool b
  | JInt z => HInt z
  | JFloat f => HFloat f
  | JStr s => HStr s
  | JList l =>
      HList l ((fix go (l : list json) : Forall P l :=
                  match l with
                  | [] => Forall_nil _
                  | x :: r => Forall_cons x (json_ind x) (go r)
                  end) l)
  | JDict d =>
      HDict d ((fix go (d : list (string * json)) : Forall (fun kv => P (snd kv)) d :=
                  match d with
                  | [] => Forall_nil _
                  | kv :: r => Forall_cons kv (json_ind (snd kv)) (go r)
                  end) d)
  end.
End JsonInduction.

(** ** Exceptions *)

Inductive exn_class : Type :=
| JSONDecodeError | TypeError | AttributeError | KeyError | ValueError
| OverflowError | ZeroDivisionError | RecursionError
| UnicodeDecodeError | PermissionError | FileNotFoundError | OSError
| RuntimeError.

(** An exception: its class and [str(e)]. *)
Record exn : Type := mk_exn { exn_cls : exn_class; exn_str : string }.

Inductive py (A : Type) : Type :=
| Ok (a : A)
| Raise (e : exn).
Arguments Ok {A} a.
Arguments Raise {A} e.

Definition bind {A B : Type} (c : py A) (k : A -> py B) : py B :=
  match c with
  | Ok a => k a
  | Raise e => Raise e
  end.

Notation "x <- c ;; k" := (bind c (fun x => k))
  (at level 61, c at next level, right associativity).

Definition raise {A : Type} (c : exn_class) (m : string) : py A := Raise (mk_exn c m).

(** [try: c except Exception as e: h e] *)
Definition try_except {A : Type} (c : py A) (h : exn -> py A) : py A :=
  match c with
  | Ok a => Ok a
  | Raise e => h e
  end.

Definition exn_class_eqb (a b : exn_class) : bool :=
  match a, b with
  | JSONDecodeError, JSONDecodeError | TypeError, TypeError
  | AttributeError, AttributeError | KeyError, KeyError
  | ValueError, ValueError | OverflowError, OverflowError
  | ZeroDivisionError, ZeroDivisionError | RecursionError, RecursionError
  | UnicodeDecodeError, UnicodeDecodeError | PermissionError, PermissionError
  | FileNotFoundError, FileNotFoundError | OSError, OSError
  | RuntimeError, RuntimeError => true
  | _, _ => false
  end.

Section Loops.
Context {A B : Type}.

(** [for x in l: body], where the body may raise and what it appends to
    the results is collected in order. *)
Section ForEach.
Variable body : A -> py (list B).

Fixpoint for_each (l : list A) : py (list B) :=
  match l with
  | [] => Ok []
  | x :: r => ys <- body x ;; zs <- for_each r ;; Ok (ys ++ zs)
  end.
End ForEach.

(** [for idx, x in enumerate(l): body], counting from [idx]. *)
Section ForEachIndexed.
Variable body : nat -> A -> py (list B).

Fixpoint for_each_indexed (idx : nat) (l : list A) : py (list B) :=
  match l with
  | [] => Ok []
  | x :: r => ys <- body idx x ;; zs <- for_each_indexed (S idx) r ;; Ok (ys ++ zs)
  end.
End ForEachIndexed.

(** The same loop for a body that does not raise. *)
Section FlatMapIndexed.
Variable body : nat -> A -> list B.

Fixpoint flat_map_indexed (idx : nat) (l : list A) : list B :=
  match l with
  | [] => []
  | x :: r => body idx x ++ flat_map_indexed (S idx) r
  end.
End FlatMapIndexed.

(** [[f(x) for x in l]] *)
Section MapPy.
Variable f : A -> py B.

Fixpoint map_py (l : list A) : py (list B) :=
  match l with
  | [] => Ok []
  | x :: r => y <- f x ;; ys <- map_py r ;; Ok (y :: ys)
  end.
End MapPy.
End Loops.

(** [for idx in range(min(len(l1), len(l2))): body(idx, l1[idx], l2[idx])] *)
Section FlatMapPairs.
Context {A B C : Type}.
Variable body : nat -> A -> B -> list C.

Fixpoint flat_map_pairs (idx : nat) (l1 : list A) (l2 : list B) : list C :=
  match l1, l2 with
  | x :: r1, y :: r2 => body idx x y ++ flat_map_pairs (S idx) r1 r2
  | _, _ => []
  end.
End FlatMapPairs.

(** ** Strings *)

Definition nat_of_char (c : ascii) : nat := nat_of_ascii c.

Definition in_range (lo hi : nat) (c : ascii) : bool :=
  (Nat.leb lo (nat_of_char c) && Nat.leb (nat_of_char c) hi)%bool.

(** [c.lower()] for one character of U+0000..U+00FF. *)
Definition lower_char (c : ascii) : ascii :=
  let n := nat_of_char c in
  if (in_range 65 90 c || (in_range 192 222 c && negb (Nat.eqb n 215)))%bool
  then ascii_of_nat (n + 32) else c.

(** [s.lower()] *)
Fixpoint lower (s : string) : string :=
  match s with
  | EmptyString => EmptyString
  | String c r => String (lower_char c) (lower r)
  end.

(** What [\s] matches, and what [str.strip()] removes. *)
Definition is_space (c : ascii) : bool :=
  let n := nat_of_char c in
  (in_range 9 13 c || in_range 28 32 c || Nat.eqb n 133 || Nat.eqb n 160)%bool.

(** What [\w] matches. *)
Definition is_word (c : ascii) : bool :=
  let n := nat_of_char c in
  (in_range 48 57 c || in_range 65 90 c || in_range 97 122 c || Nat.eqb n 95
   || Nat.eqb n 170 || in_range 178 179 c || Nat.eqb n 181 || in_range 185 186 c
   || in_range 188 190 c || in_range 192 214 c || in_range 216 246 c
   || in_range 248 255 c)%bool.

Fixpoint starts_with (p s : string) : bool :=
  match p, s with
  | EmptyString, _ => true
  | String a p', String b s' => (Ascii.eqb a b && starts_with p' s')%bool
  | String _ _, EmptyString => false
  end.

(** [sub in s] *)
Fixpoint contains (sub s : string) : bool :=
  (starts_with sub s ||
   match s with
   | EmptyString => false
   | String _ r => contains sub r
   end)%bool.

Fixpoint drop (n : nat) (s : string) : string :=
  match n, s with
  | O, _ => s
  | S n', String _ r => drop n' r
  | S _, EmptyString => EmptyString
  end.

(** [s[:n]] *)
Fixpoint take (n : nat) (s : string) : string :=
  match n, s with
  | S n', String c r => String c (take n' r)
  | _, _ => EmptyString
  end.

(** [s.count(sub)]: occurrences that do not overlap, from the left. *)
Fixpoint count_from (fuel : nat) (sub s : string) : Z :=
  match fuel with
  | O => 0
  | S fuel' =>
      if starts_with sub s then
        match sub, s with
        | EmptyString, EmptyString => 1
        | EmptyString, String _ r => 1 + count_from fuel' sub r
        | _, _ => 1 + count_from fuel' sub (drop (String.length sub) s)
        end
      else
        match s with
        | EmptyString => 0
        | String _ r => count_from fuel' sub r
        end
  end.

Definition count (sub s : string) : Z := count_from (S (String.length s)) sub s.

Fixpoint lstrip (s : string) : string :=
  match s with
  | String c r => if is_space c then lstrip r else s
  | EmptyString => EmptyString
  end.

Fixpoint rev_string (s acc : string) : string :=
  match s with
  | EmptyString => acc
  | String c r => rev_string r (String c acc)
  end.

Definition rstrip (s : string) : string :=
  rev_string (lstrip (rev_string s EmptyString)) EmptyString.

(** [s.strip()] *)
Definition strip (s : string) : string := rstrip (lstrip s).

(** [sep.join(l)] *)
Fixpoint join (sep : string) (l : list string) : string :=
  match l with
  | [] => ""
  | [x] => x
  | x :: r => x +++ sep +++ join sep r
  end.

(** [str(n)] for an [int]. *)
Definition str_of_Z (z : Z) : string := NilZero.string_of_int (Z.to_int z).

Definition str_of_nat (n : nat) : string := str_of_Z (Z.of_nat n).

Definition len (s : string) : Z := Z.of_nat (String.length s).

(** The comparison of two strings, character by character. *)
Fixpoint str_compare (a b : string) : comparison :=
  match a, b with
  | EmptyString, EmptyString => Eq
  | EmptyString, String _ _ => Lt
  | String _ _, EmptyString => Gt
  | String x a', String y b' =>
      match Nat.compare (nat_of_char x) (nat_of_char y) with
      | Eq => str_compare a' b'
      | c => c
      end
  end.

(** ** Numbers *)

(** [bool] is a subclass of [int]: in arithmetic and comparisons [True] is
    1 and [False] is 0. *)
Inductive num : Type :=
| NZ (z : Z)
| NF (f : float).

Definition as_num (v : json) : option num :=
  match v with
  | JBool b => Some (NZ (if b then 1 else 0))
  | JInt z => Some (NZ z)
  | JFloat f => Some (NF f)
  | _ => None
  end.

Definition json_of_num (n : num) : json :=
  match n with
  | NZ z => JInt z
  | NF f => JFloat f
  end.

(** The float nearest to [m * 2^e] (ties to even). *)
Definition float_of_Z_exp (m e : Z) : float :=
  SF2Prim (binary_normalize prec emax m e false).

(** The float nearest to [a / b], for [0 < b]: the quotient is taken with
    65 bits or more and a sticky last bit, then rounded once. *)
Definition float_of_ratio (a b : Z) : float :=
  let k := Z.max 0 (64 + Z.log2 b - Z.log2 (Z.abs a)) in
  let n := Z.abs a * 2 ^ k in
  let m := 2 * (n / b) + (if n mod b =? 0 then 0 else 1) in
  float_of_Z_exp (if a <? 0 then - m else m) (- k - 1).

(** The float nearest to [d * 10^q]. *)
Definition float_of_decimal (d q : Z) : float :=
  if 0 <=? q then float_of_Z_exp (d * 10 ^ q) 0 else float_of_ratio d (10 ^ (- q)).

Definition is_finite (f : float) : bool :=
  match Prim2SF f with
  | S754_zero _ | S754_finite _ _ _ => true
  | _ => false
  end.

(** NaN is the float that differs from itself. *)
Definition is_nan_float (f : float) : bool := negb (PrimFloat.eqb f f).

(** [float(z)]: raises when [z] is beyond the range of a float. *)
Definition float_of_int (z : Z) : py float :=
  let f := float_of_Z_exp z 0 in
  if is_finite f then Ok f
  else raise OverflowError "int too large to convert to float".

(** How the float [f] compares with the integer [z], exactly; [None] for
    NaN. *)
Definition float_compare_Z (f : float) (z : Z) : option comparison :=
  match Prim2SF f with
  | S754_nan => None
  | S754_infinity s => Some (if s then Lt else Gt)
  | S754_zero _ => Some (Z.compare 0 z)
  | S754_finite s m e =>
      let mz := if s then Zneg m else Zpos m in
      if 0 <=? e then Some (Z.compare (mz * 2 ^ e) z)
      else Some (Z.compare mz (z * 2 ^ (- e)))
  end.

Definition num_compare (a b : num) : option comparison :=
  match a, b with
  | NZ x, NZ y => Some (Z.compare x y)
  | NF x, NF y =>
      if PrimFloat.eqb x y then Some Eq
      else if PrimFloat.ltb x y then Some Lt
      else if PrimFloat.ltb y x then Some Gt
      else None
  | NF x, NZ y => float_compare_Z x y
  | NZ x, NF y => option_map CompOpp (float_compare_Z y x)
  end.

Definition num_eqb (a b : num) : bool :=
  match num_compare a b with
  | Some Eq => true
  | _ => false
  end.

(** [a + b] on numbers. *)
Definition num_add (a b : num) : py num :=
  match a, b with
  | NZ x, NZ y => Ok (NZ (x + y))
  | NF x, NF y => Ok (NF (PrimFloat.add x y))
  | NF x, NZ y => fy <- float_of_int y ;; Ok (NF (PrimFloat.add x fy))
  | NZ x, NF y => fx <- float_of_int x ;; Ok (NF (PrimFloat.add fx y))
  end.

(** [a / b], true division. *)
Definition num_truediv (a b : num) : py num :=
  match a, b with
  | NZ x, NZ y =>
      if y =? 0 then raise ZeroDivisionError "division by zero"
      else
        let f := if 0 <? y then float_of_ratio x y else float_of_ratio (- x) (- y) in
        if is_finite f then Ok (NF f)
        else raise OverflowError "integer division result too large for a float"
  | _, _ =>
      fx <- match a with NZ x => float_of_int x | NF x => Ok x end ;;
      fy <- match b with NZ y => float_of_int y | NF y => Ok y end ;;
      if PrimFloat.eqb fy PrimFloat.zero
      then raise ZeroDivisionError "float division by zero"
      else Ok (NF (PrimFloat.div fx fy))
  end.

(** ** Built-in operations on values *)

Definition type_name (v : json) : string :=
  match v with
  | JNull => "NoneType"
  | JBool _ => "bool"
  | JInt _ => "int"
  | JFloat _ => "float"
  | JStr _ => "str"
  | JList _ => "list"
  | JDict _ => "dict"
  end.

(** [type(a) == type(b)] *)
Definition same_type (a b : json) : bool := String.eqb (type_name a) (type_name b).

(** [bool(v)], the test of [if v] and [not v]. *)
Definition truthy (v : json) : bool :=
  match v with
  | JNull => false
  | JBool b => b
  | JInt z => negb (z =? 0)
  | JFloat f => negb (PrimFloat.eqb f PrimFloat.zero)
  | JStr s => negb (String.eqb s "")
  | JList l => match l with [] => false | _ => true end
  | JDict d => match d with [] => false | _ => true end
  end.

Definition is_dict (v : json) : bool :=
  match v with JDict _ => true | _ => false end.

Definition is_str (v : json) : bool :=
  match v with JStr _ => true | _ => false end.

Definition is_nan (v : json) : bool :=
  match v with JFloat f => is_nan_float f | _ => false end.

(** [d.get(k)] as an option, [k in d] and [d[k]] for a dict with string
    keys. *)
Fixpoint dict_get (d : list (string * json)) (k : string) : option json :=
  match d with
  | [] => None
  | (k', v) :: r => if String.eqb k' k then Some v else dict_get r k
  end.

Definition dict_has (d : list (string * json)) (k : string) : bool :=
  match dict_get d k with Some _ => true | None => false end.

(** [d.get(k, default)] *)
Definition get_default (d : list (string * json)) (k : string) (default : json) : json :=
  match dict_get d k with Some v => v | None => default end.

(** [d[k] = v] *)
Fixpoint dict_set (d : list (string * json)) (k : string) (v : json) : list (string * json) :=
  match d with
  | [] => [(k, v)]
  | (k', v') :: r => if String.eqb k' k then (k', v) :: r else (k', v') :: dict_set r k v
  end.

(** [a == b].  Inside lists and dicts CPython compares elements with
    [x is y or x == y]; every NaN that [json.loads] returns is the one
    object [json.decoder.NaN], so two NaN elements count as equal there,
    while [nan == nan] itself is false. *)
Fixpoint py_eq (a b : json) : bool :=
  match a with
  | JNull => match b with JNull => true | _ => false end
  | JStr s => match b with JStr t => String.eqb s t | _ => false end
  | JList l =>
      match b with
      | JList m =>
          (fix go (l m : list json) : bool :=
             match l, m with
             | [], [] => true
             | x :: l', y :: m' => (((is_nan x && is_nan y) || py_eq x y) && go l' m')%bool
             | _, _ => false
             end) l m
      | _ => false
      end
  | JDict d =>
      match b with
      | JDict e =>
          (Nat.eqb (List.length d) (List.length e) &&
           (fix go (d : list (string * json)) : bool :=
              match d with
              | [] => true
              | (k, v) :: d' =>
                  (match dict_get e k with
                   | Some w => (is_nan v && is_nan w) || py_eq v w
                   | None => false
                   end && go d')%bool
              end) d)%bool
      | _ => false
      end
  | _ =>
      match as_num a, as_num b with
      | Some x, Some y => num_eqb x y
      | _, _ => false
      end
  end.

(** Equality of two elements of a container. *)
Definition elem_eq (x y : json) : bool := ((is_nan x && is_nan y) || py_eq x y)%bool.

Inductive cmp_op : Type := OpLt | OpLe | OpGt | OpGe.

Definition op_symbol (op : cmp_op) : string :=
  match op with OpLt => "<" | OpLe => "<=" | OpGt => ">" | OpGe => ">=" end.

Definition op_holds (op : cmp_op) (c : option comparison) : bool :=
  match op, c with
  | OpLt, Some Lt => true
  | OpLe, Some Lt | OpLe, Some Eq => true
  | OpGt, Some Gt => true
  | OpGe, Some Gt | OpGe, Some Eq => true
  | _, _ => false
  end.

Definition not_supported (op : cmp_op) (a b : json) : exn :=
  mk_exn TypeError ("'" +++ op_symbol op +++ "' not supported between instances of '"
                    +++ type_name a +++ "' and '" +++ type_name b +++ "'").

(** [a < b], [a <= b], [a > b], [a >= b]. *)
Fixpoint py_cmp (op : cmp_op) (a b : json) : py bool :=
  match a with
  | JStr s =>
      match b with
      | JStr t => Ok (op_holds op (Some (str_compare s t)))
      | _ => Raise (not_supported op a b)
      end
  | JList l =>
      match b with
      | JList m =>
          (fix go (l m : list json) : py bool :=
             match l, m with
             | x :: l', y :: m' =>
                 if ((is_nan x && is_nan y) || py_eq x y)%bool then go l' m' else py_cmp op x y
             | _, _ => Ok (op_holds op (Some (Nat.compare (List.length l) (List.length m))))
             end) l m
      | _ => Raise (not_supported op a b)
      end
  | JNull | JDict _ => Raise (not_supported op a b)
  | _ =>
      match as_num a, as_num b with
      | Some x, Some y => Ok (op_holds op (num_compare x y))
      | _, _ => Raise (not_supported op a b)
      end
  end.

(** ** [str] and [repr] *)

Definition char_str (n : nat) : string := String (ascii_of_nat n) "".

Definition dquote : string := char_str 34.
Definition newline : string := char_str 10.

Definition is_printable (c : ascii) : bool :=
  (in_range 32 126 c || (in_range 161 255 c && negb (Nat.eqb (nat_of_char c) 173)))%bool.

Definition hex_digit (n : nat) : string :=
  match n with
  | 10%nat => "a" | 11%nat => "b" | 12%nat => "c"
  | 13%nat => "d" | 14%nat => "e" | 15%nat => "f"
  | _ => str_of_nat n
  end.

Definition repr_char (quote : ascii) (c : ascii) : string :=
  let n := nat_of_char c in
  if Nat.eqb n 92 then "\\"
  else if Ascii.eqb c quote then "\" +++ String c ""
  else if Nat.eqb n 10 then "\n"
  else if Nat.eqb n 13 then "\r"
  else if Nat.eqb n 9 then "\t"
  else if is_printable c then String c ""
  else "\x" +++ hex_digit (n / 16) +++ hex_digit (n mod 16).

Fixpoint repr_chars (quote : ascii) (s : string) : string :=
  match s with
  | EmptyString => ""
  | String c r => repr_char quote c +++ repr_chars quote r
  end.

(** [repr(s)] for a [str]. *)
Definition repr_str (s : string) : string :=
  if (contains "'" s && negb (contains dquote s))%bool
  then dquote +++ repr_chars (ascii_of_nat 34) s +++ dquote
  else "'" +++ repr_chars (ascii_of_nat 39) s +++ "'".

(** The exponent of the leading decimal digit of [n / d], for positive
    [n] and [d]. *)
Definition leading_exp (n d : Z) : Z :=
  if d <=? n then len (str_of_Z (n / d)) - 1
  else
    let k := len (str_of_Z d) - len (str_of_Z n) in
    if d <=? n * 10 ^ k then - k else - (k + 1).

(** The shortest decimal [digits * 10^q] that reads back as [x], whose
    exact value is [n / d]: tried with 1, 2, ... significant digits. *)
Fixpoint shortest_decimal (fuel : nat) (ndigits : Z) (x : float) (n d e : Z) : Z * Z :=
  let q := e - (ndigits - 1) in
  let a := if 0 <=? q then n else n * 10 ^ (- q) in
  let b := if 0 <=? q then d * 10 ^ q else d in
  let lo := a / b in
  let r := a mod b in
  let hi := lo + 1 in
  let nearest := if 2 * r <? b then lo else if b <? 2 * r then hi
                 else if Z.even lo then lo else hi in
  match fuel with
  | O => (nearest, q)
  | S fuel' =>
      let ok_lo := PrimFloat.eqb (float_of_decimal lo q) x in
      let ok_hi := (negb (r =? 0) && PrimFloat.eqb (float_of_decimal hi q) x)%bool in
      if (ok_lo && ok_hi)%bool then (nearest, q)
      else if ok_lo then (lo, q)
      else if ok_hi then (hi, q)
      else shortest_decimal fuel' (ndigits + 1) x n d e
  end.

Fixpoint strip_zeros (fuel : nat) (digits q : Z) : Z * Z :=
  match fuel with
  | O => (digits, q)
  | S fuel' =>
      if ((digits mod 10 =? 0) && negb (digits =? 0))%bool
      then strip_zeros fuel' (digits / 10) (q + 1)
      else (digits, q)
  end.

Fixpoint zeros (n : nat) : string :=
  match n with
  | O => ""
  | S n' => "0" +++ zeros n'
  end.

(** The text of a positive float from its shortest digits [ds] and the
    position [decpt] of the decimal point, as [repr] lays it out. *)
Definition format_repr (ds : string) (decpt : Z) : string :=
  let l := len ds in
  if ((decpt <=? -4) || (16 <? decpt))%bool then
    let ex := decpt - 1 in
    let exs := str_of_Z (Z.abs ex) in
    (if l =? 1 then ds else take 1 ds +++ "." +++ drop 1 ds)
    +++ "e" +++ (if ex <? 0 then "-" else "+")
    +++ (if len exs <? 2 then "0" +++ exs else exs)
  else if decpt <=? 0 then "0." +++ zeros (Z.to_nat (- decpt)) +++ ds
  else if l <=? decpt then ds +++ zeros (Z.to_nat (decpt - l)) +++ ".0"
  else take (Z.to_nat decpt) ds +++ "." +++ drop (Z.to_nat decpt) ds.

(** [repr(f)] for a [float]: the shortest text that reads back as [f]. *)
Definition repr_float (f : float) : string :=
  match Prim2SF f with
  | S754_nan => "nan"
  | S754_infinity s => if s then "-inf" else "inf"
  | S754_zero s => if s then "-0.0" else "0.0"
  | S754_finite s m e =>
      let n := if 0 <=? e then Zpos m * 2 ^ e else Zpos m in
      let d := if 0 <=? e then 1 else 2 ^ (- e) in
      let '(digits, q) := shortest_decimal 17 1 (PrimFloat.abs f) n d (leading_exp n d) in
      let '(digits, q) := strip_zeros 400 digits q in
      let ds := str_of_Z digits in
      (if s then "-" else "") +++ format_repr ds (len ds + q)
  end.

(** [repr(v)] *)
Fixpoint py_repr (v : json) : string :=
  match v with
  | JNull => "None"
  | JBool b => if b then "True" else "False"
  | JInt z => str_of_Z z
  | JFloat f => repr_float f
  | JStr s => repr_str s
  | JList l => "[" +++ join ", " (map py_repr l) +++ "]"
  | JDict d =>
      "{" +++ join ", " (map (fun kv => repr_str (fst kv) +++ ": " +++ py_repr (snd kv)) d) +++ "}"
  end.

(** [str(v)], also what an f-string puts for [{v}]. *)
Definition py_str (v : json) : string :=
  match v with
  | JStr s => s
  | _ => py_repr v
  end.

(** ** Iteration, membership, attribute access *)

Fixpoint chars_of (s : string) : list json :=
  match s with
  | EmptyString => []
  | String c r => JStr (String c "") :: chars_of r
  end.

(** [for x in v] *)
Definition py_iter (v : json) : py (list json) :=
  match v with
  | JList l => Ok l
  | JStr s => Ok (chars_of s)
  | JDict d => Ok (map (fun kv => JStr (fst kv)) d)
  | _ => raise TypeError ("'" +++ type_name v +++ "' object is not iterable")
  end.

Definition no_attribute_exn (v : json) (attr : string) : exn :=
  mk_exn AttributeError
         ("'" +++ type_name v +++ "' object has no attribute '" +++ attr +++ "'").

Definition no_attribute {A : Type} (v : json) (attr : string) : py A :=
  Raise (no_attribute_exn v attr).

(** [v.lower()] *)
Definition py_lower (v : json) : py string :=
  match v with
  | JStr s => Ok (lower s)
  | _ => no_attribute v "lower"
  end.

(** [v.get(k, default)] *)
Definition py_get (v : json) (k : string) (default : json) : py json :=
  match v with
  | JDict d => Ok (get_default d k default)
  | _ => no_attribute v "get"
  end.

(** [v.items()] *)
Definition py_items (v : json) : py (list (string * json)) :=
  match v with
  | JDict d => Ok d
  | _ => no_attribute v "items"
  end.

(** [x in s] for a [str] [s]. *)
Definition py_in_str (x : json) (s : string) : py bool :=
  match x with
  | JStr t => Ok (contains t s)
  | _ => raise TypeError ("'in <string>' requires string as left operand, not " +++ type_name x)
  end.

Definition unhashable {A : Type} (v : json) : py A :=
  raise TypeError ("unhashable type: '" +++ type_name v +++ "'").

(** [x in c] *)
Definition py_in (x c : json) : py bool :=
  match c with
  | JList l => Ok (existsb (elem_eq x) l)
  | JStr s => py_in_str x s
  | JDict d =>
      match x with
      | JList _ | JDict _ => unhashable x
      | JStr k => Ok (dict_has d k)
      | _ => Ok false
      end
  | _ => raise TypeError ("argument of type '" +++ type_name c +++ "' is not iterable")
  end.

(** [a + b] *)
Definition py_add (a b : json) : py json :=
  match a, b with
  | JStr s, JStr t => Ok (JStr (s +++ t))
  | JList l, JList m => Ok (JList (l ++ m))
  | _, _ =>
      match as_num a, as_num b with
      | Some x, Some y => n <- num_add x y ;; Ok (json_of_num n)
      | _, _ =>
          raise TypeError ("unsupported operand type(s) for +: '" +++ type_name a
                           +++ "' and '" +++ type_name b +++ "'")
      end
  end.

(** [v[:n]] for an [int] [n]. *)
Definition slice_to {A : Type} (n : Z) (l : list A) : list A :=
  if 0 <=? n then firstn (Z.to_nat n) l
  else firstn (List.length l - Z.to_nat (- n)) l.

Definition slice_str_to (n : Z) (s : string) : string :=
  if 0 <=? n then take (Z.to_nat n) s
  else take (String.length s - Z.to_nat (- n)) s.

(** [v[:n]] *)
Definition py_slice_to (v n : json) : py json :=
  match v with
  | JList l =>
      match n with
      | JNull => Ok v
      | JInt z => Ok (JList (slice_to z l))
      | JBool b => Ok (JList (slice_to (if b then 1 else 0) l))
      | _ => raise TypeError "slice indices must be integers or None or have an __index__ method"
      end
  | JStr s =>
      match n with
      | JNull => Ok v
      | JInt z => Ok (JStr (slice_str_to z s))
      | JBool b => Ok (JStr (slice_str_to (if b then 1 else 0) s))
      | _ => raise TypeError "slice indices must be integers or None or have an __index__ method"
      end
  | JDict _ => raise TypeError "unhashable type: 'slice'"
  | _ => raise TypeError ("'" +++ type_name v +++ "' object is not subscriptable")
  end.

(** [s[:n] if len(s) > n else s] *)
Definition truncate (n : nat) (s : string) : string :=
  if Z.of_nat n <? len s then take n s else s.

Definition JNat (n : nat) : json := JInt (Z.of_nat n).

(** The mapping every operation returns on an exception:
    [{"error": str(e)}]. *)
Definition error_dict (msg : string) : json := JDict [("error", JStr msg)].

(** ** [AnalysisTools]: the operations on JSON data *)

(** *** [keyword_search] *)

Section KeywordSearch.
Variable keywords : json.
Variable case_sensitive : bool.

(** [keyword_str in search_in], for one keyword and the text of a key
    or of a value. *)
Definition keyword_in (keyword : json) (text : string) : py bool :=
  keyword_str <- (if case_sensitive then Ok keyword
                  else s <- py_lower keyword ;; Ok (JStr s)) ;;
  py_in_str keyword_str (if case_sensitive then text else lower text).

Definition match_count (keyword : json) (text : string) : Z :=
  match keyword with
  | JStr k =>
      if case_sensitive then count k text else count (lower k) (lower text)
  | _ => 0
  end.

(** The loop [for keyword in keywords] over one text; [record] builds
    the match that is appended. *)
Definition scan_keywords (text : string) (record : json -> json) : py (list json) :=
  ks <- py_iter keywords ;;
  for_each (fun keyword =>
              hit <- keyword_in keyword text ;;
              Ok (if hit then [record keyword] else [])) ks.

Definition key_record (current_path key : string) (value keyword : json) : json :=
  JDict [("path", JStr current_path); ("keyword", keyword); ("found_in", JStr "key");
         ("key", JStr key); ("value", JStr (truncate 200 (py_str value)))].

Definition value_record (current_path key value : string) (keyword : json) : json :=
  JDict [("path", JStr current_path); ("keyword", keyword); ("found_in", JStr "value");
         ("key", JStr key); ("value", JStr (truncate 200 value));
         ("match_count", JInt (match_count keyword value))].

Definition string_record (path obj : string) (keyword : json) : json :=
  JDict [("path", JStr path); ("keyword", keyword); ("found_in", JStr "value");
         ("value", JStr (truncate 200 obj));
         ("match_count", JInt (match_count keyword obj))].

(** The matches [search_recursive(obj, path)] appends to [results], in
    the order it appends them. *)
Fixpoint search_recursive (obj : json) (path : string) : py (list json) :=
  match obj with
  | JDict d =>
      for_each (fun '(key, value) =>
                  let current_path := path +++ "." +++ key in
                  in_key <- scan_keywords key (key_record current_path key value) ;;
                  in_value <- match value with
                              | JStr s => scan_keywords s (value_record current_path key s)
                              | _ => search_recursive value current_path
                              end ;;
                  Ok (in_key ++ in_value)) d
  | JList l =>
      for_each_indexed (fun idx item =>
                          search_recursive item (path +++ "[" +++ str_of_nat idx +++ "]")) O l
  | JStr s => scan_keywords s (string_record path s)
  | _ => Ok []
  end.
End KeywordSearch.

Definition keyword_search (data keywords case_sensitive : json) : py json :=
  try_except
    (let keywords := if is_str keywords then JList [keywords] else keywords in
     results <- search_recursive keywords (truthy case_sensitive) data "root" ;;
     Ok (JDict [("success", JBool true); ("keywords", keywords);
                ("total_matches", JNat (List.length results));
                ("matches", JList results)]))
    (fun e => Ok (error_dict (exn_str e))).

(** *** [filter_json] *)

Section FilterJson.
Variable filters : json.

(** One operator of a complex filter: [if op in value and not test:
    return False]. *)
Definition check_op (value : list (string * json)) (op : string)
           (test : json -> py bool) (continue : py bool) : py bool :=
  match dict_get value op with
  | Some arg => ok <- test arg ;; if ok then continue else Ok false
  | None => continue
  end.

Definition check_operators (obj_value : json) (value : list (string * json))
           (continue : py bool) : py bool :=
  check_op value "$gt" (py_cmp OpGt obj_value)
 (check_op value "$lt" (py_cmp OpLt obj_value)
 (check_op value "$gte" (py_cmp OpGe obj_value)
 (check_op value "$lte" (py_cmp OpLe obj_value)
 (check_op value "$eq" (fun arg => Ok (py_eq obj_value arg))
 (check_op value "$ne" (fun arg => Ok (negb (py_eq obj_value arg)))
 (check_op value "$in" (fun arg => py_in obj_value arg)
 (check_op value "$contains" (fun arg => py_in_str arg (py_str obj_value))
  continue))))))).

(** The loop of [check_filters] over [filters.items()]. *)
Fixpoint check_items (obj : list (string * json)) (items : list (string * json)) : py bool :=
  match items with
  | [] => Ok true
  | (key, value) :: rest =>
      match dict_get obj key with
      | None => Ok false
      | Some obj_value =>
          match value with
          | JDict ops => check_operators obj_value ops (check_items obj rest)
          | _ => if py_eq obj_value value then check_items obj rest else Ok false
          end
      end
  end.

Definition check_filters (obj : json) : py bool :=
  match obj with
  | JDict o => items <- py_items filters ;; check_items o items
  | _ => Ok false
  end.

(** The objects [filter_recursive(obj)] appends to [results], in order. *)
Fixpoint filter_recursive (obj : json) : py (list json) :=
  match obj with
  | JDict d =>
      hit <- check_filters obj ;;
      below <- for_each (fun '(_, value) => filter_recursive value) d ;;
      Ok ((if hit then [obj] else []) ++ below)
  | JList l => for_each filter_recursive l
  | _ => Ok []
  end.
End FilterJson.

Definition filter_json (data filters : json) : py json :=
  try_except
    (results <- filter_recursive filters data ;;
     Ok (JDict [("success", JBool true); ("filters_applied", filters);
                ("matches_found", JNat (List.length results));
                ("results", JList results)]))
    (fun e => Ok (error_dict (exn_str e))).

(** *** [aggregate_data] *)

(** The values [extract_values(data)] appends to [values], in order. *)
Fixpoint extract_values (field : json) (obj : json) : list json :=
  match obj with
  | JDict d =>
      flat_map (fun '(key, value) =>
                  if py_eq (JStr key) field then [value] else extract_values field value) d
  | JList l => flat_map (extract_values field) l
  | _ => []
  end.

(** [isinstance(v, (int, float))]; a [bool] is an [int]. *)
Definition is_numeric (v : json) : bool :=
  match v with
  | JBool _ | JInt _ | JFloat _ => true
  | _ => false
  end.

(** [Counter(values)], as the list of its items in insertion order.  The
    keys of this dict are the values themselves, not strings. *)
Fixpoint counter_add (c : list (json * Z)) (v : json) : list (json * Z) :=
  match c with
  | [] => [(v, 1)]
  | (k, n) :: r => if elem_eq k v then (k, n + 1) :: r else (k, n) :: counter_add r v
  end.

Fixpoint Counter (acc : list (json * Z)) (values : list json) : py (list (json * Z)) :=
  match values with
  | [] => Ok acc
  | v :: r =>
      match v with
      | JList _ | JDict _ => unhashable v
      | _ => Counter (counter_add acc v) r
      end
  end.

Definition items_json (c : list (json * Z)) : json :=
  JList (map (fun kn => JList [fst kn; JInt (snd kn)]) c).

(** [sum(l)]: the additions from left to right, starting from the [int]
    0.  On [int] and [bool] items this is exact; CPython from 3.12 on
    compensates the rounding of [float] partial sums, which is not
    modelled. *)
Fixpoint sum_from (acc : num) (l : list json) : py num :=
  match l with
  | [] => Ok acc
  | v :: r =>
      match as_num v with
      | Some n => acc' <- num_add acc n ;; sum_from acc' r
      | None => raise TypeError ("unsupported operand type(s) for +: 'int' and '"
                                 +++ type_name v +++ "'")
      end
  end.

Definition py_sum (l : list json) : py num := sum_from (NZ 0) l.

(** [x < y] on two numeric values. *)
Definition num_lt (x y : json) : bool :=
  match as_num x, as_num y with
  | Some a, Some b => op_holds OpLt (num_compare a b)
  | _, _ => false
  end.

(** [min(l)] and [max(l)]: the first smallest and first largest item. *)
Definition py_min (first : json) (rest : list json) : json :=
  fold_left (fun cur v => if num_lt v cur then v else cur) rest first.

Definition py_max (first : json) (rest : list json) : json :=
  fold_left (fun cur v => if num_lt cur v then v else cur) rest first.

Definition aggregate_data (data field operation : json) : py json :=
  try_except
    (let values := extract_values field data in
     let result := [("success", JBool true); ("field", field); ("operation", operation);
                    ("total_values", JNat (List.length values))] in
     if py_eq operation (JStr "count") then
       counts <- Counter [] values ;;
       Ok (JDict (result ++ [("result", JNat (List.length values));
                             ("value_counts", items_json counts)]))
     else if existsb (elem_eq operation) [JStr "sum"; JStr "avg"; JStr "min"; JStr "max"] then
       let numeric_values := filter is_numeric values in
       match numeric_values with
       | [] => Ok (error_dict ("No numeric values found for field '" +++ py_str field +++ "'"))
       | first :: rest =>
           r <- (if py_eq operation (JStr "sum") then
                   s <- py_sum numeric_values ;; Ok (json_of_num s)
                 else if py_eq operation (JStr "avg") then
                   s <- py_sum numeric_values ;;
                   q <- num_truediv s (NZ (Z.of_nat (List.length numeric_values))) ;;
                   Ok (json_of_num q)
                 else if py_eq operation (JStr "min") then Ok (py_min first rest)
                 else Ok (py_max first rest)) ;;
           Ok (JDict (result ++ [("result", r);
                                 ("numeric_values_count", JNat (List.length numeric_values))]))
       end
     else Ok (error_dict ("Unknown operation: " +++ py_str operation)))
    (fun e => Ok (error_dict (exn_str e))).

(** *** [extract_hashtags] *)

Definition emit_tag (cur : option string) : list string :=
  match cur with
  | Some (String c r) => [String c r]
  | _ => []
  end.

(** [re.findall(r'#(\w+)', s)]: [cur] is the tag being read, if a [#]
    has been seen. *)
Fixpoint findall_hashtags (cur : option string) (s : string) : list string :=
  match s with
  | EmptyString => emit_tag cur
  | String c r =>
      let restart := if Nat.eqb (nat_of_char c) 35 then Some "" else None in
      match cur with
      | Some w =>
          if is_word c then findall_hashtags (Some (w +++ String c "")) r
          else emit_tag cur ++ findall_hashtags restart r
      | None => findall_hashtags restart r
      end
  end.

Fixpoint find_hashtags (obj : json) : list string :=
  match obj with
  | JStr s => findall_hashtags None s
  | JDict d => flat_map (fun '(_, value) => find_hashtags value) d
  | JList l => flat_map find_hashtags l
  | _ => []
  end.

Fixpoint count_tag (c : list (string * Z)) (t : string) : list (string * Z) :=
  match c with
  | [] => [(t, 1)]
  | (k, n) :: r => if String.eqb k t then (k, n + 1) :: r else (k, n) :: count_tag r t
  end.

(** Insertion into a list sorted by decreasing count, after the items of
    the same count. *)
Fixpoint insert_by_count (x : string * Z) (l : list (string * Z)) : list (string * Z) :=
  match l with
  | [] => [x]
  | y :: r => if snd y <? snd x then x :: y :: r else y :: insert_by_count x r
  end.

(** [Counter.most_common(n)]: by decreasing count, equal counts in the
    order of first occurrence.  Its pairs [(tag, count)] are tuples,
    given below as two-element lists. *)
Definition most_common (n : nat) (c : list (string * Z)) : list (string * Z) :=
  firstn n (fold_left (fun acc x => insert_by_count x acc) c []).

Definition extract_hashtags (data : json) : py json :=
  try_except
    (let hashtags := find_hashtags data in
     let hashtag_counts := fold_left count_tag hashtags [] in
     Ok (JDict [("success", JBool true);
                ("total_hashtags", JNat (List.length hashtags));
                ("unique_hashtags", JNat (List.length hashtag_counts));
                ("top_10", JList (map (fun tn => JList [JStr (fst tn); JInt (snd tn)])
                                      (most_common 10 hashtag_counts)));
                ("all_hashtags", JDict (map (fun tn => (fst tn, JInt (snd tn))) hashtag_counts))]))
    (fun e => Ok (error_dict (exn_str e))).

(** *** [compare_files] *)

(** The differences [compare_recursive(obj1, obj2, path)] returns.  The
    keys of two dicts are visited in the order of a Python [set], which
    the language leaves open: here the keys of [obj1], then those only in
    [obj2]. *)
Fixpoint compare_recursive (obj1 obj2 : json) (path : string) : list json :=
  if negb (same_type obj1 obj2) then
    [JDict [("path", JStr path); ("type", JStr "type_mismatch");
            ("file1_type", JStr (type_name obj1)); ("file2_type", JStr (type_name obj2))]]
  else
    match obj1 with
    | JDict d1 =>
        let d2 := match obj2 with JDict d => d | _ => [] end in
        flat_map (fun '(key, value1) =>
                    let current_path := path +++ "." +++ key in
                    match dict_get d2 key with
                    | None => [JDict [("path", JStr current_path);
                                      ("type", JStr "missing_in_file2"); ("value", value1)]]
                    | Some value2 => compare_recursive value1 value2 current_path
                    end) d1
        ++ flat_map (fun kv =>
                       if dict_has d1 (fst kv) then []
                       else [JDict [("path", JStr (path +++ "." +++ fst kv));
                                    ("type", JStr "missing_in_file1"); ("value", snd kv)]]) d2
    | JList l1 =>
        let l2 := match obj2 with JList l => l | _ => [] end in
        (if negb (Nat.eqb (List.length l1) (List.length l2)) then
           [JDict [("path", JStr path); ("type", JStr "length_mismatch");
                   ("file1_length", JNat (List.length l1));
                   ("file2_length", JNat (List.length l2))]]
         else [])
        ++ flat_map_pairs (fun idx x y =>
                             compare_recursive x y (path +++ "[" +++ str_of_nat idx +++ "]"))
                          O l1 l2
    | _ =>
        if negb (py_eq obj1 obj2) then
          [JDict [("path", JStr path); ("type", JStr "value_mismatch");
                  ("file1_value", JStr (take 100 (py_str obj1)));
                  ("file2_value", JStr (take 100 (py_str obj2)))]]
        else []
    end.

(** ** The world outside the program *)

(** What the operations read from outside: the JSON decoder of the
    standard library, the file system, which is not changed by the
    program, and the clock of the files.  Each primitive either returns
    or raises. *)
Record World : Type := {
  (** [json.loads(s)] *)
  json_loads : string -> py json;
  (** [Path(p).exists()] *)
  path_exists : string -> py bool;
  (** [open(p, 'r', encoding='utf-8').read()] *)
  read_text : string -> py string;
  (** [open(fd, 'r', encoding='utf-8').read()] for a file descriptor *)
  read_fd : Z -> py string;
  (** [[str(f) for f in Path(p).glob("*.json")]] *)
  glob_json : string -> py (list string);
  (** [Path(p).stat().st_size] *)
  stat_size : string -> py Z;
  (** [datetime.fromtimestamp(Path(p).stat().st_mtime).isoformat()] *)
  stat_modified : string -> py string
}.

Inductive event : Type :=
| Generate (iteration : nat)   (** [self.model.generate_content(prompt)] *)
| Dispatch (tool : string)     (** a call of an [AnalysisTools] operation *)
| Sleep (seconds : Z).         (** [time.sleep(seconds)] *)

(** [Path(v)] *)
Definition py_path (v : json) : py string :=
  match v with
  | JStr s => Ok s
  | _ => raise TypeError ("expected str, bytes or os.PathLike object, not " +++ type_name v)
  end.

(** [Path(dir) / name] *)
Definition path_join (dir name : string) : string :=
  if starts_with "/" name then name
  else if String.eqb dir "." then name
  else dir +++ "/" +++ name.

(** [Path(p).name] *)
Fixpoint basename_from (s acc : string) : string :=
  match s with
  | EmptyString => acc
  | String c r => if Nat.eqb (nat_of_char c) 47 then basename_from r r else basename_from r acc
  end.

Definition basename (p : string) : string := basename_from p p.

(** [with open(v, 'r', encoding='utf-8') as f: json.load(f)] *)
Definition load_json (w : World) (v : json) : py json :=
  content <- match v with
             | JStr p => read_text w p
             | JInt fd => read_fd w fd
             | JBool b => read_fd w (if b then 1 else 0)
             | _ => raise TypeError ("expected str, bytes or os.PathLike object, not "
                                     +++ type_name v)
             end ;;
  json_loads w content.

(** *** [safe_json_loads] *)

(** [re.sub(pre \s* post, repl, s)] for fixed texts [pre] and [post]
    where [post] does not start with white space. *)
Fixpoint sub_spaced (fuel : nat) (pre post repl s : string) : string :=
  match fuel with
  | O => s
  | S fuel' =>
      let after := lstrip (drop (String.length pre) s) in
      if (starts_with pre s && starts_with post after
          && negb (String.eqb (pre +++ post) ""))%bool
      then repl +++ sub_spaced fuel' pre post repl (drop (String.length post) after)
      else match s with
           | EmptyString => ""
           | String c r => String c (sub_spaced fuel' pre post repl r)
           end
  end.

Definition re_sub (pre post repl s : string) : string :=
  sub_spaced (S (String.length s)) pre post repl s.

Fixpoint index_of (c : nat) (s : string) : option nat :=
  match s with
  | EmptyString => None
  | String x r =>
      if Nat.eqb (nat_of_char x) c then Some O
      else option_map S (index_of c r)
  end.

Fixpoint last_index_of (c : nat) (s : string) : option nat :=
  match s with
  | EmptyString => None
  | String x r =>
      match last_index_of c r with
      | Some i => Some (S i)
      | None => if Nat.eqb (nat_of_char x) c then Some O else None
      end
  end.

(** [re.search(r'\{.*\}', s, re.DOTALL)]: from the first [{] to the last
    [}] after it. *)
Definition search_braces (s : string) : option string :=
  match index_of 123 s with
  | None => None
  | Some i =>
      let from := drop i s in
      match last_index_of 125 from with
      | Some j => Some (take (S j) from)
      | None => None
      end
  end.

Definition fix_json_string (s : string) : string :=
  let s := re_sub "```json" "" "" s in
  let s := re_sub "```" "" "" s in
  let s := re_sub "," "}" "}" s in
  let s := re_sub "," "]" "]" s in
  match search_braces s with
  | Some m => m
  | None => s
  end.

(** The loop of [safe_json_loads]: [attempt] counts from 0, [left] is the
    number of attempts that remain.  [JNull] is Python's [None]. *)
Fixpoint safe_json_loads_from (w : World) (left attempt max_retries : nat)
         (json_string : string) : py json :=
  match left with
  | O => Ok JNull
  | S left' =>
      match json_loads w json_string with
      | Ok v => Ok v
      | Raise e =>
          if exn_class_eqb (exn_cls e) JSONDecodeError then
            if Nat.ltb attempt (max_retries - 1) then
              safe_json_loads_from w left' (S attempt) max_retries (fix_json_string json_string)
            else Ok JNull
          else Raise e
      end
  end.

Definition safe_json_loads (w : World) (json_string : string) : py json :=
  safe_json_loads_from w 3 0 3 json_string.

(** *** [retry_on_error] *)

(** The wrapper the decorator builds around [func]: what it returns and
    the sleeps between attempts.  [func] reads a world that does not
    change, so every attempt computes the same. *)
Fixpoint retry_from (left attempt max_retries : nat) (name : string) (func : py json)
         (last_exception : string) : py json * list event :=
  match left with
  | O => (Ok (JDict [("error", JStr ("Failed after " +++ str_of_nat max_retries +++ " attempts"));
                     ("last_error", JStr last_exception); ("function", JStr name)]), [])
  | S left' =>
      match func with
      | Ok r => (Ok r, [])
      | Raise e =>
          let sleeps := if Nat.ltb attempt (max_retries - 1)
                        then [Sleep (Z.of_nat (S attempt))] else [] in
          let '(r, evs) := retry_from left' (S attempt) max_retries name func (exn_str e) in
          (r, sleeps ++ evs)
      end
  end.

Definition retry_on_error (max_retries : nat) (name : string) (func : py json)
  : py json * list event :=
  retry_from max_retries 0 max_retries name func "None".

(** *** The consolidated data *)

Definition data_dir : string := "data/consolidated".

(** The part [if platform in [name, "all"]: ... result[name] = json.load(f)]
    of [get_consolidated_data] and [get_media_summary]. *)
Definition load_platform (w : World) (platform : json) (name file : string)
           (result : list (string * json)) : py (list (string * json)) :=
  if existsb (elem_eq platform) [JStr name; JStr "all"] then
    let path := path_join data_dir file in
    there <- path_exists w path ;;
    if there then
      v <- load_json w (JStr path) ;;
      Ok (dict_set result name v)
    else Ok result
  else Ok result.

Definition get_consolidated_data (w : World) (platform : json) : py json :=
  try_except
    (there <- path_exists w data_dir ;;
     if negb there then
       Ok (JDict [("error", JStr "Consolidated data not found. Run consolidate_media_data.py first");
                  ("suggestion", JStr "python consolidate_media_data.py")])
     else
       result <- load_platform w platform "instagram" "instagram_consolidated.json" [] ;;
       result <- load_platform w platform "youtube" "youtube_consolidated.json" result ;;
       match result with
       | [] => Ok (error_dict ("No consolidated data found for platform: " +++ py_str platform))
       | _ => Ok (JDict [("success", JBool true); ("platform", platform);
                         ("data", JDict result)])
       end)
    (fun e => Ok (error_dict ("Failed to load consolidated data: " +++ exn_str e))).

Definition get_media_summary (w : World) (platform : json) : py json :=
  try_except
    (there <- path_exists w data_dir ;;
     if negb there then
       Ok (error_dict "Consolidated data not found. Run consolidate_media_data.py first")
     else
       result <- load_platform w platform "instagram" "instagram_summary.json" [] ;;
       result <- load_platform w platform "youtube" "youtube_summary.json" result ;;
       match result with
       | [] => Ok (error_dict ("No summary data found for platform: " +++ py_str platform))
       | _ => Ok (JDict [("success", JBool true); ("platform", platform);
                         ("summaries", JDict result)])
       end)
    (fun e => Ok (error_dict ("Failed to load summary data: " +++ exn_str e))).

(** *** [search_media_content] *)

(** [d[k]] *)
Definition py_getitem (v : json) (k : string) : py json :=
  match v with
  | JDict d =>
      match dict_get d k with
      | Some x => Ok x
      | None => raise KeyError (repr_str k)
      end
  | _ => raise TypeError ("'" +++ type_name v +++ "' object is not subscriptable")
  end.

(** The body of [for post in data["instagram"].get("posts", [])]. *)
Definition instagram_result (query_lower : string) (post : json) : py (list json) :=
  c <- py_get post "caption" (JStr "") ;;
  caption <- py_lower c ;;
  hs <- py_get post "hashtags" (JList []) ;;
  hl <- py_iter hs ;;
  hashtags <- map_py py_lower hl ;;
  if (contains query_lower caption || contains query_lower (join " " hashtags))%bool then
    type <- py_get post "type" (JStr "") ;;
    url <- py_get post "url" (JStr "") ;;
    caption200 <- py_slice_to c (JInt 200) ;;
    hashtags10 <- py_slice_to hs (JInt 10) ;;
    likes <- py_get post "likes" (JInt 0) ;;
    comments <- py_get post "comments" (JInt 0) ;;
    creator <- py_get post "creator" (JStr "") ;;
    Ok [JDict [("platform", JStr "instagram"); ("type", type); ("url", url);
               ("caption", caption200); ("hashtags", hashtags10); ("likes", likes);
               ("comments", comments); ("creator", creator)]]
  else Ok [].

(** The body of [for video in data["youtube"].get("videos", [])]. *)
Definition youtube_result (query_lower : string) (video : json) : py (list json) :=
  t <- py_get video "title" (JStr "") ;;
  title <- py_lower t ;;
  d <- py_get video "description" (JStr "") ;;
  description <- py_lower d ;;
  ts <- py_get video "tags" (JList []) ;;
  tl <- py_iter ts ;;
  tags <- map_py py_lower tl ;;
  if (contains query_lower title || contains query_lower description
      || contains query_lower (join " " tags))%bool then
    url <- py_get video "url" (JStr "") ;;
    title200 <- py_slice_to t (JInt 200) ;;
    description200 <- py_slice_to d (JInt 200) ;;
    tags10 <- py_slice_to ts (JInt 10) ;;
    views <- py_get video "views" (JInt 0) ;;
    likes <- py_get video "likes" (JInt 0) ;;
    channel <- py_get video "channel" (JStr "") ;;
    Ok [JDict [("platform", JStr "youtube"); ("url", url); ("title", title200);
               ("description", description200); ("tags", tags10); ("views", views);
               ("likes", likes); ("channel", channel)]]
  else Ok [].

(** [if name in data: for item in data[name].get(field, []): ...] *)
Definition search_platform (data : json) (name field : string)
           (body : json -> py (list json)) : py (list json) :=
  present <- py_in (JStr name) data ;;
  if present then
    section <- py_getitem data name ;;
    items <- py_get section field (JList []) ;;
    l <- py_iter items ;;
    for_each body l
  else Ok [].

(** [x.get("likes", 0) + x.get("views", 0) + x.get("comments", 0)] *)
Definition engagement (x : json) : py json :=
  likes <- py_get x "likes" (JInt 0) ;;
  views <- py_get x "views" (JInt 0) ;;
  comments <- py_get x "comments" (JInt 0) ;;
  lv <- py_add likes views ;;
  py_add lv comments.

(** Insertion into a list sorted by decreasing key, after the items whose
    key is not smaller. *)
Fixpoint insert_desc (x : json * json) (l : list (json * json)) : py (list (json * json)) :=
  match l with
  | [] => Ok [x]
  | y :: r =>
      smaller <- py_cmp OpLt (fst y) (fst x) ;;
      if smaller then Ok (x :: y :: r)
      else r' <- insert_desc x r ;; Ok (y :: r')
  end.

Fixpoint sort_desc (l : list (json * json)) (acc : list (json * json)) : py (list (json * json)) :=
  match l with
  | [] => Ok acc
  | x :: r => acc' <- insert_desc x acc ;; sort_desc r acc'
  end.

(** [sorted(results, key=key, reverse=True)]: the keys are computed
    first; items of equal key keep their order. *)
Definition sorted_desc (key : json -> py json) (results : list json) : py (list json) :=
  keyed <- map_py (fun x => k <- key x ;; Ok (k, x)) results ;;
  s <- sort_desc keyed [] ;;
  Ok (map snd s).

Definition search_media_content (w : World) (query platform limit : json) : py json :=
  try_except
    (consolidated <- get_consolidated_data w platform ;;
     failed <- py_in (JStr "error") consolidated ;;
     if failed then Ok consolidated
     else
       query_lower <- py_lower query ;;
       data <- py_get consolidated "data" (JDict []) ;;
       posts <- search_platform data "instagram" "posts" (instagram_result query_lower) ;;
       videos <- search_platform data "youtube" "videos" (youtube_result query_lower) ;;
       ranked <- sorted_desc engagement (posts ++ videos) ;;
       results <- py_slice_to (JList ranked) limit ;;
       n <- match results with
            | JList l => Ok (JNat (List.length l))
            | _ => raise TypeError "object has no len()"
            end ;;
       Ok (JDict [("success", JBool true); ("query", query);
                  ("total_results", n); ("results", results)]))
    (fun e => Ok (error_dict ("Search failed: " +++ exn_str e))).

(** *** [list_json_files] *)

(** [round(f, 2)]: the exact value of [f] rounded to two decimals, ties
    to even, then the nearest float. *)
Definition py_round2 (f : float) : float :=
  match Prim2SF f with
  | S754_finite s m e =>
      let n := (if 0 <=? e then Zpos m * 2 ^ e else Zpos m) * 100 in
      let d := if 0 <=? e then 1 else 2 ^ (- e) in
      let lo := n / d in
      let r := n mod d in
      let y := if 2 * r <? d then lo else if d <? 2 * r then lo + 1
               else if Z.even lo then lo else lo + 1 in
      float_of_ratio (if s then - y else y) 100
  | _ => f
  end.

(** The body of [for file in path.glob("*.json")], with its
    [try ... except Exception: continue]. *)
Definition file_entry (w : World) (file : string) : py (list json) :=
  try_except
    (size <- stat_size w file ;;
     modified <- stat_modified w file ;;
     kb <- num_truediv (NZ size) (NZ 1024) ;;
     let size_kb := match kb with NF f => JFloat (py_round2 f) | NZ z => JInt z end in
     Ok [JDict [("filename", JStr (basename file)); ("path", JStr file);
                ("size_bytes", JInt size); ("size_kb", size_kb);
                ("modified", JStr modified)]])
    (fun _ => Ok []).

Definition modified_of (x : json) : py json := py_getitem x "modified".

Definition list_json_files_body (w : World) (directory : json) : py json :=
  try_except
    (path <- py_path directory ;;
     there <- path_exists w path ;;
     if negb there then Ok (error_dict ("Directory " +++ py_str directory +++ " not found"))
     else
       files <- glob_json w path ;;
       json_files <- for_each (file_entry w) files ;;
       sorted <- sorted_desc modified_of json_files ;;
       Ok (JDict [("success", JBool true); ("count", JNat (List.length json_files));
                  ("files", JList sorted)]))
    (fun e => Ok (error_dict (exn_str e))).

Definition list_json_files (w : World) (directory : json) : py json * list event :=
  retry_on_error 2 "list_json_files" (list_json_files_body w directory).

(** *** [read_json_file] *)

(** [for search_dir in [...]: ... if search_path.exists(): path =
    search_path; break], [None] when the loop ends without [break]. *)
Fixpoint find_in_dirs (w : World) (dirs : list string) (filename : string) : py (option string) :=
  match dirs with
  | [] => Ok None
  | search_dir :: rest =>
      let search_path := path_join search_dir filename in
      there <- path_exists w search_path ;;
      if there then Ok (Some search_path) else find_in_dirs w rest filename
  end.

Definition keys_json (data : json) : json :=
  match data with
  | JDict d => JList (map (fun kv => JStr (fst kv)) d)
  | _ => JNull
  end.

Definition length_json (data : json) : json :=
  match data with
  | JDict d => JNat (List.length d)
  | JList l => JNat (List.length l)
  | _ => JNull
  end.

(** What [read_json_file] does once [path] is known. *)
Definition read_found (w : World) (path : string) : py json :=
  content <- read_text w path ;;
  data <- safe_json_loads w content ;;
  match data with
  | JNull =>
      Ok (JDict [("error", JStr "Failed to parse JSON file"); ("filename", JStr path);
                 ("content_preview", JStr (truncate 200 content))])
  | _ =>
      size <- stat_size w path ;;
      Ok (JDict [("success", JBool true); ("filename", JStr path); ("data", data);
                 ("summary", JDict [("type", JStr (type_name data)); ("keys", keys_json data);
                                    ("length", length_json data); ("file_size", JInt size)])])
  end.

Definition read_json_file_body (w : World) (filename : json) : py json :=
  try_except
    (path <- py_path filename ;;
     there <- path_exists w path ;;
     if there then read_found w path
     else
       found <- find_in_dirs w ["."; "data"; "data/accounts"] path ;;
       match found with
       | Some search_path => read_found w search_path
       | None => Ok (error_dict ("File " +++ py_str filename
                                 +++ " not found in any known location"))
       end)
    (fun e =>
       let prefix :=
         if exn_class_eqb (exn_cls e) UnicodeDecodeError then "File encoding error: "
         else if exn_class_eqb (exn_cls e) PermissionError then "Permission denied: "
         else "Unexpected error: " in
       Ok (JDict [("error", JStr (prefix +++ exn_str e)); ("filename", filename)])).

Definition read_json_file (w : World) (filename : json) : py json * list event :=
  retry_on_error 2 "read_json_file" (read_json_file_body w filename).

(** *** [compare_files] *)

Definition compare_files (w : World) (file1 file2 : json) : py json :=
  try_except
    (data1 <- load_json w file1 ;;
     data2 <- load_json w file2 ;;
     let diffs := compare_recursive data1 data2 "root" in
     Ok (JDict [("success", JBool true); ("file1", file1); ("file2", file2);
                ("differences_count", JNat (List.length diffs));
                ("differences", JList (firstn 50 diffs))]))
    (fun e => Ok (error_dict (exn_str e))).

(** ** [AIAgent] *)

Record tool_descriptor : Type := {
  name : string;
  description : string;
  parameters : list (string * string)
}.

Definition platform_parameter : list (string * string) :=
  [("platform", "Platform: 'instagram', 'youtube', or 'all' (default)")].

Definition get_available_tools : list tool_descriptor :=
  [ {| name := "get_consolidated_data";
       description := "Get consolidated Instagram/YouTube data (FAST - use this first!)";
       parameters := platform_parameter |};
    {| name := "get_media_summary";
       description := "Get lightweight summary of Instagram/YouTube data (VERY FAST - quick stats)";
       parameters := platform_parameter |};
    {| name := "search_media_content";
       description := "Search through Instagram/YouTube content by keywords (FAST)";
       parameters := [("query", "Search query/keyword");
                      ("platform", "Platform: 'instagram', 'youtube', or 'all'");
                      ("limit", "Max results (default: 20)")] |};
    {| name := "list_json_files";
       description := "List all JSON files in a directory with metadata (size, modified date)";
       parameters := [("directory", "Directory path (default: current directory)")] |};
    {| name := "read_json_file";
       description := "Read and parse a JSON file, returning its contents and summary";
       parameters := [("filename", "Path to the JSON file")] |};
    {| name := "keyword_search";
       description := "Search for keywords in JSON data recursively";
       parameters := [("data", "JSON data to search in");
                      ("keywords", "List of keywords to search for");
                      ("case_sensitive", "Whether to do case-sensitive search (default: False)")] |};
    {| name := "filter_json";
       description := "Filter JSON data based on conditions (supports $gt, $lt, $eq, $ne, $in, $contains)";
       parameters := [("data", "JSON data to filter");
                      ("filters", "Dictionary of filter conditions")] |};
    {| name := "aggregate_data";
       description := "Aggregate data from JSON (count, sum, avg, min, max)";
       parameters := [("data", "JSON data");
                      ("field", "Field name to aggregate");
                      ("operation", "Operation: count, sum, avg, min, max")] |};
    {| name := "extract_hashtags";
       description := "Extract and count hashtags from text fields in JSON data";
       parameters := [("data", "JSON data containing text with hashtags")] |};
    {| name := "compare_files";
       description := "Compare two JSON files and find differences";
       parameters := [("file1", "Path to first JSON file");
                      ("file2", "Path to second JSON file")] |} ].

(** *** [execute_tool] *)

(** One pass through the [if tool_name == ...] chain. *)
Inductive dispatched : Type :=
| Rejected (r : json)                        (** a [return] before any operation is called *)
| Called (r : py json) (evs : list event).   (** [result = self.tools.<operation>(...)] *)

Definition call (tool : string) (r : py json) : dispatched :=
  Called r [Dispatch tool].

Definition call_retried (tool : string) (r : py json * list event) : dispatched :=
  Called (fst r) (Dispatch tool :: snd r).

Definition missing (what : string) : dispatched :=
  Rejected (error_dict ("Missing required parameter" +++ what)).

(** [parameters.get(k)] *)
Definition param (parameters : list (string * json)) (k : string) : json :=
  get_default parameters k JNull.

Definition dispatch (w : World) (tool_name : json) (parameters : list (string * json))
  : dispatched :=
  let is_tool t := py_eq tool_name (JStr t) in
  if is_tool "get_consolidated_data" then
    let platform := get_default parameters "platform" (JStr "all") in
    call "get_consolidated_data" (get_consolidated_data w platform)
  else if is_tool "get_media_summary" then
    let platform := get_default parameters "platform" (JStr "all") in
    call "get_media_summary" (get_media_summary w platform)
  else if is_tool "search_media_content" then
    let query := param parameters "query" in
    let platform := get_default parameters "platform" (JStr "all") in
    let limit := get_default parameters "limit" (JInt 20) in
    if negb (truthy query) then missing ": query"
    else call "search_media_content" (search_media_content w query platform limit)
  else if is_tool "list_json_files" then
    let directory := get_default parameters "directory" (JStr ".") in
    call_retried "list_json_files" (list_json_files w directory)
  else if is_tool "read_json_file" then
    let filename := param parameters "filename" in
    if negb (truthy filename) then missing ": filename"
    else call_retried "read_json_file" (read_json_file w filename)
  else if is_tool "keyword_search" then
    let data := param parameters "data" in
    let keywords := param parameters "keywords" in
    let case_sensitive := get_default parameters "case_sensitive" (JBool false) in
    if (negb (truthy data) || negb (truthy keywords))%bool then missing "s: data, keywords"
    else call "keyword_search" (keyword_search data keywords case_sensitive)
  else if is_tool "filter_json" then
    let data := param parameters "data" in
    let filters := param parameters "filters" in
    if (negb (truthy data) || negb (truthy filters))%bool then missing "s: data, filters"
    else call "filter_json" (filter_json data filters)
  else if is_tool "aggregate_data" then
    let data := param parameters "data" in
    let field := param parameters "field" in
    let operation := get_default parameters "operation" (JStr "count") in
    if (negb (truthy data) || negb (truthy field))%bool then missing "s: data, field"
    else call "aggregate_data" (aggregate_data data field operation)
  else if is_tool "extract_hashtags" then
    let data := param parameters "data" in
    if negb (truthy data) then missing ": data"
    else call "extract_hashtags" (extract_hashtags data)
  else if is_tool "compare_files" then
    let file1 := param parameters "file1" in
    let file2 := param parameters "file2" in
    if (negb (truthy file1) || negb (truthy file2))%bool then missing "s: file1, file2"
    else call "compare_files" (compare_files w file1 file2)
  else Rejected (error_dict ("Unknown tool: " +++ py_str tool_name)).

(** The return after the retries are used up. *)
Definition execution_failed (max_retries : nat) (last_error tool_name : json) : json :=
  JDict [("error", JStr ("Tool execution failed after " +++ str_of_nat max_retries
                         +++ " attempts"));
         ("last_error", last_error); ("tool", tool_name)].

(** [isinstance(result, dict) and "error" in result] *)
Definition has_error (result : json) : bool :=
  match result with
  | JDict d => dict_has d "error"
  | _ => false
  end.

(** The loop [for attempt in range(max_retries)] of [execute_tool], from
    [attempt] on, with [left] attempts to go. *)
Fixpoint execute_from (w : World) (tool_name parameters : json)
         (left attempt max_retries : nat) (last_error : json) : json * list event :=
  match left with
  | O => (execution_failed max_retries last_error tool_name, [])
  | S left' =>
      match parameters with
      | JDict params =>
          match dispatch w tool_name params with
          | Rejected r => (r, [])
          | Called (Ok result) evs =>
              if (has_error result && Nat.ltb attempt (max_retries - 1))%bool then
                let last_error := match result with
                                  | JDict d => get_default d "error" JNull
                                  | _ => JNull
                                  end in
                let '(r, evs') := execute_from w tool_name parameters left' (S attempt)
                                               max_retries last_error in
                (r, evs ++ Sleep (Z.of_nat (S attempt)) :: evs')
              else (result, evs)
          | Called (Raise e) evs =>
              if Nat.ltb attempt (max_retries - 1) then
                let '(r, evs') := execute_from w tool_name parameters left' (S attempt)
                                               max_retries (JStr (exn_str e)) in
                (r, evs ++ Sleep (Z.of_nat (S attempt)) :: evs')
              else (execution_failed max_retries (JStr (exn_str e)) tool_name, evs)
          end
      | _ => (error_dict "Parameters must be a dictionary", [])
      end
  end.

(** [execute_tool(tool_name, parameters, max_retries)]: what it returns
    and what it did, in order. *)
Definition execute_tool (w : World) (tool_name parameters : json) (max_retries : nat)
  : json * list event :=
  execute_from w tool_name parameters max_retries 0 max_retries JNull.

(** *** [run] *)

Definition fence : string := "```".

(** The group of [(.*?)\s*```] at the start of [s]: the shortest prefix
    after which white space and a fence follow. *)
Fixpoint until_fence (s : string) : option string :=
  if starts_with fence (lstrip s) then Some ""
  else match s with
       | EmptyString => None
       | String c r => option_map (String c) (until_fence r)
       end.

(** [re.search(opening + r'\s*(.*?)\s*```', s, re.DOTALL)], its group 1. *)
Fixpoint search_fenced (opening : string) (s : string) : option string :=
  match (if starts_with opening s
         then until_fence (lstrip (drop (String.length opening) s)) else None) with
  | Some g => Some g
  | None => match s with
            | EmptyString => None
            | String _ r => search_fenced opening r
            end
  end.

(** The text handed to [json.loads]: the content of a [```json] block,
    else of any fenced block, else the response itself. *)
Definition extract_json_text (response_text : string) : string :=
  match search_fenced "```json" response_text with
  | Some g => g
  | None =>
      if contains fence response_text then
        match search_fenced fence response_text with
        | Some g => g
        | None => response_text
        end
      else response_text
  end.

(** The three [return]s with ["success": True] and the one with
    ["success": False].  [Exhausted] is the return after the loop, whose
    [final_answer] is the text [Maximum iterations reached. Here's what I
    found:] followed by [json.dumps(iterations, indent=2)]. *)
Inductive run_result : Type :=
| Answered (iterations : list json) (final_answer : json) (total_iterations : nat)
| Exhausted (iterations : list json) (total_iterations : nat)
| Failed (error : string) (iterations : list json) (iteration_failed : nat).

Definition iteration_record (iteration : nat) (tool_name parameters tool_result : json) : json :=
  JDict [("iteration", JNat (S iteration)); ("tool", tool_name);
         ("parameters", parameters); ("result", tool_result)].

(** What one pass of the loop of [run] does with the text of the model. *)
Inductive step : Type :=
| Return (r : run_result)
| Continue (iterations : list json) (evs : list event).

Definition run_step (w : World) (iteration : nat) (iterations : list json) (text : string)
  : step :=
  let response_text := extract_json_text (strip text) in
  match json_loads w response_text with
  | Raise e =>
      if exn_class_eqb (exn_cls e) JSONDecodeError
      then Return (Answered iterations (JStr response_text) (S iteration))
      else Return (Failed (exn_str e) iterations (S iteration))
  | Ok (JDict action_data) =>
      let action := get_default action_data "action" JNull in
      if py_eq action (JStr "answer") then
        Return (Answered iterations (get_default action_data "response" JNull) (S iteration))
      else if py_eq action (JStr "use_tool") then
        let tool_name := get_default action_data "tool" JNull in
        let parameters := get_default action_data "parameters" (JDict []) in
        let '(tool_result, evs) := execute_tool w tool_name parameters 2 in
        Continue (iterations ++ [iteration_record iteration tool_name parameters tool_result])
                 evs
      else Continue iterations []
  | Ok action_data =>
      (* [action_data.get] raises [AttributeError], caught by the outer [except] *)
      Return (Failed (exn_str (no_attribute_exn action_data "get")) iterations (S iteration))
  end.

(** The loop [for iteration in range(self.max_iterations)] of [run], from
    [iteration] on, with [left] iterations to go.  [model i] is the text
    of the response to the prompt of iteration [i], or the exception of
    the call; the prompt is built from the tools, the query and the
    iterations so far by operations that do not raise. *)
Fixpoint run_from (w : World) (model : nat -> py string)
         (left iteration max_iterations : nat) (iterations : list json)
  : run_result * list event :=
  match left with
  | O => (Exhausted iterations max_iterations, [])
  | S left' =>
      match model iteration with
      | Raise e => (Failed (exn_str e) iterations (S iteration), [Generate iteration])
      | Ok text =>
          match run_step w iteration iterations text with
          | Return r => (r, [Generate iteration])
          | Continue iterations' evs =>
              let '(r, evs') := run_from w model left' (S iteration) max_iterations iterations' in
              (r, Generate iteration :: evs ++ evs')
          end
      end
  end.

(** [AIAgent.run]: the result, and the model invocations, tool calls and
    sleeps of the run in order. *)
Definition run (w : World) (model : nat -> py string) (max_iterations : nat)
  : run_result * list event :=
  run_from w model max_iterations 0 max_iterations [].

(** The number of model invocations among the events of a run. *)
Definition invocations (evs : list event) : nat :=
  List.length (filter (fun e => match e with Generate _ => true | _ => false end) evs).

(** ** A reference world *)

(** *** [json.loads]

    The decoder of the standard library on texts of the modelled
    alphabet: the JSON grammar, with the constants [NaN], [Infinity] and
    [-Infinity] that Python accepts.  An escape [\uXXXX] above U+00FF has
    no character in this alphabet and is refused.  The recursion is on a
    bound: every call consumes a character, so the length of the text is
    enough. *)
Module Decoder.

Inductive parsed (A : Type) : Type :=
| Done (a : A) (rest : string)
| Fail (msg : string) (at_rest : string).
Arguments Done {A} a rest.
Arguments Fail {A} msg at_rest.

Definition code (c : ascii) : nat := nat_of_char c.

Definition is_json_space (c : ascii) : bool :=
  (Nat.eqb (code c) 32 || Nat.eqb (code c) 9 || Nat.eqb (code c) 10 || Nat.eqb (code c) 13)%bool.

Fixpoint skip_ws (s : string) : string :=
  match s with
  | String c r => if is_json_space c then skip_ws r else s
  | EmptyString => s
  end.

Definition is_digit (c : ascii) : bool := in_range 48 57 c.

Fixpoint span_digits (s : string) : string * string :=
  match s with
  | String c r =>
      if is_digit c then let '(d, rest) := span_digits r in (String c d, rest) else ("", s)
  | EmptyString => ("", s)
  end.

Fixpoint Z_of_digits (acc : Z) (s : string) : Z :=
  match s with
  | String c r => Z_of_digits (10 * acc + Z.of_nat (code c - 48)) r
  | EmptyString => acc
  end.

Definition hex_value (c : ascii) : option nat :=
  if in_range 48 57 c then Some (code c - 48)%nat
  else if in_range 97 102 c then Some (code c - 87)%nat
  else if in_range 65 70 c then Some (code c - 55)%nat
  else None.

Definition hex4 (s : string) : option nat :=
  match s with
  | String a (String b (String c (String d _))) =>
      match hex_value a, hex_value b, hex_value c, hex_value d with
      | Some x, Some y, Some z, Some t => Some (((x * 16 + y) * 16 + z) * 16 + t)%nat
      | _, _, _, _ => None
      end
  | _ => None
  end.

(** The characters of a string after its opening quote, at [start]. *)
Fixpoint scan_string (fuel : nat) (start s acc : string) : parsed string :=
  match fuel with
  | O => Fail "Unterminated string starting at" start
  | S fuel' =>
      match s with
      | EmptyString => Fail "Unterminated string starting at" start
      | String c r =>
          if Nat.eqb (code c) 34 then Done acc r
          else if Nat.eqb (code c) 92 then
            match r with
            | EmptyString => Fail "Unterminated string starting at" start
            | String e r' =>
                let plain (n : nat) := scan_string fuel' start r' (acc +++ char_str n) in
                match code e with
                | 34%nat => plain 34%nat
                | 92%nat => plain 92%nat
                | 47%nat => plain 47%nat
                | 98%nat => plain 8%nat
                | 102%nat => plain 12%nat
                | 110%nat => plain 10%nat
                | 114%nat => plain 13%nat
                | 116%nat => plain 9%nat
                | 117%nat =>
                    match hex4 r' with
                    | Some n =>
                        if Nat.leb n 255
                        then scan_string fuel' start (drop 4 r') (acc +++ char_str n)
                        else Fail "Invalid \uXXXX escape" s
                    | None => Fail "Invalid \uXXXX escape" s
                    end
                | _ => Fail ("Invalid \escape: " +++ repr_str (String e "")) s
                end
            end
          else if Nat.ltb (code c) 32 then Fail "Invalid control character at" s
          else scan_string fuel' start r (acc +++ String c "")
      end
  end.

(** A number at the start of [s]: an optional minus, then [0] or digits
    that do not start with [0], then an optional fraction and an
    optional exponent.  It is an [int] without them, a [float] with. *)
Definition scan_number (s : string) : option (json * string) :=
  let '(neg, s1) := match s with
                    | String c r => if Nat.eqb (code c) 45 then (true, r) else (false, s)
                    | EmptyString => (false, s)
                    end in
  let '(int_digits, s2) :=
    match s1 with
    | String c r => if Nat.eqb (code c) 48 then ("0", r) else span_digits s1
    | EmptyString => ("", s1)
    end in
  if String.eqb int_digits "" then None
  else
    let '(frac, s3) :=
      match s2 with
      | String c r =>
          if Nat.eqb (code c) 46 then
            let '(d, rest) := span_digits r in
            if String.eqb d "" then ("", s2) else (d, rest)
          else ("", s2)
      | EmptyString => ("", s2)
      end in
    let '(has_exp, ex, s4) :=
      match s3 with
      | String c r =>
          if (Nat.eqb (code c) 101 || Nat.eqb (code c) 69)%bool then
            let '(eneg, r1) :=
              match r with
              | String x r' =>
                  if Nat.eqb (code x) 45 then (true, r')
                  else if Nat.eqb (code x) 43 then (false, r') else (false, r)
              | EmptyString => (false, r)
              end in
            let '(d, rest) := span_digits r1 in
            if String.eqb d "" then (false, 0, s3)
            else (true, if eneg then - Z_of_digits 0 d else Z_of_digits 0 d, rest)
          else (false, 0, s3)
      | EmptyString => (false, 0, s3)
      end in
    if (String.eqb frac "" && negb has_exp)%bool then
      let z := Z_of_digits 0 int_digits in
      Some (JInt (if neg then - z else z), s4)
    else
      let digits := Z_of_digits 0 (int_digits +++ frac) in
      let q := ex - len frac in
      let magnitude :=
        if digits =? 0 then PrimFloat.zero
        else if 400 <? q + len (int_digits +++ frac) then PrimFloat.infinity
        else if q + len (int_digits +++ frac) <? -400 then PrimFloat.zero
        else float_of_decimal digits q in
      Some (JFloat (if neg then PrimFloat.opp magnitude else magnitude), s4).

Fixpoint parse_value (fuel : nat) (s : string) : parsed json :=
  match fuel with
  | O => Fail "Expecting value" s
  | S fuel' =>
      match s with
      | EmptyString => Fail "Expecting value" s
      | String c r =>
          if Nat.eqb (code c) 34 then
            match scan_string fuel' s r "" with
            | Done str rest => Done (JStr str) rest
            | Fail m a => Fail m a
            end
          else if Nat.eqb (code c) 123 then
            let r' := skip_ws r in
            if starts_with "}" r' then Done (JDict []) (drop 1 r')
            else parse_members fuel' r' []
          else if Nat.eqb (code c) 91 then
            let r' := skip_ws r in
            if starts_with "]" r' then Done (JList []) (drop 1 r')
            else parse_elements fuel' r' []
          else if starts_with "null" s then Done JNull (drop 4 s)
          else if starts_with "true" s then Done (JBool true) (drop 4 s)
          else if starts_with "false" s then Done (JBool false) (drop 5 s)
          else if starts_with "NaN" s then Done (JFloat PrimFloat.nan) (drop 3 s)
          else if starts_with "Infinity" s then Done (JFloat PrimFloat.infinity) (drop 8 s)
          else if starts_with "-Infinity" s then Done (JFloat PrimFloat.neg_infinity) (drop 9 s)
          else match scan_number s with
               | Some (v, rest) => Done v rest
               | None => Fail "Expecting value" s
               end
      end
  end
with parse_elements (fuel : nat) (s : string) (acc : list json) : parsed json :=
  match fuel with
  | O => Fail "Expecting value" s
  | S fuel' =>
      match parse_value fuel' s with
      | Fail m a => Fail m a
      | Done v rest =>
          let rest := skip_ws rest in
          if starts_with "]" rest then Done (JList (acc ++ [v])) (drop 1 rest)
          else if starts_with "," rest
               then parse_elements fuel' (skip_ws (drop 1 rest)) (acc ++ [v])
               else Fail "Expecting ',' delimiter" rest
      end
  end
with parse_members (fuel : nat) (s : string) (acc : list (string * json)) : parsed json :=
  match fuel with
  | O => Fail "Expecting value" s
  | S fuel' =>
      match s with
      | String c r =>
          if Nat.eqb (code c) 34 then
            match scan_string fuel' s r "" with
            | Fail m a => Fail m a
            | Done key rest =>
                let rest := skip_ws rest in
                if starts_with ":" rest then
                  match parse_value fuel' (skip_ws (drop 1 rest)) with
                  | Fail m a => Fail m a
                  | Done v rest =>
                      let rest := skip_ws rest in
                      if starts_with "}" rest then Done (JDict (dict_set acc key v)) (drop 1 rest)
                      else if starts_with "," rest
                           then parse_members fuel' (skip_ws (drop 1 rest)) (dict_set acc key v)
                           else Fail "Expecting ',' delimiter" rest
                  end
                else Fail "Expecting ':' delimiter" rest
            end
          else Fail "Expecting property name enclosed in double quotes" s
      | EmptyString => Fail "Expecting property name enclosed in double quotes" s
      end
  end.

Fixpoint count_newlines (s : string) : nat :=
  match s with
  | String c r => ((if Nat.eqb (code c) 10 then 1 else 0) + count_newlines r)%nat
  | EmptyString => O
  end.

(** The text of a [JSONDecodeError] at position [pos] of [doc]. *)
Definition errmsg (msg doc : string) (pos : nat) : string :=
  let before := take pos doc in
  let colno := match last_index_of 10 before with
               | Some i => (pos - i)%nat
               | None => S pos
               end in
  msg +++ ": line " +++ str_of_nat (S (count_newlines before))
      +++ " column " +++ str_of_nat colno +++ " (char " +++ str_of_nat pos +++ ")".

Definition loads (s : string) : py json :=
  let position (rest : string) := (String.length s - String.length rest)%nat in
  match parse_value (S (String.length s)) (skip_ws s) with
  | Fail m a => raise JSONDecodeError (errmsg m s (position a))
  | Done v rest =>
      match skip_ws rest with
      | EmptyString => Ok v
      | extra => raise JSONDecodeError (errmsg "Extra data" s (position extra))
      end
  end.

End Decoder.

(** *** Files in memory *)

Definition no_such_file {A : Type} (p : string) : py A :=
  raise FileNotFoundError ("[Errno 2] No such file or directory: " +++ repr_str p).

Fixpoint file_content (files : list (string * string)) (p : string) : option string :=
  match files with
  | [] => None
  | (q, c) :: r => if String.eqb q p then Some c else file_content r p
  end.

Fixpoint ends_with (suffix s : string) : bool :=
  (String.eqb suffix s ||
   match s with
   | EmptyString => false
   | String _ r => ends_with suffix r
   end)%bool.

(** [p] is the directory of the file at [path]: [.] for a path without
    a separator. *)
Definition in_directory (p path : string) : bool :=
  (String.eqb (path_join p (basename path)) path)%bool.

(** The world of the files [files], given as paths with their contents,
    all last modified at the epoch; the current directory exists, and any
    directory that a file lies under. *)
Definition world_of (files : list (string * string)) : World :=
  {| json_loads := Decoder.loads;
     path_exists p :=
       Ok (String.eqb p "."
           || existsb (fun f => (String.eqb (fst f) p || starts_with (p +++ "/") (fst f))%bool)
                      files)%bool;
     read_text p :=
       match file_content files p with
       | Some c => Ok c
       | None => no_such_file p
       end;
     read_fd _ := raise OSError "[Errno 9] Bad file descriptor";
     glob_json p :=
       Ok (map fst (filter (fun f => (in_directory p (fst f) && ends_with ".json" (fst f))%bool)
                           files));
     stat_size p :=
       match file_content files p with
       | Some c => Ok (len c)
       | None => no_such_file p
       end;
     stat_modified p :=
       match file_content files p with
       | Some _ => Ok "1970-01-01T00:00:00"
       | None => no_such_file p
       end |}.

(** * What the specification talks about *)

(** A result mapping: a dict with a [success] or an [error] entry,
    returned and not raised. *)
Definition result_mapping (r : py json) : Prop :=
  exists d, r = Ok (JDict d) /\ (dict_has d "success" = true \/ dict_has d "error" = true).

(** ** Mapping nodes and filters *)

(** Every mapping node of a document, at any depth, parents before their
    children. *)
Fixpoint mapping_subtrees (obj : json) : list json :=
  match obj with
  | JDict d => obj :: flat_map (fun '(_, value) => mapping_subtrees value) d
  | JList l => flat_map mapping_subtrees l
  | _ => []
  end.

(** A filter mapping of literal clauses only: no value is itself a
    mapping (which would be read as operators). *)
Definition literal_filters (F : list (string * json)) : Prop :=
  Forall (fun kv => is_dict (snd kv) = false) F.

(** [node] is a mapping in which every key of [F] is present with a value
    equal, in the sense of [==], to the value [F] asks for. *)
Definition satisfies (F : list (string * json)) (node : json) : Prop :=
  exists o, node = JDict o /\
            Forall (fun kv => exists v, dict_get o (fst kv) = Some v /\ py_eq v (snd kv) = true) F.

Definition satisfiesb (F : list (string * json)) (node : json) : bool :=
  match node with
  | JDict o =>
      forallb (fun kv => match dict_get o (fst kv) with
                         | Some v => py_eq v (snd kv)
                         | None => false
                         end) F
  | _ => false
  end.

(** ** Where a keyword can occur *)

(** The strings of a document: the keys of its mappings, the strings
    bound to a key, and the strings elsewhere (items of sequences, the
    document itself), each with the path that leads to it. *)
Inductive site : Type :=
| KeySite (path key : string) (value : json)
| ValueSite (path key value : string)
| StringSite (path text : string).


Definition site_text (st : site) : string :=
  match st with
  | KeySite _ k _ => k
  | ValueSite _ _ v => v
  | StringSite _ t => t
  end.


Fixpoint sites (obj : json) (path : string) : list site :=
  match obj with
  | JDict d =>
      flat_map (fun '(key, value) =>
                  let current_path := path +++ "." +++ key in
                  KeySite current_path key value
                  :: match value with
                     | JStr s => [ValueSite current_path key s]
                     | _ => sites value current_path
                     end) d
  | JList l =>
      flat_map_indexed (fun idx item => sites item (path +++ "[" +++ str_of_nat idx +++ "]"))
                       O l
  | JStr s => [StringSite path s]
  | _ => []
  end.

(** The text compared: as it is, or in lower case. *)
Definition fold_case (case_sensitive : bool) (s : string) : string :=
  if case_sensitive then s else lower s.

(** [keyword] occurs in [text] as a substring, up to case unless the
    search is case sensitive. *)
Definition occurs_in (case_sensitive : bool) (keyword text : string) : Prop :=
  exists before after,
    fold_case case_sensitive text = before +++ fold_case case_sensitive keyword +++ after.

(** The match reported for [keyword] at a site. *)
Definition site_record (case_sensitive : bool) (st : site) (keyword : json) : json :=
  match st with
  | KeySite p k v => key_record p k v keyword
  | ValueSite p k v => value_record case_sensitive p k v keyword
  | StringSite p t => string_record case_sensitive p t keyword
  end.

(** The matches reported at a site: one for each keyword that occurs in
    its text, in the order of the keywords. *)
Definition matches_at (K : list string) (case_sensitive : bool) (st : site) : list json :=
  flat_map (fun k => if contains (fold_case case_sensitive k)
                                 (fold_case case_sensitive (site_text st))
                     then [site_record case_sensitive st (JStr k)] else []) K.

(** The field [k] of a match record or of a result. *)
Definition field_of (r : json) (k : string) : option json :=
  match r with
  | JDict d => dict_get d k
  | _ => None
  end.

(** ** The values bound to a field *)

(** Every value bound to the key [field] anywhere in a document,
    including those nested inside another value bound to [field]. *)
Fixpoint all_bindings (field : string) (obj : json) : list json :=
  match obj with
  | JDict d =>
      flat_map (fun '(key, value) =>
                  (if String.eqb key field then [value] else [])
                  ++ all_bindings field value) d
  | JList l => flat_map (all_bindings field) l
  | _ => []
  end.

(** Neither a sequence nor a mapping. *)
Definition is_scalar (v : json) : bool :=
  match v with
  | JList _ | JDict _ => false
  | _ => true
  end.

(** A container emptied of its content; other values unchanged. *)
Definition hollow (v : json) : json :=
  match v with
  | JDict _ => JDict []
  | JList _ => JList []
  | _ => v
  end.

(** The document with every outermost value bound to [field] emptied:
    what lies inside such a value is gone. *)
Fixpoint prune (field : json) (obj : json) : json :=
  match obj with
  | JDict d =>
      JDict (map (fun '(key, value) =>
                    (key, if py_eq (JStr key) field then hollow value else prune field value))
                 d)
  | JList l => JList (map (prune field) l)
  | _ => obj
  end.

(** ** Documents without NaN *)

Fixpoint unique_keys (d : list (string * json)) : bool :=
  match d with
  | [] => true
  | (k, _) :: r => (negb (dict_has r k) && unique_keys r)%bool
  end.

(** The keys of every dict are distinct, as in any Python dict. *)
Fixpoint well_formed (v : json) : bool :=
  match v with
  | JList l => forallb well_formed l
  | JDict d => (unique_keys d && forallb (fun '(_, value) => well_formed value) d)%bool
  | _ => true
  end.

Fixpoint nan_free (v : json) : bool :=
  match v with
  | JFloat f => negb (is_nan_float f)
  | JList l => forallb nan_free l
  | JDict d => forallb (fun '(_, value) => nan_free value) d
  | _ => true
  end.

(** ** The tools and their required parameters *)

Definition tool_names : list string := map name get_available_tools.

(** The parameters [execute_tool] insists on, per tool. *)
Definition required_parameters : list (string * list string) :=
  [("search_media_content", ["query"]);
   ("read_json_file", ["filename"]);
   ("keyword_search", ["data"; "keywords"]);
   ("filter_json", ["data"; "filters"]);
   ("aggregate_data", ["data"; "field"]);
   ("extract_hashtags", ["data"]);
   ("compare_files", ["file1"; "file2"])].


(** ** The parsing of a response, as the specification states it *)

(** The object [\{[^{}]*"action"[^{}]*\}] that starts at the brace before
    [s]: the text up to the next brace, when that brace closes and the
    text holds the quoted word [action]. *)
Fixpoint until_brace (s : string) : option string :=
  match s with
  | EmptyString => None
  | String c r =>
      if Nat.eqb (nat_of_char c) 125 then Some ""
      else if Nat.eqb (nat_of_char c) 123 then None
      else option_map (String c) (until_brace r)
  end.

(** The first embedded object with an [action] key, if any. *)
Fixpoint search_action_object (s : string) : option string :=
  match s with
  | EmptyString => None
  | String c r =>
      match (if Nat.eqb (nat_of_char c) 123 then until_brace r else None) with
      | Some inner =>
          if contains (dquote +++ "action" +++ dquote) inner
          then Some ("{" +++ inner +++ "}")
          else search_action_object r
      | None => search_action_object r
      end
  end.

(** The three strategies in order: the content of a block tagged [json],
    of any fenced block, of an embedded object with an [action] key; the
    first whose text decodes wins.  [None]: all three fail, and the raw
    text is the final answer. *)
Definition spec_parse_response (w : World) (response_text : string) : option json :=
  let try_text (candidate : option string) : option json :=
    match candidate with
    | Some t => match json_loads w t with Ok v => Some v | Raise _ => None end
    | None => None
    end in
  match try_text (search_fenced "```json" response_text) with
  | Some v => Some v
  | None =>
      match try_text (search_fenced fence response_text) with
      | Some v => Some v
      | None => try_text (search_action_object response_text)
      end
  end.

(** An engine result that is successful and empty: the list under [key]
    has no entry. *)
Definition empty_success (r : py json) (key : string) : Prop :=
  exists d, r = Ok (JDict d)
            /\ dict_get d "success" = Some (JBool true)
            /\ dict_get d key = Some (JList []).

(** ** Example inputs *)

Definition quoted (s : string) : string := dquote +++ s +++ dquote.

(** [{"action": "answer", "response": "done"}] *)
Definition answer_done : string :=
  "{" +++ quoted "action" +++ ": " +++ quoted "answer" +++ ", "
      +++ quoted "response" +++ ": " +++ quoted "done" +++ "}".

(** [{"action": "use_tool", "tool": "nope"}] *)
Definition use_tool_nope : string :=
  "{" +++ quoted "action" +++ ": " +++ quoted "use_tool" +++ ", "
      +++ quoted "tool" +++ ": " +++ quoted "nope" +++ "}".


(** A fenced block whose content is not JSON. *)
Definition fenced_oops : string :=
  "```json" +++ newline +++ "{oops}" +++ newline +++ "```".

(** Prose around an action object. *)
Definition prose_around_answer : string := "Sure. " +++ answer_done.

(** [{"a": {"views": 10}, "views": {"views": 5}}] *)
Definition nested_views : json :=
  JDict [("a", JDict [("views", JInt 10)]); ("views", JDict [("views", JInt 5)])].

(** [{"a": {"views": 10}, "b": {"views": 20}}] *)
Definition two_posts : json :=
  JDict [("a", JDict [("views", JInt 10)]); ("b", JDict [("views", JInt 20)])].

(** A world with the one file [a.json], whose content is [[NaN]]. *)
Definition nan_world : World := world_of [("a.json", "[NaN]")].

(** * The callers in [app.py] *)

(** ** [stream_agent_response] *)

(** The payload of a server-sent event: the dict that the generator
    serialises with [json.dumps] and yields between the text [data: ]
    and two newlines. *)
Inductive payload : Type :=
| Status (message : string)             (** [{'type': 'status', 'message': message}] *)
| ToolErrorStatus (error_msg : string)  (** the status whose message is a warning sign,
                                            the text [ Tool error: ] and [error_msg] *)
| Content (text : json)                 (** [{'type': 'content', 'text': text}] *)
| Finished (iterations : nat)           (** [{'type': 'done', 'iterations': iterations}] *)
| ToolCall (tool parameters : json)     (** [{'type': 'tool_call', 'tool': ...,
                                            'parameters': ...}] *)
| ToolResult (tool result : json)       (** [{'type': 'tool_result', 'tool': ...,
                                            'result': ...}] *)
| ErrorEvent (message : string).        (** [{'type': 'error', 'message': message}] *)

(** What the generator does, in order.  In [Did (Generate k)], [k] counts
    the model invocations of the stream from 0. *)
Inductive emitted : Type :=
| Yield (p : payload)          (** [yield f"data: {json.dumps(p)}\n\n"] *)
| Await (milliseconds : Z)     (** [await asyncio.sleep(milliseconds / 1000)] *)
| Did (e : event).             (** a model invocation, or what [execute_tool] did *)

(** [projects_db[id]], for the projects whose id is a string; a project
    is a dict. *)
Fixpoint project_of (projects_db : list (string * list (string * json))) (id : string)
  : option (list (string * json)) :=
  match projects_db with
  | [] => None
  | (k, project) :: r => if String.eqb k id then Some project else project_of r id
  end.

(** The context of the prompt: [{}], or the name, description and status
    of the project when [project_id] is set and known. *)
Definition project_context (projects_db : list (string * list (string * json)))
           (project_id : option string) : py json :=
  match project_id with
  | Some id =>
      match (if String.eqb id "" then None else project_of projects_db id) with
      | Some project =>
          project_name <- py_getitem (JDict project) "name" ;;
          project_description <- py_getitem (JDict project) "description" ;;
          project_status <- py_getitem (JDict project) "status" ;;
          Ok (JDict [("project_name", project_name);
                     ("project_description", project_description);
                     ("project_status", project_status)])
      | None => Ok (JDict [])
      end
  | None => Ok (JDict [])
  end.

(** One extraction method: [if json_match: action_data =
    json.loads(...)] inside [try ... except json.JSONDecodeError:
    continue].  [candidate] is the text the regular expression found;
    another exception than [JSONDecodeError] leaves the loop. *)
Definition extract_with (w : World) (candidate : option string) (action_data : json) : py json :=
  match candidate with
  | None => Ok action_data
  | Some t =>
      match json_loads w t with
      | Ok v => Ok v
      | Raise e => if exn_class_eqb (exn_cls e) JSONDecodeError then Ok action_data else Raise e
      end
  end.

(** The loop [for extract_method in range(3)]: a block tagged [json], any
    fenced block, an object with an [action] key; a method is skipped
    once [action_data] is truthy, and the loop stops there. *)
Definition extract_action (w : World) (response_text : string) : py json :=
  a0 <- extract_with w (search_fenced "```json" response_text) JNull ;;
  if truthy a0 then Ok a0
  else
    a1 <- extract_with w (search_fenced fence response_text) a0 ;;
    if truthy a1 then Ok a1
    else extract_with w (search_action_object response_text) a1.

(** How one attempt [for ai_attempt in range(max_ai_retries)] ends. *)
Inductive attempt_outcome : Type :=
| Finish (evs : list emitted)           (** the generator returned *)
| ToolUsed (evs : list emitted)         (** [break]: on to the next iteration *)
| Raised (e : exn) (evs : list emitted). (** an exception reached [except Exception] *)

Definition complete_status (iteration : nat) : payload :=
  Status ("Complete! Used " +++ str_of_nat (S iteration) +++ " iteration(s)").

(** The final answer: the status, the text and the [done] event. *)
Definition answer_events (iteration : nat) (text : json) : list emitted :=
  [Yield (complete_status iteration); Await 200; Yield (Content text);
   Yield (Finished (S iteration))].

(** The body of the [try] of one attempt; [response] is the text of the
    model for this invocation, numbered [call], or its exception. *)
Definition stream_attempt (w : World) (response : py string) (call iteration : nat)
  : attempt_outcome :=
  let generate := Did (Generate call) in
  match response with
  | Raise e => Raised e [generate]
  | Ok text =>
      if String.eqb text "" then
        Raised (mk_exn ValueError "Empty response from AI model") [generate]
      else
        let response_text := strip text in
        match extract_action w response_text with
        | Raise e => Raised e [generate]
        | Ok action_data =>
            let as_answer := Finish (generate :: answer_events iteration (JStr response_text)) in
            match action_data with
            | JDict d =>
                if truthy action_data then
                  let action := get_default d "action" JNull in
                  if py_eq action (JStr "answer") then
                    Finish (generate
                            :: answer_events iteration
                                             (get_default d "response" (JStr response_text)))
                  else if py_eq action (JStr "use_tool") then
                    let tool_name := get_default d "tool" JNull in
                    let parameters := get_default d "parameters" (JDict []) in
                    if negb (truthy tool_name) then
                      Raised (mk_exn ValueError "Tool name not specified in action") [generate]
                    else
                      let '(tool_result, evs) := execute_tool w tool_name parameters 2 in
                      let warning :=
                        match tool_result with
                        | JDict r =>
                            if dict_has r "error" then
                              [Yield (ToolErrorStatus
                                        (py_str (get_default r "error" (JStr "Unknown error"))))]
                            else []
                        | _ => []
                        end in
                      ToolUsed ([generate; Yield (ToolCall tool_name parameters); Await 300]
                                ++ map Did evs ++ warning
                                ++ [Yield (ToolResult tool_name tool_result); Await 300])
                  else as_answer
                else as_answer
            | _ => as_answer
            end
        end
  end.

Definition max_ai_retries : nat := 2.

(** How the loop over the attempts of one iteration ends; [calls] is the
    number of model invocations of the stream so far. *)
Inductive iteration_outcome : Type :=
| Returned (evs : list emitted)
| Next (evs : list emitted) (calls : nat)          (** [ai_response_success] is true *)
| Unprocessed (evs : list emitted) (calls : nat).  (** the loop ended, it is false *)

Definition prepend (evs : list emitted) (o : iteration_outcome) : iteration_outcome :=
  match o with
  | Returned evs' => Returned (evs ++ evs')
  | Next evs' calls => Next (evs ++ evs') calls
  | Unprocessed evs' calls => Unprocessed (evs ++ evs') calls
  end.

(** The loop [for ai_attempt in range(max_ai_retries)], from [ai_attempt]
    on with [left] attempts to go.  [model k] answers invocation [k] of
    the stream: its text, or the exception of the call. *)
Fixpoint stream_attempts (w : World) (model : nat -> py string)
         (left ai_attempt calls iteration : nat) : iteration_outcome :=
  match left with
  | O => Unprocessed [] calls
  | S left' =>
      match stream_attempt w (model calls) calls iteration with
      | Finish evs => Returned evs
      | ToolUsed evs => Next evs (S calls)
      | Raised e evs =>
          if Nat.ltb ai_attempt (max_ai_retries - 1) then
            prepend (evs ++ [Yield (Status ("Retrying... (attempt "
                                            +++ str_of_nat (ai_attempt + 2) +++ "/"
                                            +++ str_of_nat max_ai_retries +++ ")"));
                             Await 2000])
                    (stream_attempts w model left' (S ai_attempt) (S calls) iteration)
          else
            Returned (evs ++ [Yield (ErrorEvent ("Failed after " +++ str_of_nat max_ai_retries
                                                 +++ " attempts: " +++ exn_str e))])
      end
  end.

(** The loop [for iteration in range(agent.max_iterations)], from
    [iteration] on with [left] iterations to go, and what follows it. *)
Fixpoint stream_from (w : World) (model : nat -> py string)
         (left iteration calls max_iterations : nat) : list emitted :=
  match left with
  | O =>
      [Yield (Status "Maximum iterations reached");
       Yield (Content (JStr ("I have completed my analysis using the available tools. "
                             +++ "The results are shown above.")));
       Yield (Finished iteration)]
  | S left' =>
      [Yield (Status ("Iteration " +++ str_of_nat (S iteration) +++ "/"
                      +++ str_of_nat max_iterations +++ ": Thinking..."));
       Await 200]
      ++ match stream_attempts w model max_ai_retries 0 calls iteration with
         | Returned evs => evs
         | Next evs calls' => evs ++ stream_from w model left' (S iteration) calls' max_iterations
         | Unprocessed evs _ => evs ++ [Yield (ErrorEvent "Failed to process iteration")]
         end
  end.

(** [stream_agent_response(agent, user_query, project_id)], consumed to
    its end.  The prompts are built from the catalog, the context, the
    query and the results so far by operations that do not raise; the
    model is given by its responses. *)
Definition stream_agent_response (w : World) (model : nat -> py string)
           (projects_db : list (string * list (string * json)))
           (project_id : option string) (max_iterations : nat) : list emitted :=
  match project_context projects_db project_id with
  | Raise e => [Yield (ErrorEvent (exn_str e))]
  | Ok _ =>
      [Yield (Status "Agent initialized, analyzing query..."); Await 300]
      ++ stream_from w model max_iterations 0 0 max_iterations
  end.

(** ** The endpoints over the tools

    The endpoint for the consolidated data has the name of the operation
    it calls; the endpoints are kept in a module of their own. *)
Module App.

(** What an endpoint answers: a body, or an [HTTPException]. *)
Inductive http (A : Type) : Type :=
| Respond (body : A)
| HTTPError (status_code : Z) (detail : string).

Arguments Respond {A} body.
Arguments HTTPError {A} status_code detail.

Section Endpoints.

(** [str(e)] for an [HTTPException] [e], which depends on the version of
    the web framework. *)
Variable http_exception_str : Z -> string -> string.

(** [if "error" in result: return {"success": False, ...}; return result] *)
Definition needs_consolidation (result : json) : py json :=
  failed <- py_in (JStr "error") result ;;
  if failed then
    error <- py_getitem result "error" ;;
    Ok (JDict [("success", JBool false); ("error", error);
               ("needs_consolidation", JBool true)])
  else Ok result.

(** The [try ... except Exception as e: raise HTTPException(500, ...)]
    of an endpoint, around a body that returns, raises or raises an
    [HTTPException] itself. *)
Definition guarded (prefix : string) (body : py (http json)) : http json :=
  match body with
  | Ok (Respond r) => Respond r
  | Ok (HTTPError status_code detail) =>
      HTTPError 500 (prefix +++ http_exception_str status_code detail)
  | Raise e => HTTPError 500 (prefix +++ exn_str e)
  end.

(** [GET /api/consolidated/summary] *)
Definition get_consolidated_summary (w : World) : http json :=
  guarded "Error loading summary: "
          (result <- get_media_summary w (JStr "all") ;;
           r <- needs_consolidation result ;;
           Ok (Respond r)).

(** [GET /api/consolidated/data/{platform}] *)
Definition get_consolidated_data (w : World) (platform : string) : http json :=
  guarded "Error loading data: "
          (if negb (existsb (String.eqb platform) ["instagram"; "youtube"; "all"]) then
             Ok (HTTPError 400 "Invalid platform")
           else
             result <- get_consolidated_data w (JStr platform) ;;
             r <- needs_consolidation result ;;
             Ok (Respond r)).

(** [POST /api/agent/execute-tool]; [new_agent] is the construction of
    the agent, which configures the model client. *)
Definition execute_tool_directly (w : World) (new_agent : py unit)
           (request : list (string * json)) : http json * list event :=
  let tool_name := get_default request "tool" JNull in
  let parameters := get_default request "parameters" (JDict []) in
  if negb (truthy tool_name) then
    (guarded "Tool execution error: " (Ok (HTTPError 400 "Missing tool name")), [])
  else
    match new_agent with
    | Raise e => (guarded "Tool execution error: " (Raise e), [])
    | Ok _ =>
        let '(result, evs) := execute_tool w tool_name parameters 2 in
        (guarded "Tool execution error: "
                 (Ok (Respond (JDict [("success", JBool true); ("tool", tool_name);
                                      ("result", result)]))),
         evs)
    end.

End Endpoints.

End App.

(** * What the further properties talk about *)

(** The platforms a result may hold: those requested by name or by
    [all]. *)
Definition holds_requested (platform : json) (result : list (string * json)) : Prop :=
  forall k, dict_has result k = true ->
            (k = "instagram" \/ k = "youtube")
            /\ (py_eq platform (JStr k) || py_eq platform (JStr "all"))%bool = true.


(** A path that [pathlib] leaves as it is written, so that [str(Path(s))]
    is [s]: not empty, no empty component, no component [.], no
    separator at the end. *)
Definition plain_path (s : string) : bool :=
  (negb (String.eqb s "") && negb (String.eqb s ".") && negb (contains "//" s)
   && negb (contains "/./" s) && negb (starts_with "./" s)
   && negb (ends_with "/" s) && negb (ends_with "/." s))%bool.

(** The places where [read_json_file] looks for [filename], in order:
    the path itself, then the path under the current directory, [data]
    and [data/accounts]. *)
Definition candidate_paths (filename : string) : list string :=
  filename :: map (fun search_dir => path_join search_dir filename) ["."; "data"; "data/accounts"].

(** [p] exists in [w], and the test returns. *)
Definition exists_in (w : World) (p : string) : bool :=
  match path_exists w p with
  | Ok true => true
  | _ => false
  end.

(** ** Comparison filters *)

(** The comparison operators of a filter and what they test. *)
Definition comparison_operators : list (string * cmp_op) :=
  [("$gt", OpGt); ("$lt", OpLt); ("$gte", OpGe); ("$lte", OpLe)].

(** [z op n] on two integers. *)
Definition int_compare (op : cmp_op) (z n : Z) : bool :=
  match op with
  | OpLt => z <? n
  | OpLe => z <=? n
  | OpGt => n <? z
  | OpGe => n <=? z
  end.

(** [node] is a mapping that binds [k] to an integer [z] with [z op n]. *)
Definition int_satisfies (k : string) (op : cmp_op) (n : Z) (node : json) : bool :=
  match field_of node k with
  | Some (JInt z) => int_compare op z n
  | _ => false
  end.

(** The filter [{k: {operator: n}}]. *)
Definition comparison_filter (k operator : string) (n : Z) : json :=
  JDict [(k, JDict [(operator, JInt n)])].

(** ** Aggregates *)

(** The integers among some values. *)
Definition int_values (values : list json) : list Z :=
  flat_map (fun v => match v with JInt z => [z] | _ => [] end) values.

(** The sum of the counts of a counter. *)
Definition total_count {A : Type} (c : list (A * Z)) : Z :=
  fold_right (fun kn acc => snd kn + acc) 0 c.

(** The entries of every result of [aggregate_data] that succeeds. *)
Definition aggregate_header (data field operation : json) : list (string * json) :=
  [("success", JBool true); ("field", field); ("operation", operation);
   ("total_values", JNat (List.length (extract_values field data)))].

(** ** Hashtags *)





(** The rendering of the pairs of [most_common] and of the dict of a
    counter of tags. *)
Definition tag_pairs (c : list (string * Z)) : json :=
  JList (map (fun tn => JList [JStr (fst tn); JInt (snd tn)]) c).

Definition tag_dict (c : list (string * Z)) : json :=
  JDict (map (fun tn => (fst tn, JInt (snd tn))) c).

(** By decreasing count. *)
Definition count_not_below (a b : string * Z) : Prop := snd b <= snd a.

(** ** Attempts and iterations *)

(** What [execute_tool] does in [left] attempts that each do [evs], the
    first of them numbered [attempt]: a sleep of [attempt + 1] seconds
    lies between an attempt and the next. *)
Fixpoint attempts_trace (evs : list event) (attempt left : nat) : list event :=
  match left with
  | O => []
  | S left' =>
      evs ++ match left' with
             | O => []
             | S _ => Sleep (Z.of_nat (S attempt)) :: attempts_trace evs (S attempt) left'
             end
  end.




(** ** The listing of a directory *)


(** The date of an entry, as text. *)
Definition modified_text (x : json) : string :=
  match field_of x "modified" with
  | Some (JStr s) => s
  | _ => ""
  end.



(** An entry with its sort key. *)
Definition keyed (x : json) : json * json := (JStr (modified_text x), x).

(** ** The stream *)

(** The model invocations among what a stream did. *)
Definition stream_invocations (evs : list emitted) : nat :=
  List.length (filter (fun e => match e with Did (Generate _) => true | _ => false end) evs).

(** The events that end a stream: [done] and [error]. *)
Definition terminal (e : emitted) : bool :=
  match e with
  | Yield (Finished _) | Yield (ErrorEvent _) => true
  | _ => false
  end.

(** A model that fails at every even invocation and asks for the tool
    [nope] at every odd one. *)
Definition faltering_model (k : nat) : py string :=
  if Nat.even k then raise RuntimeError "unavailable" else Ok use_tool_nope.

(** * Properties *)

(** ** Reasoning about code that may raise *)

Lemma bind_Ok {A B : Type} (c : py A) (k : A -> py B) (r : B) :
  bind c k = Ok r -> exists a, c = Ok a /\ k a = Ok r.
Proof.
  destruct c as [a | e]; simpl; intros H; [eauto | discriminate].
Qed.

(** Inversion of a computation that returned: one step. *)
Ltac py_step :=
  match goal with
  | H : bind _ _ = Ok _ |- _ =>
      let a := fresh "a" in
      let Ha := fresh "Ha" in
      apply bind_Ok in H; destruct H as (a & Ha & H)
  | H : Ok _ = Ok _ |- _ => inversion H; subst; clear H
  | H : Raise _ = Ok _ |- _ => discriminate H
  | H : raise _ _ = Ok _ |- _ => discriminate H
  | H : (if ?b then _ else _) = Ok _ |- _ => destruct b eqn:?
  | H : match ?x with _ => _ end = Ok _ |- _ => destruct x eqn:?
  end.

Ltac py_inv := repeat py_step.

(** ** Every operation returns a result mapping (C2) *)

Lemma error_dict_mapping (msg : string) : result_mapping (Ok (error_dict msg)).
Proof. exists [("error", JStr msg)]. split; [reflexivity | right; reflexivity]. Qed.

Lemma try_except_mapping (c : py json) (h : exn -> py json) :
  (forall r, c = Ok r -> result_mapping (Ok r)) ->
  (forall e, result_mapping (h e)) ->
  result_mapping (try_except c h).
Proof.
  intros Hc Hh. destruct c as [r | e]; simpl; [apply Hc; reflexivity | apply Hh].
Qed.

Ltac mapping_now :=
  first [ apply error_dict_mapping
        | eexists; split; [reflexivity | first [left; reflexivity | right; reflexivity]] ].

Lemma keyword_search_mapping (data keywords case_sensitive : json) :
  result_mapping (keyword_search data keywords case_sensitive).
Proof.
  unfold keyword_search. apply try_except_mapping; [intros r H | intros e; mapping_now].
  py_inv; mapping_now.
Qed.

Lemma filter_json_mapping (data filters : json) :
  result_mapping (filter_json data filters).
Proof.
  unfold filter_json. apply try_except_mapping; [intros r H | intros e; mapping_now].
  py_inv; mapping_now.
Qed.

Lemma aggregate_data_mapping (data field operation : json) :
  result_mapping (aggregate_data data field operation).
Proof.
  unfold aggregate_data. apply try_except_mapping; [intros r H | intros e; mapping_now].
  destruct (py_eq operation (JStr "count")).
  - py_inv; mapping_now.
  - destruct (existsb _ _); [| py_inv; mapping_now].
    destruct (filter is_numeric _); [py_inv; mapping_now |].
    apply bind_Ok in H. destruct H as (x & _ & H). py_inv; mapping_now.
Qed.

Lemma extract_hashtags_mapping (data : json) : result_mapping (extract_hashtags data).
Proof. unfold extract_hashtags. simpl. mapping_now. Qed.

Lemma compare_files_mapping (w : World) (file1 file2 : json) :
  result_mapping (compare_files w file1 file2).
Proof.
  unfold compare_files. apply try_except_mapping; [intros r H | intros e; mapping_now].
  apply bind_Ok in H. destruct H as (d1 & _ & H).
  apply bind_Ok in H. destruct H as (d2 & _ & H).
  py_inv; mapping_now.
Qed.

Lemma get_consolidated_data_mapping (w : World) (platform : json) :
  result_mapping (get_consolidated_data w platform).
Proof.
  unfold get_consolidated_data. apply try_except_mapping; [intros r H | intros e; mapping_now].
  apply bind_Ok in H. destruct H as (there & _ & H).
  destruct (negb there); [py_inv; mapping_now |].
  apply bind_Ok in H. destruct H as (r1 & _ & H).
  apply bind_Ok in H. destruct H as (r2 & _ & H).
  destruct r2; py_inv; mapping_now.
Qed.

Lemma get_media_summary_mapping (w : World) (platform : json) :
  result_mapping (get_media_summary w platform).
Proof.
  unfold get_media_summary. apply try_except_mapping; [intros r H | intros e; mapping_now].
  apply bind_Ok in H. destruct H as (there & _ & H).
  destruct (negb there); [py_inv; mapping_now |].
  apply bind_Ok in H. destruct H as (r1 & _ & H).
  apply bind_Ok in H. destruct H as (r2 & _ & H).
  destruct r2; py_inv; mapping_now.
Qed.

Lemma search_media_content_mapping (w : World) (query platform limit : json) :
  result_mapping (search_media_content w query platform limit).
Proof.
  unfold search_media_content. apply try_except_mapping; [intros r H | intros e; mapping_now].
  apply bind_Ok in H. destruct H as (consolidated & Hc & H).
  apply bind_Ok in H. destruct H as (failed & Hf & H).
  destruct failed.
  - inversion H; subst; clear H.
    destruct (get_consolidated_data_mapping w platform) as (d & Hd & _).
    rewrite Hc in Hd. inversion Hd; subst. simpl in Hf. inversion Hf as [Hhas].
    exists d. split; [reflexivity | right; exact Hhas].
  - repeat (apply bind_Ok in H; destruct H as (? & _ & H)).
    inversion H; subst. mapping_now.
Qed.

Lemma retry_from_mapping (func : py json) (fname : string) :
  (forall r, func = Ok r -> result_mapping (Ok r)) ->
  forall left attempt max_retries last,
    result_mapping (fst (retry_from left attempt max_retries fname func last)).
Proof.
  intros Hfunc. induction left as [| left IH]; intros attempt max_retries last; simpl.
  - mapping_now.
  - destruct func as [r | e] eqn:Hf.
    + simpl. apply Hfunc. reflexivity.
    + specialize (IH (S attempt) max_retries (exn_str e)).
      destruct (retry_from left (S attempt) max_retries fname (Raise e) (exn_str e)) as [r evs].
      exact IH.
Qed.

Lemma list_json_files_mapping (w : World) (directory : json) :
  result_mapping (fst (list_json_files w directory)).
Proof.
  unfold list_json_files, retry_on_error. apply retry_from_mapping. intros r H.
  unfold list_json_files_body in H. rewrite <- H.
  apply try_except_mapping; [clear H; intros r' H | intros e; mapping_now].
  apply bind_Ok in H. destruct H as (path & _ & H).
  apply bind_Ok in H. destruct H as (there & _ & H).
  destruct (negb there); [py_inv; mapping_now |].
  repeat (apply bind_Ok in H; destruct H as (? & _ & H)).
  inversion H; subst. mapping_now.
Qed.

Lemma read_found_mapping (w : World) (path : string) (r : json) :
  read_found w path = Ok r -> result_mapping (Ok r).
Proof.
  unfold read_found. intros H.
  apply bind_Ok in H. destruct H as (content & _ & H).
  apply bind_Ok in H. destruct H as (data & _ & H).
  destruct data; py_inv; mapping_now.
Qed.

Lemma read_json_file_mapping (w : World) (filename : json) :
  result_mapping (fst (read_json_file w filename)).
Proof.
  unfold read_json_file, retry_on_error. apply retry_from_mapping. intros r H.
  unfold read_json_file_body in H. rewrite <- H.
  apply try_except_mapping; [clear H; intros r' H | intros e; mapping_now].
  apply bind_Ok in H. destruct H as (path & _ & H).
  apply bind_Ok in H. destruct H as (there & _ & H).
  destruct there; [eapply read_found_mapping; exact H |].
  apply bind_Ok in H. destruct H as (found & _ & H).
  destruct found; [eapply read_found_mapping; exact H |].
  inversion H; subst. mapping_now.
Qed.

(** C2.  Every public operation of [AnalysisTools], on every input and in
    every world, returns (does not raise) a mapping that has a [success]
    entry or an [error] entry. *)
Theorem operations_return_result_mappings (w : World) (a b c : json) :
  result_mapping (get_consolidated_data w a)
  /\ result_mapping (get_media_summary w a)
  /\ result_mapping (search_media_content w a b c)
  /\ result_mapping (fst (list_json_files w a))
  /\ result_mapping (fst (read_json_file w a))
  /\ result_mapping (keyword_search a b c)
  /\ result_mapping (filter_json a b)
  /\ result_mapping (aggregate_data a b c)
  /\ result_mapping (extract_hashtags a)
  /\ result_mapping (compare_files w a b).
Proof.
  repeat split.
  - apply get_consolidated_data_mapping.
  - apply get_media_summary_mapping.
  - apply search_media_content_mapping.
  - apply list_json_files_mapping.
  - apply read_json_file_mapping.
  - apply keyword_search_mapping.
  - apply filter_json_mapping.
  - apply aggregate_data_mapping.
  - apply extract_hashtags_mapping.
  - apply compare_files_mapping.
Qed.

(** ** Loops *)

Lemma for_each_flat_map {A B : Type} (f : A -> py (list B)) (g : A -> list B) (l : list A) :
  Forall (fun x => f x = Ok (g x)) l -> for_each f l = Ok (flat_map g l).
Proof.
  induction 1 as [| x r Hx _ IH]; simpl; [reflexivity |].
  rewrite Hx, IH. reflexivity.
Qed.

Lemma filter_flat_map {A B : Type} (p : B -> bool) (g : A -> list B) (l : list A) :
  filter p (flat_map g l) = flat_map (fun x => filter p (g x)) l.
Proof.
  induction l as [| x r IH]; simpl; [reflexivity |].
  rewrite filter_app, IH. reflexivity.
Qed.

Lemma flat_map_eq {A B : Type} (f g : A -> list B) (l : list A) :
  Forall (fun x => f x = g x) l -> flat_map f l = flat_map g l.
Proof.
  induction 1 as [| x r Hx _ IH]; simpl; [reflexivity |].
  rewrite Hx, IH. reflexivity.
Qed.

(** ** [filter_json] with literal filters (C5) *)

Lemma check_items_literal (o : list (string * json)) (items : list (string * json)) :
  literal_filters items ->
  check_items o items
  = Ok (forallb (fun kv => match dict_get o (fst kv) with
                           | Some v => py_eq v (snd kv)
                           | None => false
                           end) items).
Proof.
  induction 1 as [| [key value] rest Hlit _ IH]; simpl; [reflexivity |].
  destruct (dict_get o key) as [obj_value |]; [| reflexivity].
  simpl in Hlit.
  destruct value; try discriminate Hlit;
    (destruct (py_eq obj_value _); [exact IH | reflexivity]).
Qed.

Lemma filter_recursive_literal (F : list (string * json)) :
  literal_filters F ->
  forall obj, filter_recursive (JDict F) obj = Ok (filter (satisfiesb F) (mapping_subtrees obj)).
Proof.
  intros Hlit obj. induction obj as [| | | | | l IH | d IH] using json_ind;
    try reflexivity.
  - simpl. rewrite filter_flat_map. apply for_each_flat_map. exact IH.
  - cbn [filter_recursive check_filters py_items bind].
    rewrite (check_items_literal d F Hlit). cbn [bind].
    rewrite (for_each_flat_map _ (fun kv => filter (satisfiesb F) (mapping_subtrees (snd kv)))).
    + assert (Hbelow : flat_map (fun kv => filter (satisfiesb F) (mapping_subtrees (snd kv))) d
                       = filter (satisfiesb F)
                                (flat_map (fun '(_, value) => mapping_subtrees value) d)).
      { rewrite filter_flat_map. apply flat_map_eq, Forall_forall.
        intros [k v] _. reflexivity. }
      rewrite Hbelow. cbn [bind mapping_subtrees filter satisfiesb].
      destruct (forallb _ F); reflexivity.
    + eapply Forall_impl; [| exact IH]. intros [k v] Hv. exact Hv.
Qed.

Lemma satisfiesb_spec (F : list (string * json)) (node : json) :
  satisfiesb F node = true <-> satisfies F node.
Proof.
  unfold satisfies. split.
  - destruct node; simpl; try discriminate. intros H. exists d. split; [reflexivity |].
    apply Forall_forall. intros kv Hin.
    rewrite forallb_forall in H. specialize (H kv Hin).
    destruct (dict_get d (fst kv)) as [v |]; [eauto | discriminate].
  - intros (o & -> & H). simpl. apply forallb_forall. intros kv Hin.
    rewrite Forall_forall in H. destruct (H kv Hin) as (v & -> & Hv). exact Hv.
Qed.

(** A mapping node of a mapping node of [D] is a mapping node of [D]. *)
Lemma mapping_subtrees_trans (D parent child : json) :
  In parent (mapping_subtrees D) ->
  In child (mapping_subtrees parent) ->
  In child (mapping_subtrees D).
Proof.
  induction D as [| | | | | l IH | d IH] using json_ind; simpl; try contradiction.
  - intros Hp Hc. apply in_flat_map in Hp. destruct Hp as (x & Hx & Hp).
    apply in_flat_map. exists x. split; [exact Hx |].
    rewrite Forall_forall in IH. apply IH; assumption.
  - intros [Hp | Hp] Hc.
    + subst parent. exact Hc.
    + right. apply in_flat_map in Hp. destruct Hp as ([k v] & Hx & Hp).
      apply in_flat_map. exists (k, v). split; [exact Hx |].
      rewrite Forall_forall in IH. apply (IH (k, v) Hx); assumption.
Qed.

(** C5.  With a filter mapping [F] of literal clauses, [filter_json(D, F)]
    succeeds and its results are exactly the mapping nodes of [D], at
    any depth and in document order, in which every key of [F] is present
    with a value equal to the one asked for; a node that matches is
    still searched, so a matching child of a matching parent is reported
    as well. *)
Theorem filter_json_literal (D : json) (F : list (string * json)) :
  literal_filters F ->
  exists results,
    filter_json D (JDict F)
    = Ok (JDict [("success", JBool true); ("filters_applied", JDict F);
                 ("matches_found", JNat (List.length results));
                 ("results", JList results)])
    /\ results = filter (satisfiesb F) (mapping_subtrees D)
    /\ (forall node, In node results <-> In node (mapping_subtrees D) /\ satisfies F node)
    /\ (forall parent child,
           In parent results -> In child (mapping_subtrees parent) -> satisfies F child ->
           In child results).
Proof.
  intros Hlit. exists (filter (satisfiesb F) (mapping_subtrees D)).
  assert (Hiff : forall node,
             In node (filter (satisfiesb F) (mapping_subtrees D))
             <-> In node (mapping_subtrees D) /\ satisfies F node).
  { intros node. rewrite filter_In, satisfiesb_spec. reflexivity. }
  split; [| split; [reflexivity | split; [exact Hiff |]]].
  - unfold filter_json. rewrite (filter_recursive_literal F Hlit D). reflexivity.
  - intros parent child Hp Hc Hs. apply Hiff. split; [| exact Hs].
    apply Hiff in Hp. destruct Hp as [Hp _].
    eapply mapping_subtrees_trans; eassumption.
Qed.

(** The filter [{"tag": "x"}] on a post that carries a copy of itself:
    parent and child are both reported. *)
Lemma filter_json_literal_witness :
  literal_filters [("tag", JStr "x")]
  /\ exists results,
      filter_json (JDict [("tag", JStr "x"); ("inner", JDict [("tag", JStr "x")])])
                  (JDict [("tag", JStr "x")])
      = Ok (JDict [("success", JBool true); ("filters_applied", JDict [("tag", JStr "x")]);
                   ("matches_found", JNat (List.length results));
                   ("results", JList results)])
      /\ results = [JDict [("tag", JStr "x"); ("inner", JDict [("tag", JStr "x")])];
                    JDict [("tag", JStr "x")]].
Proof.
  assert (Hlit : literal_filters [("tag", JStr "x")]) by (repeat constructor).
  split; [exact Hlit |].
  destruct (filter_json_literal
              (JDict [("tag", JStr "x"); ("inner", JDict [("tag", JStr "x")])])
              [("tag", JStr "x")] Hlit) as (results & Hrun & Hres & _).
  exists results. split; [exact Hrun | exact Hres].
Defined.

(** ** Substrings *)

Lemma starts_with_spec (p s : string) :
  starts_with p s = true <-> exists after, s = p +++ after.
Proof.
  revert s. induction p as [| a p IH]; intros s; simpl.
  - split; [intros _; exists s; reflexivity | reflexivity].
  - destruct s as [| b s]; simpl.
    + split; [discriminate | intros (after & H); discriminate H].
    + rewrite andb_true_iff, Ascii.eqb_eq, IH. split.
      * intros (-> & after & ->). exists after. reflexivity.
      * intros (after & H). injection H as -> ->. split; [reflexivity | eauto].
Qed.


Lemma lower_app (a b : string) : lower (a +++ b) = lower a +++ lower b.
Proof. induction a as [| c a IH]; simpl; [reflexivity | rewrite IH; reflexivity]. Qed.

(** A keyword that is a substring as written is also one up to case. *)
Lemma substring_occurs (case_sensitive : bool) (keyword text before after : string) :
  text = before +++ keyword +++ after -> occurs_in case_sensitive keyword text.
Proof.
  intros ->. unfold occurs_in, fold_case. destruct case_sensitive.
  - eauto.
  - exists (lower before), (lower after). rewrite !lower_app. reflexivity.
Qed.


(** ** [keyword_search] finds every occurrence (C6) *)

Lemma flat_map_map {A B C : Type} (f : A -> B) (g : B -> list C) (l : list A) :
  flat_map g (map f l) = flat_map (fun x => g (f x)) l.
Proof. induction l as [| x r IH]; simpl; [reflexivity | rewrite IH; reflexivity]. Qed.

Lemma flat_map_flat_map {A B C : Type} (f : A -> list B) (g : B -> list C) (l : list A) :
  flat_map g (flat_map f l) = flat_map (fun x => flat_map g (f x)) l.
Proof.
  induction l as [| x r IH]; simpl; [reflexivity |].
  rewrite flat_map_app, IH. reflexivity.
Qed.

Lemma flat_map_flat_map_indexed {A B C : Type} (f : nat -> A -> list B) (g : B -> list C)
      (l : list A) (idx : nat) :
  flat_map g (flat_map_indexed f idx l) = flat_map_indexed (fun i x => flat_map g (f i x)) idx l.
Proof.
  revert idx. induction l as [| x r IH]; intros idx; simpl; [reflexivity |].
  rewrite flat_map_app, IH. reflexivity.
Qed.

Lemma for_each_indexed_flat_map {A B : Type} (f : nat -> A -> py (list B))
      (g : nat -> A -> list B) (l : list A) :
  Forall (fun x => forall idx, f idx x = Ok (g idx x)) l ->
  forall idx, for_each_indexed f idx l = Ok (flat_map_indexed g idx l).
Proof.
  induction 1 as [| x r Hx _ IH]; intros idx; simpl; [reflexivity |].
  rewrite Hx, IH. reflexivity.
Qed.

Lemma flat_map_nil {A B : Type} (f : A -> list B) (l : list A) :
  (forall x, In x l -> f x = []) -> flat_map f l = [].
Proof.
  induction l as [| x r IH]; simpl; intros H; [reflexivity |].
  rewrite (H x (or_introl eq_refl)), IH; [reflexivity |].
  intros y Hy. apply H. right. exact Hy.
Qed.

Section TypedKeywords.
Variable K : list string.
Variable case_sensitive : bool.

Lemma keyword_in_typed (k text : string) :
  keyword_in case_sensitive (JStr k) text
  = Ok (contains (fold_case case_sensitive k) (fold_case case_sensitive text)).
Proof. unfold keyword_in, fold_case. destruct case_sensitive; reflexivity. Qed.

Lemma scan_keywords_typed (text : string) (record : json -> json) :
  scan_keywords (JList (map JStr K)) case_sensitive text record
  = Ok (flat_map (fun k => if contains (fold_case case_sensitive k)
                                       (fold_case case_sensitive text)
                           then [record (JStr k)] else []) K).
Proof.
  unfold scan_keywords. cbn [py_iter bind].
  rewrite <- (flat_map_map JStr
                (fun keyword => match keyword with
                                | JStr k => if contains (fold_case case_sensitive k)
                                                        (fold_case case_sensitive text)
                                            then [record keyword] else []
                                | _ => []
                                end)).
  apply for_each_flat_map. apply Forall_forall. intros keyword Hin.
  apply in_map_iff in Hin. destruct Hin as (k & <- & _).
  rewrite keyword_in_typed. reflexivity.
Qed.

Lemma search_recursive_sites (obj : json) :
  forall path,
    search_recursive (JList (map JStr K)) case_sensitive obj path
    = Ok (flat_map (matches_at K case_sensitive) (sites obj path)).
Proof.
  induction obj as [| | | | s | l IH | d IH] using json_ind; intros path;
    try reflexivity.
  - cbn [search_recursive sites flat_map]. rewrite scan_keywords_typed, app_nil_r. reflexivity.
  - cbn [search_recursive sites]. rewrite flat_map_flat_map_indexed.
    apply for_each_indexed_flat_map.
    eapply Forall_impl; [| exact IH]. intros item Hitem idx. apply Hitem.
  - cbn [search_recursive sites]. rewrite flat_map_flat_map.
    apply for_each_flat_map.
    eapply Forall_impl; [| exact IH]. intros [key value] Hvalue. cbn [snd] in Hvalue.
    rewrite scan_keywords_typed. cbn [bind flat_map].
    assert (Hin : match value with
                  | JStr s =>
                      scan_keywords (JList (map JStr K)) case_sensitive s
                                    (value_record case_sensitive (path +++ "." +++ key) key s)
                  | _ => search_recursive (JList (map JStr K)) case_sensitive value
                                          (path +++ "." +++ key)
                  end
                  = Ok (flat_map (matches_at K case_sensitive)
                                 match value with
                                 | JStr s => [ValueSite (path +++ "." +++ key) key s]
                                 | _ => sites value (path +++ "." +++ key)
                                 end)).
    { destruct value; try apply Hvalue.
      rewrite scan_keywords_typed. cbn [flat_map]. rewrite app_nil_r. reflexivity. }
    rewrite Hin. reflexivity.
Qed.
End TypedKeywords.








(** ** [aggregate_data] and nested occurrences of the field (C10, C4) *)

Lemma map_flat_map {A B C : Type} (f : B -> C) (g : A -> list B) (l : list A) :
  map f (flat_map g l) = flat_map (fun x => map f (g x)) l.
Proof.
  induction l as [| x r IH]; simpl; [reflexivity |].
  rewrite map_app, IH. reflexivity.
Qed.

Lemma extract_values_prune (field obj : json) :
  extract_values field (prune field obj) = map hollow (extract_values field obj).
Proof.
  induction obj as [| | | | | l IH | d IH] using json_ind; try reflexivity.
  - cbn [prune extract_values]. rewrite flat_map_map, map_flat_map.
    apply flat_map_eq. exact IH.
  - cbn [prune extract_values]. rewrite flat_map_map, map_flat_map.
    apply flat_map_eq. eapply Forall_impl; [| exact IH].
    intros [key value] Hvalue. cbn [snd] in Hvalue.
    destruct (py_eq (JStr key) field); [reflexivity | exact Hvalue].
Qed.

Lemma filter_numeric_hollow (values : list json) :
  filter is_numeric (map hollow values) = filter is_numeric values.
Proof.
  induction values as [| v r IH]; simpl; [reflexivity |].
  rewrite IH. destruct v; reflexivity.
Qed.

Lemma Counter_hollow (values : list json) :
  forall acc, Counter acc (map hollow values) = Counter acc values.
Proof.
  induction values as [| v r IH]; intros acc; simpl; [reflexivity |].
  destruct v; simpl; try apply IH; reflexivity.
Qed.

(** C10.  [aggregate_data] never looks inside a value bound to the
    requested field: a binding of the field is collected as it is,
    whatever it contains, and emptying every outermost value bound to
    the field (which removes all nested occurrences) changes neither the
    number of collected values nor the result of any operation, count or
    arithmetic. *)
Theorem aggregate_data_ignores_nested (D field operation : json) :
  (forall key value rest,
      extract_values (JStr key) (JDict ((key, value) :: rest))
      = value :: extract_values (JStr key) (JDict rest))
  /\ extract_values field (prune field D) = map hollow (extract_values field D)
  /\ List.length (extract_values field (prune field D)) = List.length (extract_values field D)
  /\ aggregate_data (prune field D) field operation = aggregate_data D field operation.
Proof.
  split; [| split; [| split]].
  - intros key value rest. cbn [extract_values flat_map py_eq].
    rewrite String.eqb_refl. reflexivity.
  - apply extract_values_prune.
  - rewrite extract_values_prune. apply length_map.
  - unfold aggregate_data.
    rewrite extract_values_prune, length_map, Counter_hollow, filter_numeric_hollow.
    reflexivity.
Qed.

Lemma extract_values_all_bindings (field : string) (D : json) :
  Forall (fun v => all_bindings field v = []) (all_bindings field D) ->
  extract_values (JStr field) D = all_bindings field D.
Proof.
  induction D as [| | | | | l IH | d IH] using json_ind; try reflexivity.
  - cbn [extract_values all_bindings]. intros Hflat.
    apply Forall_flat_map in Hflat. apply flat_map_eq.
    rewrite Forall_forall in *. intros item Hin. apply (IH item Hin), (Hflat item Hin).
  - cbn [extract_values all_bindings]. intros Hflat.
    apply Forall_flat_map in Hflat. apply flat_map_eq.
    rewrite Forall_forall in *. intros [key value] Hin.
    specialize (IH _ Hin). specialize (Hflat _ Hin). cbn [snd] in IH. cbn beta iota in Hflat.
    cbn [py_eq]. destruct (String.eqb key field); simpl in Hflat.
    + inversion Hflat as [| ? ? Hvalue _]. rewrite Hvalue. reflexivity.
    + apply IH. exact Hflat.
Qed.

Lemma Counter_scalars (values : list json) :
  Forall (fun v => is_scalar v = true) values ->
  forall acc, exists counts, Counter acc values = Ok counts.
Proof.
  induction 1 as [| v r Hv _ IH]; intros acc; simpl; [eauto |].
  destruct v; try discriminate Hv; apply IH.
Qed.

(** C4, as amended.  When no value bound to [f] contains a further
    occurrence of [f]: [sum] returns the sum, added from left to right,
    of the numeric values ([int], [float], [bool]) bound to [f] anywhere
    in [D], provided there is one and the additions are defined; [count]
    returns the number of occurrences of [f], provided no value bound to
    [f] is a sequence or a mapping. *)
Theorem aggregate_data_sum_count (D : json) (f : string) :
  Forall (fun v => all_bindings f v = []) (all_bindings f D) ->
  (forall s,
      filter is_numeric (all_bindings f D) <> [] ->
      py_sum (filter is_numeric (all_bindings f D)) = Ok s ->
      exists d, aggregate_data D (JStr f) (JStr "sum") = Ok (JDict d)
                /\ dict_get d "success" = Some (JBool true)
                /\ dict_get d "result" = Some (json_of_num s))
  /\ (Forall (fun v => is_scalar v = true) (all_bindings f D) ->
      exists d, aggregate_data D (JStr f) (JStr "count") = Ok (JDict d)
                /\ dict_get d "success" = Some (JBool true)
                /\ dict_get d "result" = Some (JNat (List.length (all_bindings f D)))).
Proof.
  intros Hflat. split.
  - intros s Hsome Hsum. unfold aggregate_data.
    rewrite (extract_values_all_bindings f D Hflat).
    cbn [py_eq String.eqb Ascii.eqb Bool.eqb existsb elem_eq is_nan andb orb].
    destruct (filter is_numeric (all_bindings f D)) as [| first rest] eqn:Hnum;
      [contradiction |].
    rewrite Hsum. eexists. split; [reflexivity | split; reflexivity].
  - intros Hscalar. unfold aggregate_data.
    rewrite (extract_values_all_bindings f D Hflat).
    cbn [py_eq String.eqb Ascii.eqb Bool.eqb].
    destruct (Counter_scalars _ Hscalar []) as (counts & ->).
    eexists. split; [reflexivity | split; reflexivity].
Qed.

(** The views of two posts: 10 + 20 = 30, counted twice. *)
Lemma aggregate_data_sum_count_witness :
  Forall (fun v => all_bindings "views" v = []) (all_bindings "views" two_posts)
  /\ (exists d,
         aggregate_data two_posts (JStr "views") (JStr "sum") = Ok (JDict d)
         /\ dict_get d "success" = Some (JBool true)
         /\ dict_get d "result" = Some (JInt 30))
  /\ (exists d,
         aggregate_data two_posts (JStr "views") (JStr "count") = Ok (JDict d)
         /\ dict_get d "success" = Some (JBool true)
         /\ dict_get d "result" = Some (JInt 2)).
Proof.
  assert (Hflat : Forall (fun v => all_bindings "views" v = [])
                         (all_bindings "views" two_posts))
    by (repeat constructor).
  split; [exact Hflat |].
  destruct (aggregate_data_sum_count two_posts "views" Hflat) as [Hsum Hcount].
  split.
  - apply (Hsum (NZ 30)); [discriminate | reflexivity].
  - apply Hcount. repeat constructor.
Defined.

(** C4 as stated fails.  In [{"a": {"views": 10}, "views": {"views": 5}}]
    the values bound to [views] are 10, the mapping [{"views": 5}] and,
    inside it, 5: their numeric sum is 15 and they are 3, but [sum]
    returns 10 and [count] returns no count at all. *)
Lemma aggregate_data_sum_count_counterexample :
  all_bindings "views" nested_views = [JInt 10; JDict [("views", JInt 5)]; JInt 5]
  /\ py_sum (filter is_numeric (all_bindings "views" nested_views)) = Ok (NZ 15)
  /\ (exists d, aggregate_data nested_views (JStr "views") (JStr "sum") = Ok (JDict d)
                /\ dict_get d "result" = Some (JInt 10))
  /\ ~ (exists d, aggregate_data nested_views (JStr "views") (JStr "sum") = Ok (JDict d)
                  /\ dict_get d "result" = Some (JInt 15))
  /\ ~ (exists d, aggregate_data nested_views (JStr "views") (JStr "count") = Ok (JDict d)
                  /\ dict_get d "result"
                     = Some (JNat (List.length (all_bindings "views" nested_views)))).
Proof.
  split; [reflexivity | split; [reflexivity | split; [| split]]].
  - eexists. split; reflexivity.
  - intros (d & Hrun & Hres). vm_compute in Hrun. inversion Hrun; subst d.
    discriminate Hres.
  - intros (d & Hrun & Hres). vm_compute in Hrun. inversion Hrun; subst d.
    discriminate Hres.
Qed.

(** ** Events of a run *)

Lemma invocations_app (a b : list event) :
  invocations (a ++ b) = (invocations a + invocations b)%nat.
Proof. unfold invocations. rewrite filter_app, length_app. reflexivity. Qed.

Lemma retry_from_invocations (func : py json) (fname : string) :
  forall left attempt max_retries last,
    invocations (snd (retry_from left attempt max_retries fname func last)) = O.
Proof.
  induction left as [| left IH]; intros attempt max_retries last; simpl; [reflexivity |].
  destruct func as [r | e]; [reflexivity |].
  specialize (IH (S attempt) max_retries (exn_str e)).
  destruct (retry_from left (S attempt) max_retries fname (Raise e) (exn_str e)) as [r evs].
  simpl in *. rewrite invocations_app, IH.
  destruct (Nat.ltb attempt (max_retries - 1)); reflexivity.
Qed.

Lemma dispatch_invocations (w : World) (tool_name : json) (params : list (string * json)) :
  match dispatch w tool_name params with
  | Called _ evs => invocations evs = O
  | Rejected _ => True
  end.
Proof.
  unfold dispatch, call, call_retried, missing.
  repeat match goal with
         | |- context [if ?b then _ else _] => destruct b
         end;
    try exact I; try reflexivity;
    apply (retry_from_invocations _ _ 2 0 2 "None").
Qed.

Lemma execute_from_invocations (w : World) (tool_name parameters : json) :
  forall left attempt max_retries last_error,
    invocations (snd (execute_from w tool_name parameters left attempt max_retries last_error))
    = O.
Proof.
  induction left as [| left IH]; intros attempt max_retries last_error; simpl;
    [reflexivity |].
  destruct parameters as [| | | | | | params]; try reflexivity.
  pose proof (dispatch_invocations w tool_name params) as Hd.
  destruct (dispatch w tool_name params) as [r | [result | e] evs]; [reflexivity | |].
  - destruct (has_error result && Nat.ltb attempt (max_retries - 1))%bool; [| exact Hd].
    match goal with
    | |- context [execute_from w tool_name ?p left ?a ?m ?l] =>
        specialize (IH a m l); destruct (execute_from w tool_name p left a m l) as [r evs']
    end.
    simpl in *. rewrite invocations_app, Hd. exact IH.
  - destruct (Nat.ltb attempt (max_retries - 1)); [| exact Hd].
    match goal with
    | |- context [execute_from w tool_name ?p left ?a ?m ?l] =>
        specialize (IH a m l); destruct (execute_from w tool_name p left a m l) as [r evs']
    end.
    simpl in *. rewrite invocations_app, Hd. exact IH.
Qed.



(** ** The steps of the loop *)




(** ** The iteration budget (C1) *)



(** ** Unknown tools (C7) *)

Lemma dispatch_unknown (w : World) (tool : string) (params : list (string * json)) :
  ~ In tool tool_names ->
  dispatch w (JStr tool) params = Rejected (error_dict ("Unknown tool: " +++ tool)).
Proof.
  intros Hunknown. unfold dispatch. cbn [py_eq].
  repeat match goal with
         | |- context [String.eqb tool ?t] =>
             let E := fresh "E" in
             assert (E : String.eqb tool t = false)
               by (apply String.eqb_neq; intros ->; apply Hunknown;
                   cbv [tool_names get_available_tools map name In];
                   repeat (first [left; reflexivity | right]));
             rewrite E; clear E
         end.
  reflexivity.
Qed.


Lemma run_from_continue (w : World) (model : nat -> py string) (left iteration max_iterations : nat)
      (iterations iterations' : list json) (text : string) :
  model iteration = Ok text ->
  run_step w iteration iterations text = Continue iterations' [] ->
  run_from w model (S left) iteration max_iterations iterations
  = (fst (run_from w model left (S iteration) max_iterations iterations'),
     Generate iteration :: snd (run_from w model left (S iteration) max_iterations iterations')).
Proof.
  intros Htext Hstep. simpl. rewrite Htext, Hstep.
  destruct (run_from w model left (S iteration) max_iterations iterations'). reflexivity.
Qed.




(** ** Required parameters are tested for truth (C9) *)

Lemma search_recursive_empty_document (keywords : json) (case_sensitive : bool) (path : string) :
  search_recursive keywords case_sensitive (JDict []) path = Ok [].
Proof. reflexivity. Qed.

Lemma keyword_search_no_keywords (data case_sensitive : json) :
  keyword_search data (JList []) case_sensitive
  = Ok (JDict [("success", JBool true); ("keywords", JList []);
               ("total_matches", JInt 0); ("matches", JList [])]).
Proof.
  pose proof (search_recursive_sites [] (truthy case_sensitive) data "root") as Hsearch.
  cbn [map] in Hsearch. unfold keyword_search. cbn [is_str]. rewrite Hsearch.
  rewrite flat_map_nil; [reflexivity | intros st _; reflexivity].
Qed.

Lemma dispatch_missing (w : World) (tool p : string) (req : list string)
      (params : list (string * json)) (v : json) :
  In (tool, req) required_parameters -> In p req ->
  dict_get params p = Some v -> truthy v = false ->
  exists what, dispatch w (JStr tool) params = missing what.
Proof.
  intros Htool Hp Hget Hfalsy.
  assert (Hparam : param params p = v) by (unfold param, get_default; rewrite Hget; reflexivity).
  cbv [required_parameters In] in Htool.
  repeat (destruct Htool as [Htool | Htool];
          [injection Htool as <- <-;
           cbv [In] in Hp;
           repeat (destruct Hp as [Hp | Hp];
                   [subst p; unfold dispatch;
                    cbn [py_eq String.eqb Ascii.eqb Bool.eqb];
                    rewrite Hparam, Hfalsy; cbn [negb orb];
                    rewrite ?orb_true_r; eexists; reflexivity |]);
           contradiction |]).
  contradiction.
Qed.

(** C9, as amended.  For every call of a tool with required parameters in
    which one of them is supplied but falsy, [execute_tool] returns a
    [Missing required parameter(s)] error at the first attempt and calls
    no operation.  [keyword_search] itself, given [keywords = []] or
    [data = {}], returns a successful result with no match. *)
Theorem falsy_parameter_rejected (w : World) (tool p : string) (req : list string)
        (params : list (string * json)) (v : json) :
  In (tool, req) required_parameters -> In p req ->
  dict_get params p = Some v -> truthy v = false ->
  (exists msg, execute_tool w (JStr tool) (JDict params) 2 = (error_dict msg, [])
               /\ starts_with "Missing required parameter" msg = true)
  /\ (forall data case_sensitive,
         empty_success (keyword_search data (JList []) case_sensitive) "matches")
  /\ (forall keywords case_sensitive,
         empty_success (keyword_search (JDict []) keywords case_sensitive) "matches").
Proof.
  intros Htool Hp Hget Hfalsy. split; [| split].
  - destruct (dispatch_missing w tool p req params v Htool Hp Hget Hfalsy) as (what & Hd).
    exists ("Missing required parameter" +++ what). split; [| reflexivity].
    unfold execute_tool. simpl. rewrite Hd. reflexivity.
  - intros data case_sensitive. rewrite keyword_search_no_keywords.
    eexists. split; [reflexivity | split; reflexivity].
  - intros keywords case_sensitive. unfold keyword_search.
    rewrite search_recursive_empty_document.
    eexists. split; [reflexivity | split; reflexivity].
Qed.

(** [keyword_search] called with [keywords = []]. *)
Lemma falsy_parameter_rejected_witness :
  In ("keyword_search", ["data"; "keywords"]) required_parameters
  /\ truthy (JList []) = false
  /\ (exists msg,
         execute_tool (world_of []) (JStr "keyword_search")
                      (JDict [("data", JDict [("a", JStr "b")]); ("keywords", JList [])]) 2
         = (error_dict msg, [])
         /\ starts_with "Missing required parameter" msg = true)
  /\ empty_success (keyword_search (JDict [("a", JStr "b")]) (JList []) (JBool false)) "matches".
Proof.
  assert (Htool : In ("keyword_search", ["data"; "keywords"]) required_parameters)
    by (cbv [required_parameters In]; tauto).
  split; [exact Htool | split; [reflexivity |]].
  destruct (falsy_parameter_rejected
              (world_of []) "keyword_search" "keywords" ["data"; "keywords"]
              [("data", JDict [("a", JStr "b")]); ("keywords", JList [])] (JList [])
              Htool (or_intror (or_introl eq_refl)) eq_refl eq_refl)
    as (Hexec & Hempty & _).
  split; [exact Hexec | apply Hempty].
Defined.

(** C9 as stated fails.  [keyword_search] called with [keywords = ""]
    is rejected as missing a parameter and never called; the operation
    itself, on that input, matches the empty keyword in the key and in
    the value: a successful result with two matches, not an empty one.
    Likewise [filter_json] with [filters = {}] would return every mapping
    node of the data. *)
Lemma falsy_parameter_counterexample :
  truthy (JStr "") = false
  /\ execute_tool (world_of []) (JStr "keyword_search")
                  (JDict [("data", JDict [("a", JStr "b")]); ("keywords", JStr "")]) 2
     = (error_dict "Missing required parameters: data, keywords", [])
  /\ (exists m1 m2,
         keyword_search (JDict [("a", JStr "b")]) (JStr "") (JBool false)
         = Ok (JDict [("success", JBool true); ("keywords", JList [JStr ""]);
                      ("total_matches", JInt 2); ("matches", JList [m1; m2])]))
  /\ ~ empty_success (keyword_search (JDict [("a", JStr "b")]) (JStr "") (JBool false))
                     "matches"
  /\ execute_tool (world_of []) (JStr "filter_json")
                  (JDict [("data", JDict [("a", JInt 1)]); ("filters", JDict [])]) 2
     = (error_dict "Missing required parameters: data, filters", [])
  /\ ~ empty_success (filter_json (JDict [("a", JInt 1)]) (JDict [])) "results".
Proof.
  split; [reflexivity | split; [reflexivity | split; [| split; [| split; [reflexivity |]]]]].
  - eexists. eexists. reflexivity.
  - intros (d & Hrun & _ & Hres). vm_compute in Hrun. inversion Hrun; subst d.
    discriminate Hres.
  - intros (d & Hrun & _ & Hres). vm_compute in Hrun. inversion Hrun; subst d.
    discriminate Hres.
Qed.

(** ** Parsing the model's response (C3) *)

Lemma starts_with_trans (p q s : string) :
  starts_with p q = true -> starts_with q s = true -> starts_with p s = true.
Proof.
  intros Hpq Hqs. apply starts_with_spec in Hpq, Hqs.
  destruct Hpq as (a & ->). destruct Hqs as (b & ->).
  apply starts_with_spec. exists (a +++ b).
  clear. induction p as [| c p IH]; simpl; [reflexivity | rewrite IH; reflexivity].
Qed.

Lemma search_fenced_none (opening s : string) :
  starts_with fence opening = true ->
  contains fence s = false ->
  search_fenced opening s = None.
Proof.
  intros Hopening. induction s as [| c r IH]; intros Hnone.
  - cbn [search_fenced]. destruct (starts_with opening "") eqn:Hs; [| reflexivity].
    pose proof (starts_with_trans _ _ _ Hopening Hs) as Hfence.
    cbv in Hfence. discriminate Hfence.
  - cbn [contains] in Hnone. apply orb_false_iff in Hnone. destruct Hnone as [Hhere Hlater].
    cbn [search_fenced].
    destruct (starts_with opening (String c r)) eqn:Hs.
    + rewrite (starts_with_trans _ _ _ Hopening Hs) in Hhere. discriminate.
    + apply IH. exact Hlater.
Qed.

(** A response without a fence goes to the decoder as it is. *)
Lemma extract_json_text_plain (response_text : string) :
  contains fence response_text = false -> extract_json_text response_text = response_text.
Proof.
  intros Hnone. unfold extract_json_text.
  rewrite (search_fenced_none "```json" response_text eq_refl Hnone), Hnone. reflexivity.
Qed.

(** The scenario of the specification: prose without a fence that does
    not decode ends the run, answered, with that text. *)
Lemma run_step_plain_prose (w : World) (iteration : nat) (iterations : list json)
      (text : string) (e : exn) :
  contains fence (strip text) = false ->
  json_loads w (strip text) = Raise e ->
  exn_cls e = JSONDecodeError ->
  run_step w iteration iterations text
  = Return (Answered iterations (JStr (strip text)) (S iteration)).
Proof.
  intros Hplain Hload Hcls. unfold run_step.
  rewrite (extract_json_text_plain _ Hplain), Hload, Hcls. reflexivity.
Qed.

(** C3, the code at three responses.  A fenced block that does not
    decode: the three strategies of the specification all fail, so the
    answer should be the response; the run is answered with the content
    of the block instead.  A response that decodes to a list: again no
    strategy applies, and the run fails with an error.  An action object
    inside prose: the third strategy would find it, but the code does
    not look for it and answers with the whole response. *)
Theorem run_parsing_evaluated :
  (spec_parse_response (world_of []) (strip fenced_oops) = None
   /\ run (world_of []) (fun _ => Ok fenced_oops) 3
      = (Answered [] (JStr "{oops}") 1, [Generate 0])
   /\ JStr "{oops}" <> JStr (strip fenced_oops))
  /\ (spec_parse_response (world_of []) "[1, 2]" = None
      /\ run (world_of []) (fun _ => Ok "[1, 2]") 3
         = (Failed "'list' object has no attribute 'get'" [] 1, [Generate 0]))
  /\ (spec_parse_response (world_of []) (strip prose_around_answer)
      = Some (JDict [("action", JStr "answer"); ("response", JStr "done")])
      /\ run (world_of []) (fun _ => Ok prose_around_answer) 3
         = (Answered [] (JStr prose_around_answer) 1, [Generate 0])).
Proof.
  split; [split; [reflexivity | split; [reflexivity |]] | split; split; reflexivity].
  intros H. vm_compute in H. discriminate H.
Qed.

(** ** A file compared with itself (C8) *)

Lemma same_type_refl (v : json) : same_type v v = true.
Proof. apply String.eqb_refl. Qed.

Lemma py_eq_refl_leaf (v : json) :
  nan_free v = true ->
  match v with JList _ | JDict _ => True | _ => py_eq v v = true end.
Proof.
  destruct v as [| b | z | f | s | l | d]; intros Hnan; try exact I; try reflexivity.
  - simpl. unfold num_eqb. simpl. rewrite Z.compare_refl. reflexivity.
  - simpl. unfold num_eqb. simpl. rewrite Z.compare_refl. reflexivity.
  - simpl in *. unfold is_nan_float in Hnan. apply negb_true_iff, negb_false_iff in Hnan.
    unfold num_eqb. simpl. rewrite Hnan. reflexivity.
  - simpl. apply String.eqb_refl.
Qed.

Lemma dict_has_In (d : list (string * json)) (k : string) (v : json) :
  In (k, v) d -> dict_has d k = true.
Proof.
  unfold dict_has. induction d as [| [k' v'] r IH]; simpl; [contradiction |].
  intros [H | H].
  - injection H as -> ->. rewrite String.eqb_refl. reflexivity.
  - destruct (String.eqb k' k); [reflexivity | apply IH; exact H].
Qed.

Lemma dict_get_unique (d : list (string * json)) (k : string) (v : json) :
  unique_keys d = true -> In (k, v) d -> dict_get d k = Some v.
Proof.
  induction d as [| [k' v'] r IH]; simpl; [contradiction |].
  intros Hu [H | H]; apply andb_true_iff in Hu; destruct Hu as [Hfresh Hu].
  - injection H as -> ->. rewrite String.eqb_refl. reflexivity.
  - destruct (String.eqb k' k) eqn:E.
    + apply String.eqb_eq in E. subst k'.
      rewrite (dict_has_In r k v H) in Hfresh. discriminate.
    + apply IH; assumption.
Qed.

Lemma flat_map_pairs_self {A C : Type} (f : nat -> A -> A -> list C) (l : list A) :
  Forall (fun x => forall idx, f idx x x = []) l ->
  forall idx, flat_map_pairs f idx l l = [].
Proof.
  induction 1 as [| x r Hx _ IH]; intros idx; simpl; [reflexivity |].
  rewrite Hx, IH. reflexivity.
Qed.

(** Without NaN, a document does not differ from itself. *)
Lemma compare_recursive_self (v : json) :
  well_formed v = true -> nan_free v = true ->
  forall path, compare_recursive v v path = [].
Proof.
  induction v as [| b | z | f | s | l IH | d IH] using json_ind; intros Hwf Hnan path;
    try (cbn [compare_recursive]; rewrite same_type_refl; cbn [negb];
         match goal with
         | |- context [py_eq ?v ?v] =>
             rewrite (py_eq_refl_leaf v Hnan); reflexivity
         end).
  - cbn [compare_recursive]. rewrite same_type_refl, Nat.eqb_refl. cbn [negb app].
    apply flat_map_pairs_self. cbn [well_formed nan_free] in Hwf, Hnan.
    rewrite forallb_forall in Hwf, Hnan. rewrite Forall_forall in *.
    intros x Hx idx. apply (IH x Hx); auto.
  - cbn [compare_recursive]. rewrite same_type_refl. cbn [negb].
    cbn [well_formed nan_free] in Hwf, Hnan.
    apply andb_true_iff in Hwf. destruct Hwf as [Hu Hwf].
    rewrite forallb_forall in Hwf, Hnan. rewrite Forall_forall in IH.
    rewrite !flat_map_nil; [reflexivity | |].
    + intros [k v] Hin. cbn [fst]. rewrite (dict_has_In d k v Hin). reflexivity.
    + intros [k v] Hin. rewrite (dict_get_unique d k v Hu Hin).
      apply (IH (k, v) Hin); [apply (Hwf (k, v) Hin) | apply (Hnan (k, v) Hin)].
Qed.

Lemma compare_files_self (w : World) (path content : string) (v : json) :
  read_text w path = Ok content -> json_loads w content = Ok v ->
  well_formed v = true -> nan_free v = true ->
  compare_files w (JStr path) (JStr path)
  = Ok (JDict [("success", JBool true); ("file1", JStr path); ("file2", JStr path);
               ("differences_count", JInt 0); ("differences", JList [])]).
Proof.
  intros Hread Hload Hwf Hnan. unfold compare_files, load_json.
  rewrite Hread. cbn [bind]. rewrite Hload. cbn [bind].
  rewrite (compare_recursive_self v Hwf Hnan). reflexivity.
Qed.

(** C8, the code at a file that holds [[NaN]].  The file loads, and
    compared with itself it has one difference: the NaN at [root[0]]
    differs from itself. *)
Theorem compare_files_self_nan :
  compare_files nan_world (JStr "a.json") (JStr "a.json")
  = Ok (JDict [("success", JBool true); ("file1", JStr "a.json"); ("file2", JStr "a.json");
               ("differences_count", JInt 1);
               ("differences",
                JList [JDict [("path", JStr "root[0]"); ("type", JStr "value_mismatch");
                              ("file1_value", JStr "nan"); ("file2_value", JStr "nan")]])])
  /\ load_json nan_world (JStr "a.json") = Ok (JList [JFloat PrimFloat.nan]).
Proof. split; reflexivity. Qed.

(** * Further properties of the operations *)

(** ** [retry_on_error] *)

Lemma retry_from_raising (name : string) (e : exn) (left attempt max_retries : nat)
      (last : string) :
  (left + attempt = max_retries)%nat ->
  retry_from left attempt max_retries name (Raise e) last
  = (Ok (JDict [("error", JStr ("Failed after " +++ str_of_nat max_retries +++ " attempts"));
                ("last_error", JStr (if Nat.eqb left 0 then last else exn_str e));
                ("function", JStr name)]),
     map (fun k => Sleep (Z.of_nat k)) (seq (S attempt) (left - 1))).
Proof.
  revert attempt last. induction left as [| left IH]; intros attempt last Hsum.
  - reflexivity.
  - cbn [retry_from]. rewrite (IH (S attempt) (exn_str e)) by lia.
    destruct left as [| left'].
    + replace (Nat.ltb attempt (max_retries - 1)) with false
        by (symmetry; apply Nat.ltb_ge; lia).
      reflexivity.
    + replace (Nat.ltb attempt (max_retries - 1)) with true
        by (symmetry; apply Nat.ltb_lt; lia).
      cbn [Nat.eqb Nat.sub app]. rewrite Nat.sub_0_r. reflexivity.
Qed.

(** X1.  A function that raises at every attempt is called [max_retries]
    times by the wrapper of [retry_on_error]; between two attempts the
    wrapper sleeps 1, 2, ... seconds (the delay grows linearly), and it
    returns a mapping with the entries [error], [last_error] (the text
    of the exception, or [None] when no attempt was made) and
    [function] instead of raising. *)
Theorem retry_on_error_exhausted (max_retries : nat) (name : string) (e : exn) :
  retry_on_error max_retries name (Raise e)
  = (Ok (JDict [("error", JStr ("Failed after " +++ str_of_nat max_retries +++ " attempts"));
                ("last_error", JStr (if Nat.eqb max_retries 0 then "None" else exn_str e));
                ("function", JStr name)]),
     map (fun k => Sleep (Z.of_nat k)) (seq 1 (max_retries - 1))).
Proof.
  unfold retry_on_error. apply retry_from_raising. lia.
Qed.

Lemma try_except_returns {A : Type} (c : py A) (h : exn -> py A) :
  (forall e, exists r, h e = Ok r) -> exists r, try_except c h = Ok r.
Proof.
  intros Hh. destruct c as [r | e]; simpl; [eauto | apply Hh].
Qed.

Lemma list_json_files_body_returns (w : World) (directory : json) :
  exists r, list_json_files_body w directory = Ok r.
Proof. unfold list_json_files_body. apply try_except_returns. intros e. eauto. Qed.

Lemma read_json_file_body_returns (w : World) (filename : json) :
  exists r, read_json_file_body w filename = Ok r.
Proof. unfold read_json_file_body. apply try_except_returns. intros e. eauto. Qed.

(** X2.  The bodies of [list_json_files] and [read_json_file] catch every
    exception themselves, so the retry wrapper around them never sees a
    failure: each call runs the body once, never sleeps, and never
    returns the wrapper's mapping with [Failed after 2 attempts]. *)
Theorem decorated_operations_run_once (w : World) (a : json) :
  (exists r, list_json_files_body w a = Ok r /\ list_json_files w a = (Ok r, []))
  /\ (exists r, read_json_file_body w a = Ok r /\ read_json_file w a = (Ok r, [])).
Proof.
  split.
  - destruct (list_json_files_body_returns w a) as (r & Hr). exists r. split; [exact Hr |].
    unfold list_json_files, retry_on_error. rewrite Hr. reflexivity.
  - destruct (read_json_file_body_returns w a) as (r & Hr). exists r. split; [exact Hr |].
    unfold read_json_file, retry_on_error. rewrite Hr. reflexivity.
Qed.

(** ** [safe_json_loads] *)




(** ** The consolidated data *)

Lemma elem_eq_str (x : json) (s : string) : elem_eq x (JStr s) = py_eq x (JStr s).
Proof. unfold elem_eq. cbn [is_nan]. rewrite andb_false_r. reflexivity. Qed.

Lemma dict_has_set (d : list (string * json)) (name k : string) (v : json) :
  dict_has (dict_set d name v) k = (String.eqb name k || dict_has d k)%bool.
Proof.
  unfold dict_has. induction d as [| [k' v'] r IH]; cbn [dict_set dict_get].
  - destruct (String.eqb name k); reflexivity.
  - destruct (String.eqb k' name) eqn:Hname; cbn [dict_get].
    + apply String.eqb_eq in Hname. subst k'.
      destruct (String.eqb name k); reflexivity.
    + destruct (String.eqb k' k) eqn:Hk.
      * destruct (String.eqb name k); reflexivity.
      * exact IH.
Qed.

Lemma load_platform_requested (w : World) (platform : json) (name file : string)
      (result result' : list (string * json)) :
  name = "instagram" \/ name = "youtube" ->
  load_platform w platform name file result = Ok result' ->
  holds_requested platform result ->
  holds_requested platform result'.
Proof.
  intros Hname H Hresult. unfold load_platform in H.
  cbn [existsb] in H. rewrite !elem_eq_str, orb_false_r in H.
  destruct (py_eq platform (JStr name) || py_eq platform (JStr "all"))%bool eqn:Hreq.
  - py_inv; [| exact Hresult].
    intros k Hk. rewrite dict_has_set in Hk.
    destruct (String.eqb name k) eqn:Hnk.
    + apply String.eqb_eq in Hnk. subst k. split; [exact Hname | exact Hreq].
    + apply Hresult. exact Hk.
  - inversion H; subst. exact Hresult.
Qed.

(** X4.  A successful result of [get_consolidated_data] or of
    [get_media_summary] holds at least one platform, and only the
    platforms [instagram] and [youtube] that were requested, by their
    name or by [all]; for any other [platform] value, and when the
    directory of the consolidated data exists, both return an error
    mapping that names the platform. *)
Theorem consolidated_results_hold_requested (w : World) (platform : json) :
  (forall d, get_consolidated_data w platform = Ok (JDict d) -> dict_has d "error" = false ->
             exists data, d = [("success", JBool true); ("platform", platform);
                               ("data", JDict data)]
                          /\ data <> [] /\ holds_requested platform data)
  /\ (forall d, get_media_summary w platform = Ok (JDict d) -> dict_has d "error" = false ->
                exists data, d = [("success", JBool true); ("platform", platform);
                                  ("summaries", JDict data)]
                             /\ data <> [] /\ holds_requested platform data)
  /\ (path_exists w data_dir = Ok true ->
      py_eq platform (JStr "instagram") = false ->
      py_eq platform (JStr "youtube") = false ->
      py_eq platform (JStr "all") = false ->
      get_consolidated_data w platform
      = Ok (error_dict ("No consolidated data found for platform: " +++ py_str platform))
      /\ get_media_summary w platform
         = Ok (error_dict ("No summary data found for platform: " +++ py_str platform))).
Proof.
  assert (Hempty : holds_requested platform []) by (intros k Hk; discriminate Hk).
  split; [| split].
  - intros d H Hno. unfold get_consolidated_data in H.
    destruct (path_exists w data_dir) as [there | e]; cbn [bind try_except] in H;
      [| inversion H; subst; discriminate Hno].
    destruct there; cbn [negb] in H; [| inversion H; subst; discriminate Hno].
    destruct (load_platform w platform "instagram" _ []) as [r1 | e] eqn:H1;
      cbn [bind try_except] in H; [| inversion H; subst; discriminate Hno].
    destruct (load_platform w platform "youtube" _ r1) as [r2 | e] eqn:H2;
      cbn [bind try_except] in H; [| inversion H; subst; discriminate Hno].
    destruct r2 as [| kv r2]; cbn [try_except] in H; inversion H; subst;
      [discriminate Hno |].
    eexists. split; [reflexivity | split; [discriminate |]].
    eapply load_platform_requested; [right; reflexivity | exact H2 |].
    eapply load_platform_requested; [left; reflexivity | exact H1 | exact Hempty].
  - intros d H Hno. unfold get_media_summary in H.
    destruct (path_exists w data_dir) as [there | e]; cbn [bind try_except] in H;
      [| inversion H; subst; discriminate Hno].
    destruct there; cbn [negb] in H; [| inversion H; subst; discriminate Hno].
    destruct (load_platform w platform "instagram" _ []) as [r1 | e] eqn:H1;
      cbn [bind try_except] in H; [| inversion H; subst; discriminate Hno].
    destruct (load_platform w platform "youtube" _ r1) as [r2 | e] eqn:H2;
      cbn [bind try_except] in H; [| inversion H; subst; discriminate Hno].
    destruct r2 as [| kv r2]; cbn [try_except] in H; inversion H; subst;
      [discriminate Hno |].
    eexists. split; [reflexivity | split; [discriminate |]].
    eapply load_platform_requested; [right; reflexivity | exact H2 |].
    eapply load_platform_requested; [left; reflexivity | exact H1 | exact Hempty].
  - intros Hdir Hi Hy Ha.
    unfold get_consolidated_data, get_media_summary, load_platform.
    rewrite Hdir. cbn [existsb bind negb]. rewrite !elem_eq_str, Hi, Hy, Ha. split; reflexivity.
Qed.

(** The directory of the consolidated data exists; [tiktok] is neither
    of the two platforms. *)
Lemma consolidated_results_hold_requested_witness :
  path_exists (world_of [("data/consolidated/instagram_consolidated.json", "{}")]) data_dir
  = Ok true
  /\ py_eq (JStr "tiktok") (JStr "instagram") = false
  /\ py_eq (JStr "tiktok") (JStr "youtube") = false
  /\ py_eq (JStr "tiktok") (JStr "all") = false
  /\ get_consolidated_data (world_of [("data/consolidated/instagram_consolidated.json", "{}")])
                           (JStr "tiktok")
     = Ok (error_dict "No consolidated data found for platform: tiktok")
  /\ get_media_summary (world_of [("data/consolidated/instagram_consolidated.json", "{}")])
                       (JStr "tiktok")
     = Ok (error_dict "No summary data found for platform: tiktok").
Proof.
  do 4 (split; [reflexivity |]).
  destruct (consolidated_results_hold_requested
              (world_of [("data/consolidated/instagram_consolidated.json", "{}")])
              (JStr "tiktok")) as (_ & _ & H).
  exact (H eq_refl eq_refl eq_refl eq_refl).
Defined.

(** ** [search_media_content] *)

Lemma slice_to_length {A : Type} (n : Z) (l : list A) :
  0 <= n -> Z.of_nat (List.length (slice_to n l)) <= n.
Proof.
  intros Hn. unfold slice_to.
  replace (0 <=? n) with true by (symmetry; apply Z.leb_le; exact Hn).
  rewrite length_firstn. lia.
Qed.

(** X5.  [search_media_content] hands on the error mapping of
    [get_consolidated_data] unchanged.  With a limit that is a
    non-negative [int], a result without [error] entry is a success
    mapping with at most [limit] results, and [total_results] is the
    number of results returned, not of the items that matched. *)
Theorem search_media_content_limit (w : World) (query platform : json) :
  (forall c limit, get_consolidated_data w platform = Ok c -> has_error c = true ->
                   search_media_content w query platform limit = Ok c)
  /\ (forall n d, 0 <= n ->
                  search_media_content w query platform (JInt n) = Ok (JDict d) ->
                  dict_has d "error" = false ->
                  exists results,
                    d = [("success", JBool true); ("query", query);
                         ("total_results", JNat (List.length results));
                         ("results", JList results)]
                    /\ Z.of_nat (List.length results) <= n).
Proof.
  split.
  - intros c limit Hc Herr. unfold search_media_content. rewrite Hc. cbn [bind].
    destruct c as [| | | | | | dd]; try discriminate Herr.
    cbn [has_error] in Herr. cbn [py_in bind]. rewrite Herr. reflexivity.
  - intros n d Hn H Hno. unfold search_media_content in H.
    destruct (get_consolidated_data_mapping w platform) as (dd & Hc & _).
    rewrite Hc in H. cbn [bind py_in] in H.
    destruct (dict_has dd "error") eqn:Herr.
    { cbn [try_except] in H. inversion H; subst. rewrite Herr in Hno. discriminate Hno. }
    destruct (py_lower query) as [query_lower | e]; cbn [bind try_except] in H;
      [| inversion H; subst; discriminate Hno].
    cbn [py_get bind] in H.
    destruct (search_platform _ "instagram" _ _) as [posts | e]; cbn [bind try_except] in H;
      [| inversion H; subst; discriminate Hno].
    destruct (search_platform _ "youtube" _ _) as [videos | e]; cbn [bind try_except] in H;
      [| inversion H; subst; discriminate Hno].
    destruct (sorted_desc engagement (posts ++ videos)) as [ranked | e];
      cbn [bind try_except py_slice_to] in H; [| inversion H; subst; discriminate Hno].
    inversion H; subst. eexists. split; [reflexivity |].
    apply slice_to_length. exact Hn.
Qed.

(** Two posts about cats and the limit 1: the post with more likes is
    returned, and counted. *)
Lemma search_media_content_limit_witness :
  0 <= 1
  /\ exists d,
      search_media_content
        (world_of [("data/consolidated/instagram_consolidated.json",
                    "{" +++ quoted "posts" +++ ": [{" +++ quoted "caption" +++ ": "
                        +++ quoted "cats" +++ ", " +++ quoted "likes" +++ ": 1}, {"
                        +++ quoted "caption" +++ ": " +++ quoted "more cats" +++ ", "
                        +++ quoted "likes" +++ ": 5}]}")])
        (JStr "Cats") (JStr "all") (JInt 1) = Ok (JDict d)
      /\ dict_has d "error" = false
      /\ field_of (JDict d) "total_results" = Some (JInt 1)
      /\ exists results,
          d = [("success", JBool true); ("query", JStr "Cats");
               ("total_results", JNat (List.length results));
               ("results", JList results)]
          /\ Z.of_nat (List.length results) <= 1.
Proof.
  split; [lia |]. eexists.
  split; [vm_compute; reflexivity | split; [reflexivity | split; [reflexivity |]]].
  destruct (search_media_content_limit
              (world_of [("data/consolidated/instagram_consolidated.json",
                          "{" +++ quoted "posts" +++ ": [{" +++ quoted "caption" +++ ": "
                              +++ quoted "cats" +++ ", " +++ quoted "likes" +++ ": 1}, {"
                              +++ quoted "caption" +++ ": " +++ quoted "more cats" +++ ", "
                              +++ quoted "likes" +++ ": 5}]}")])
              (JStr "Cats") (JStr "all")) as (_ & Hlimit).
  apply (Hlimit 1); [lia | vm_compute; reflexivity | reflexivity].
Defined.

(** X29.  [search_media_content] does not look at the case of the query:
    two queries that are equal up to case select the same results, in
    the same order, and fail alike; the results differ in nothing but
    the [query] entry, which repeats the query as given. *)
Theorem search_media_content_ignores_case (w : World) (q q' : string) (platform limit : json) :
  lower q = lower q' ->
  exists r r',
    search_media_content w (JStr q) platform limit = Ok r
    /\ search_media_content w (JStr q') platform limit = Ok r'
    /\ field_of r "results" = field_of r' "results"
    /\ field_of r "total_results" = field_of r' "total_results"
    /\ field_of r "error" = field_of r' "error".
Proof.
  intros Hcase. unfold search_media_content.
  destruct (get_consolidated_data w platform) as [consolidated | e]; cbn [bind try_except];
    [| eexists; eexists; repeat split; reflexivity].
  destruct (py_in (JStr "error") consolidated) as [[|] | e]; cbn [bind try_except];
    try (eexists; eexists; repeat split; reflexivity).
  cbn [py_lower bind]. rewrite <- Hcase.
  destruct (py_get consolidated "data" (JDict [])) as [data | e]; cbn [bind try_except];
    [| eexists; eexists; repeat split; reflexivity].
  destruct (search_platform data "instagram" _ _) as [posts | e]; cbn [bind try_except];
    [| eexists; eexists; repeat split; reflexivity].
  destruct (search_platform data "youtube" _ _) as [videos | e]; cbn [bind try_except];
    [| eexists; eexists; repeat split; reflexivity].
  destruct (sorted_desc engagement (posts ++ videos)) as [ranked | e]; cbn [bind try_except];
    [| eexists; eexists; repeat split; reflexivity].
  destruct (py_slice_to (JList ranked) limit) as [results | e]; cbn [bind try_except];
    [| eexists; eexists; repeat split; reflexivity].
  destruct results; cbn [bind try_except]; eexists; eexists; repeat split; reflexivity.
Qed.

Lemma search_media_content_ignores_case_witness :
  lower "Cats" = lower "cATS"
  /\ exists r r',
      search_media_content
        (world_of [("data/consolidated/instagram_consolidated.json",
                    "{" +++ quoted "posts" +++ ": [{" +++ quoted "caption" +++ ": "
                        +++ quoted "Cats!" +++ "}]}")])
        (JStr "Cats") (JStr "all") (JInt 20) = Ok r
      /\ search_media_content
           (world_of [("data/consolidated/instagram_consolidated.json",
                       "{" +++ quoted "posts" +++ ": [{" +++ quoted "caption" +++ ": "
                           +++ quoted "Cats!" +++ "}]}")])
           (JStr "cATS") (JStr "all") (JInt 20) = Ok r'
      /\ field_of r "results" = field_of r' "results"
      /\ field_of r "total_results" = field_of r' "total_results"
      /\ field_of r "error" = field_of r' "error".
Proof.
  split; [reflexivity |].
  exact (search_media_content_ignores_case _ "Cats" "cATS" (JStr "all") (JInt 20) eq_refl).
Defined.

(** ** [read_json_file] *)

Lemma find_in_dirs_first (w : World) (filename : string) (dirs : list string) :
  Forall (fun d => exists b, path_exists w (path_join d filename) = Ok b) dirs ->
  find_in_dirs w dirs filename
  = Ok (find (exists_in w) (map (fun d => path_join d filename) dirs)).
Proof.
  induction 1 as [| d r (b & Hb) _ IH]; [reflexivity |].
  cbn [find_in_dirs map find bind]. unfold exists_in at 1. rewrite Hb. cbn [bind].
  destruct b; [reflexivity | exact IH].
Qed.

(** X6.  For a file name that [pathlib] leaves as written,
    [read_json_file] reads the first of the path itself, the path under
    the current directory, under [data] and under [data/accounts] that
    exists, and reports that path as [filename]; when none exists it
    returns the error [File <filename> not found in any known location],
    at the first attempt. *)
Theorem read_json_file_resolution (w : World) (filename : string) :
  plain_path filename = true ->
  Forall (fun p => exists b, path_exists w p = Ok b) (candidate_paths filename) ->
  match find (exists_in w) (candidate_paths filename) with
  | Some path =>
      forall r, read_found w path = Ok r -> read_json_file w (JStr filename) = (Ok r, [])
  | None =>
      read_json_file w (JStr filename)
      = (Ok (error_dict ("File " +++ filename +++ " not found in any known location")), [])
  end.
Proof.
  intros _ Hall. unfold candidate_paths in *. inversion Hall as [| p r (b & Hb) Hdirs]; subst.
  assert (Hdirs' : Forall (fun d => exists b, path_exists w (path_join d filename) = Ok b)
                          ["."; "data"; "data/accounts"])
    by (inversion Hdirs as [| ? ? Ha Hda]; inversion Hda as [| ? ? Hb' Hdb];
        inversion Hdb as [| ? ? Hc _]; repeat constructor; assumption).
  pose proof (find_in_dirs_first w filename _ Hdirs') as Hfind.
  unfold read_json_file, retry_on_error, read_json_file_body.
  cbn [py_path bind]. rewrite Hb. cbn [bind find]. unfold exists_in at 1. rewrite Hb.
  destruct b.
  - intros r0 Hr. rewrite Hr. reflexivity.
  - rewrite Hfind. cbn [bind].
    destruct (find (exists_in w) _) as [path |].
    + intros r0 Hr. rewrite Hr. reflexivity.
    + reflexivity.
Qed.

(** The file [posts.json] lies under [data]. *)
Lemma read_json_file_resolution_witness :
  plain_path "posts.json" = true
  /\ Forall (fun p => exists b, path_exists (world_of [("data/posts.json", "[1]")]) p = Ok b)
         (candidate_paths "posts.json")
  /\ find (exists_in (world_of [("data/posts.json", "[1]")])) (candidate_paths "posts.json")
     = Some "data/posts.json"
  /\ read_json_file (world_of [("data/posts.json", "[1]")]) (JStr "posts.json")
     = (Ok (JDict [("success", JBool true); ("filename", JStr "data/posts.json");
                   ("data", JList [JInt 1]);
                   ("summary", JDict [("type", JStr "list"); ("keys", JNull);
                                      ("length", JInt 1); ("file_size", JInt 3)])]), []).
Proof.
  assert (Hall : Forall (fun p => exists b,
                             path_exists (world_of [("data/posts.json", "[1]")]) p = Ok b)
                        (candidate_paths "posts.json")).
  { apply Forall_forall. intros p _. eexists. reflexivity. }
  split; [reflexivity | split; [exact Hall | split; [reflexivity |]]].
  pose proof (read_json_file_resolution (world_of [("data/posts.json", "[1]")]) "posts.json"
                                        eq_refl Hall) as H.
  cbv beta iota delta [find candidate_paths map exists_in world_of path_exists path_join
                       starts_with String.eqb Ascii.eqb Bool.eqb existsb fst orb andb
                       String.append] in H.
  apply H. vm_compute. reflexivity.
Defined.

(** X7.  A file whose content is the JSON document [null] is reported by
    [read_json_file] as a file that failed to parse: [safe_json_loads]
    returns [None] both for a text that does not decode and for the
    decoded [null].  The path is one that [pathlib] leaves as written. *)
Theorem read_json_file_null (w : World) (path content : string) :
  plain_path path = true ->
  path_exists w path = Ok true ->
  read_text w path = Ok content ->
  json_loads w content = Ok JNull ->
  read_json_file w (JStr path)
  = (Ok (JDict [("error", JStr "Failed to parse JSON file"); ("filename", JStr path);
                ("content_preview", JStr (truncate 200 content))]), []).
Proof.
  intros _ Hthere Hread Hnull.
  unfold read_json_file, retry_on_error, read_json_file_body, read_found, safe_json_loads.
  cbn [py_path bind safe_json_loads_from]. rewrite Hthere. cbn [bind].
  rewrite Hread. cbn [bind]. rewrite Hnull. reflexivity.
Qed.

Lemma read_json_file_null_witness :
  plain_path "n.json" = true
  /\ path_exists (world_of [("n.json", "null")]) "n.json" = Ok true
  /\ read_text (world_of [("n.json", "null")]) "n.json" = Ok "null"
  /\ json_loads (world_of [("n.json", "null")]) "null" = Ok JNull
  /\ read_json_file (world_of [("n.json", "null")]) (JStr "n.json")
     = (Ok (JDict [("error", JStr "Failed to parse JSON file"); ("filename", JStr "n.json");
                   ("content_preview", JStr "null")]), []).
Proof.
  do 4 (split; [reflexivity |]).
  exact (read_json_file_null (world_of [("n.json", "null")]) "n.json" "null"
                             eq_refl eq_refl eq_refl eq_refl).
Defined.

(** ** [keyword_search] *)

Lemma take_length (n : nat) (s : string) : (String.length (take n s) <= n)%nat.
Proof.
  revert s. induction n as [| n IH]; intros s; [simpl; lia |].
  destruct s as [| c r]; simpl; [lia |]. specialize (IH r). lia.
Qed.

Lemma truncate_length (n : nat) (s : string) : (String.length (truncate n s) <= n)%nat.
Proof.
  unfold truncate, len. destruct (Z.of_nat n <? Z.of_nat (String.length s)) eqn:Hlt.
  - apply take_length.
  - apply Z.ltb_ge in Hlt. lia.
Qed.

Lemma keyword_search_typed (D : json) (K : list string) (case_sensitive : bool) :
  keyword_search D (JList (map JStr K)) (JBool case_sensitive)
  = Ok (JDict [("success", JBool true); ("keywords", JList (map JStr K));
               ("total_matches",
                JNat (List.length (flat_map (matches_at K case_sensitive) (sites D "root"))));
               ("matches", JList (flat_map (matches_at K case_sensitive) (sites D "root")))]).
Proof.
  unfold keyword_search. cbn [is_str truthy].
  rewrite search_recursive_sites. reflexivity.
Qed.

(** X8.  The [value] entry of every match that [keyword_search] reports
    is a text of at most 200 characters, whatever the size of the
    document: the matched string, or the rendering of the value under a
    matched key, cut after 200 characters. *)
Theorem keyword_search_previews_bounded (D : json) (K : list string) (case_sensitive : bool) :
  exists matches,
    keyword_search D (JList (map JStr K)) (JBool case_sensitive)
    = Ok (JDict [("success", JBool true); ("keywords", JList (map JStr K));
                 ("total_matches", JNat (List.length matches));
                 ("matches", JList matches)])
    /\ Forall (fun r => exists s, field_of r "value" = Some (JStr s)
                                  /\ (String.length s <= 200)%nat) matches.
Proof.
  eexists. split; [apply keyword_search_typed |].
  apply Forall_forall. intros r Hr.
  apply in_flat_map in Hr. destruct Hr as (st & _ & Hr).
  unfold matches_at in Hr. apply in_flat_map in Hr. destruct Hr as (k & _ & Hr).
  destruct (contains _ _); [| contradiction].
  destruct Hr as [<- | []].
  destruct st as [p key v | p key v | p t]; cbn [site_record];
    eexists; (split; [reflexivity | apply truncate_length]).
Qed.




(** ** [filter_json] with a comparison operator *)

Lemma filter_recursive_decided (filters : json) (p : json -> bool) (obj : json) :
  (forall node, In node (mapping_subtrees obj) -> check_filters filters node = Ok (p node)) ->
  filter_recursive filters obj = Ok (filter p (mapping_subtrees obj)).
Proof.
  induction obj as [| | | | | l IH | d IH] using json_ind; intros Hcheck; try reflexivity.
  - cbn [filter_recursive mapping_subtrees]. rewrite filter_flat_map.
    apply for_each_flat_map. apply Forall_forall. intros x Hx.
    rewrite Forall_forall in IH. apply (IH x Hx). intros node Hnode.
    apply Hcheck. cbn [mapping_subtrees]. apply in_flat_map. exists x. split; assumption.
  - cbn [filter_recursive]. rewrite (Hcheck (JDict d)) by (left; reflexivity). cbn [bind].
    rewrite (for_each_flat_map _ (fun kv => filter p (mapping_subtrees (snd kv)))).
    + cbn [bind mapping_subtrees filter].
      assert (Hbelow : flat_map (fun kv => filter p (mapping_subtrees (snd kv))) d
                       = filter p (flat_map (fun '(_, value) => mapping_subtrees value) d)).
      { rewrite filter_flat_map. apply flat_map_eq, Forall_forall.
        intros [k v] _. reflexivity. }
      rewrite Hbelow. destruct (p (JDict d)); reflexivity.
    + apply Forall_forall. intros [k v] Hkv. rewrite Forall_forall in IH.
      apply (IH (k, v) Hkv). intros node Hnode.
      apply Hcheck. right. apply in_flat_map. exists (k, v). split; assumption.
Qed.

Lemma mapping_subtrees_dict (D node : json) :
  In node (mapping_subtrees D) -> exists o, node = JDict o.
Proof.
  induction D as [| | | | | l IH | d IH] using json_ind; cbn [mapping_subtrees];
    try contradiction.
  - intros H. apply in_flat_map in H. destruct H as (x & Hx & H).
    rewrite Forall_forall in IH. exact (IH x Hx H).
  - intros [<- | H]; [eauto |].
    apply in_flat_map in H. destruct H as ([k' v'] & Hx & H).
    rewrite Forall_forall in IH. exact (IH (k', v') Hx H).
Qed.

Lemma int_compare_holds (op : cmp_op) (z n : Z) :
  op_holds op (Some (z ?= n)) = int_compare op z n.
Proof.
  unfold int_compare, Z.ltb, Z.leb. rewrite (Z.compare_antisym z n).
  destruct op, (z ?= n); reflexivity.
Qed.

Lemma check_comparison (k operator : string) (op : cmp_op) (n : Z) (o : list (string * json))
      (v : json) :
  In (operator, op) comparison_operators ->
  dict_get o k = Some v ->
  check_filters (comparison_filter k operator n) (JDict o) = py_cmp op v (JInt n).
Proof.
  intros Hop Hv. unfold comparison_filter.
  cbn [check_filters py_items bind check_items]. rewrite Hv.
  destruct Hop as [E | [E | [E | [E | []]]]]; inversion E; subst;
    cbv [check_operators check_op dict_get String.eqb Ascii.eqb Bool.eqb];
    destruct (py_cmp _ v (JInt n)) as [[|] | e]; reflexivity.
Qed.

(** X10.  A filter [{k: {operator: n}}] with one of the operators [$gt],
    [$lt], [$gte], [$lte] and an integer [n], on a document in which
    every mapping that has the key [k] binds it to an integer: the
    results of [filter_json] are exactly the mappings, at any depth and
    in document order, whose value for [k] compares as asked with [n];
    mappings without the key are left out. *)
Theorem filter_json_comparison (D : json) (k operator : string) (op : cmp_op) (n : Z) :
  In (operator, op) comparison_operators ->
  (forall node v, In node (mapping_subtrees D) -> field_of node k = Some v ->
                  exists z, v = JInt z) ->
  filter_json D (comparison_filter k operator n)
  = Ok (JDict [("success", JBool true);
               ("filters_applied", comparison_filter k operator n);
               ("matches_found",
                JNat (List.length (filter (int_satisfies k op n) (mapping_subtrees D))));
               ("results", JList (filter (int_satisfies k op n) (mapping_subtrees D)))]).
Proof.
  intros Hop Hint. unfold filter_json.
  rewrite (filter_recursive_decided _ (int_satisfies k op n)); [reflexivity |].
  intros node Hnode.
  destruct (mapping_subtrees_dict D node Hnode) as (o & ->).
  unfold int_satisfies. cbn [field_of].
  destruct (dict_get o k) as [v |] eqn:Hv.
  - rewrite (check_comparison k operator op n o v Hop Hv).
    destruct (Hint (JDict o) v Hnode Hv) as (z & ->).
    cbn [py_cmp as_num num_compare]. rewrite int_compare_holds. reflexivity.
  - unfold comparison_filter. cbn [check_filters py_items bind check_items].
    rewrite Hv. reflexivity.
Qed.

(** The posts with more than 15 views. *)
Lemma filter_json_comparison_witness :
  In ("$gt", OpGt) comparison_operators
  /\ (forall node v, In node (mapping_subtrees two_posts) -> field_of node "views" = Some v ->
                     exists z, v = JInt z)
  /\ filter_json two_posts (comparison_filter "views" "$gt" 15)
     = Ok (JDict [("success", JBool true);
                  ("filters_applied", comparison_filter "views" "$gt" 15);
                  ("matches_found", JInt 1);
                  ("results", JList [JDict [("views", JInt 20)]])]).
Proof.
  assert (Hop : In ("$gt", OpGt) comparison_operators) by (left; reflexivity).
  assert (Hint : forall node v, In node (mapping_subtrees two_posts) ->
                                field_of node "views" = Some v -> exists z, v = JInt z).
  { intros node v Hnode Hv. cbn in Hnode.
    destruct Hnode as [<- | [<- | [<- | []]]]; cbn in Hv; inversion Hv; eauto. }
  split; [exact Hop | split; [exact Hint |]].
  exact (filter_json_comparison two_posts "views" "$gt" OpGt 15 Hop Hint).
Defined.

Lemma for_each_uniform {A B : Type} (body : A -> py (list B)) (e0 : exn) (l : list A) :
  Forall (fun x => (exists r, body x = Ok r) \/ body x = Raise e0) l ->
  (exists r, for_each body l = Ok r) \/ for_each body l = Raise e0.
Proof.
  induction 1 as [| x r [(y & Hx) | Hx] _ IH]; cbn [for_each].
  - left. eauto.
  - rewrite Hx. cbn [bind]. destruct IH as [(zs & ->) | ->]; cbn [bind]; [left; eauto | right].
    reflexivity.
  - rewrite Hx. right. reflexivity.
Qed.

Lemma for_each_raises {A B : Type} (body : A -> py (list B)) (e0 : exn) (l : list A) :
  Forall (fun x => (exists r, body x = Ok r) \/ body x = Raise e0) l ->
  Exists (fun x => body x = Raise e0) l ->
  for_each body l = Raise e0.
Proof.
  induction 1 as [| x r [(y & Hx) | Hx] Hall IH]; intros Hex; cbn [for_each].
  - inversion Hex.
  - rewrite Hx. cbn [bind]. inversion Hex as [? ? Hhere | ? ? Hlater]; subst.
    + rewrite Hx in Hhere. discriminate Hhere.
    + rewrite (IH Hlater). reflexivity.
  - rewrite Hx. reflexivity.
Qed.

Lemma filter_recursive_uniform (filters : json) (e0 : exn) (obj : json) :
  (forall node, In node (mapping_subtrees obj) ->
                (exists b, check_filters filters node = Ok b)
                \/ check_filters filters node = Raise e0) ->
  ((exists r, filter_recursive filters obj = Ok r) \/ filter_recursive filters obj = Raise e0)
  /\ ((exists node, In node (mapping_subtrees obj) /\ check_filters filters node = Raise e0) ->
      filter_recursive filters obj = Raise e0).
Proof.
  induction obj as [| | | | | l IH | d IH] using json_ind; intros Hcheck;
    try (split; [left; eexists; reflexivity | intros (node & [] & _)]).
  - assert (Hall : Forall (fun x => (exists r, filter_recursive filters x = Ok r)
                                    \/ filter_recursive filters x = Raise e0) l).
    { apply Forall_forall. intros x Hx. rewrite Forall_forall in IH.
      apply (IH x Hx). intros node Hnode. apply Hcheck.
      cbn [mapping_subtrees]. apply in_flat_map. exists x. split; assumption. }
    cbn [filter_recursive]. split; [apply for_each_uniform; exact Hall |].
    intros (node & Hnode & Hraise). apply for_each_raises; [exact Hall |].
    cbn [mapping_subtrees] in Hnode. apply in_flat_map in Hnode.
    destruct Hnode as (x & Hx & Hnode). apply Exists_exists. exists x. split; [exact Hx |].
    rewrite Forall_forall in IH. apply (IH x Hx).
    + intros node' Hnode'. apply Hcheck. cbn [mapping_subtrees]. apply in_flat_map.
      exists x. split; assumption.
    + exists node. split; assumption.
  - assert (Hall : Forall (fun kv : string * json =>
                             (exists r, (let '(_, value) := kv in
                                         filter_recursive filters value) = Ok r)
                             \/ (let '(_, value) := kv in filter_recursive filters value)
                                = Raise e0) d).
    { apply Forall_forall. intros [k v] Hkv. rewrite Forall_forall in IH.
      apply (IH (k, v) Hkv). intros node Hnode. apply Hcheck.
      right. apply in_flat_map. exists (k, v). split; assumption. }
    cbn [filter_recursive].
    destruct (Hcheck (JDict d) (or_introl eq_refl)) as [(b & Hb) | Hb]; rewrite Hb; cbn [bind].
    + split.
      * destruct (for_each_uniform _ e0 d Hall) as [(r & ->) | ->]; cbn [bind];
          [left; eauto | right; reflexivity].
      * intros (node & [<- | Hnode] & Hraise); [rewrite Hb in Hraise; discriminate Hraise |].
        rewrite (for_each_raises _ e0 d Hall); [reflexivity |].
        apply in_flat_map in Hnode. destruct Hnode as ([k v] & Hkv & Hnode).
        apply Exists_exists. exists (k, v). split; [exact Hkv |].
        rewrite Forall_forall in IH. apply (IH (k, v) Hkv).
        -- intros node' Hnode'. apply Hcheck. right. apply in_flat_map.
           exists (k, v). split; assumption.
        -- exists node. split; assumption.
    + split; [right; reflexivity | intros _; reflexivity].
Qed.

(** X11.  One value that cannot be compared makes the whole query fail.
    With a filter [{k: {operator: n}}] as above, on a document whose
    mappings bind [k] to integers or to strings: as soon as one mapping,
    at any depth, binds [k] to a string, [filter_json] returns no result
    at all but the error mapping with the [TypeError] of the comparison
    of a [str] with an [int]. *)
Theorem filter_json_comparison_fails (D : json) (k operator : string) (op : cmp_op) (n : Z)
        (node : json) (s : string) :
  In (operator, op) comparison_operators ->
  (forall node v, In node (mapping_subtrees D) -> field_of node k = Some v ->
                  (exists z, v = JInt z) \/ (exists t, v = JStr t)) ->
  In node (mapping_subtrees D) ->
  field_of node k = Some (JStr s) ->
  filter_json D (comparison_filter k operator n)
  = Ok (error_dict ("'" +++ op_symbol op
                    +++ "' not supported between instances of 'str' and 'int'")).
Proof.
  intros Hop Hvalues Hnode Hs. unfold filter_json.
  pose (e0 := mk_exn TypeError ("'" +++ op_symbol op
                                +++ "' not supported between instances of 'str' and 'int'")).
  destruct (filter_recursive_uniform (comparison_filter k operator n) e0 D) as (_ & Hraise).
  - intros node' Hnode'. destruct (mapping_subtrees_dict D node' Hnode') as (o & ->).
    destruct (dict_get o k) as [v |] eqn:Hv.
    + rewrite (check_comparison k operator op n o v Hop Hv).
      destruct (Hvalues (JDict o) v Hnode' Hv) as [(z & ->) | (t & ->)].
      * left. eexists. reflexivity.
      * right. reflexivity.
    + left. unfold comparison_filter. cbn [check_filters py_items bind check_items].
      rewrite Hv. eauto.
  - rewrite Hraise; [reflexivity |]. exists node. split; [exact Hnode |].
    destruct (mapping_subtrees_dict D node Hnode) as (o & ->). cbn [field_of] in Hs.
    rewrite (check_comparison k operator op n o _ Hop Hs). reflexivity.
Qed.

(** The second post gives its views as a text. *)
Lemma filter_json_comparison_fails_witness :
  In ("$gt", OpGt) comparison_operators
  /\ In (JDict [("views", JStr "20")])
        (mapping_subtrees (JList [JDict [("views", JInt 10)]; JDict [("views", JStr "20")]]))
  /\ filter_json (JList [JDict [("views", JInt 10)]; JDict [("views", JStr "20")]])
                 (comparison_filter "views" "$gt" 5)
     = Ok (error_dict "'>' not supported between instances of 'str' and 'int'").
Proof.
  assert (Hop : In ("$gt", OpGt) comparison_operators) by (left; reflexivity).
  split; [exact Hop | split; [right; left; reflexivity |]].
  apply (filter_json_comparison_fails _ "views" "$gt" OpGt 5 (JDict [("views", JStr "20")]) "20"
                                      Hop).
  - intros node v Hnode Hv. cbn in Hnode.
    destruct Hnode as [<- | [<- | []]]; cbn in Hv; inversion Hv; eauto.
  - right. left. reflexivity.
  - reflexivity.
Defined.

(** ** [aggregate_data] *)

Lemma counter_add_total (c : list (json * Z)) (v : json) :
  total_count (counter_add c v) = total_count c + 1.
Proof.
  unfold total_count.
  induction c as [| [k n] r IH]; cbn [counter_add fold_right snd]; [lia |].
  destruct (elem_eq k v); cbn [fold_right snd]; lia.
Qed.

Lemma counter_add_positive (c : list (json * Z)) (v : json) :
  Forall (fun kn => 1 <= snd kn) c -> Forall (fun kn => 1 <= snd kn) (counter_add c v).
Proof.
  induction 1 as [| [k n] r Hn Hr IH]; cbn [counter_add].
  - constructor; [simpl; lia | constructor].
  - cbn [snd] in Hn. destruct (elem_eq k v); constructor; cbn [snd]; try lia; assumption.
Qed.

Lemma Counter_total (values : list json) (acc counts : list (json * Z)) :
  Counter acc values = Ok counts ->
  Forall (fun kn => 1 <= snd kn) acc ->
  total_count counts = total_count acc + Z.of_nat (List.length values)
  /\ Forall (fun kn => 1 <= snd kn) counts.
Proof.
  revert acc. induction values as [| v r IH]; intros acc H Hacc.
  - inversion H; subst. simpl. split; [lia | exact Hacc].
  - cbn [Counter] in H.
    assert (Hrest : Counter (counter_add acc v) r = Ok counts)
      by (destruct v; try exact H; discriminate H).
    destruct (IH _ Hrest (counter_add_positive acc v Hacc)) as (Htotal & Hpos).
    rewrite counter_add_total in Htotal. cbn [List.length]. split; [lia | exact Hpos].
Qed.

(** X12.  A count that succeeds adds up: [result] and [total_values] are
    both the number of values bound to the field, every count in
    [value_counts] is at least 1, and the counts sum to [result]. *)
Theorem aggregate_data_count_adds_up (D field : json) (d : list (string * json)) :
  aggregate_data D field (JStr "count") = Ok (JDict d) ->
  dict_has d "error" = false ->
  exists counts,
    d = aggregate_header D field (JStr "count")
        ++ [("result", JNat (List.length (extract_values field D)));
            ("value_counts", items_json counts)]
    /\ total_count counts = Z.of_nat (List.length (extract_values field D))
    /\ Forall (fun kn => 1 <= snd kn) counts.
Proof.
  intros H Hno. unfold aggregate_data in H. cbn [py_eq String.eqb Ascii.eqb Bool.eqb] in H.
  destruct (Counter [] (extract_values field D)) as [counts | e] eqn:Hc;
    cbn [bind try_except] in H; inversion H; subst; [| discriminate Hno].
  exists counts. split; [reflexivity |].
  destruct (Counter_total _ _ _ Hc (Forall_nil _)) as (Htotal & Hpos).
  split; [exact Htotal | exact Hpos].
Qed.

Lemma aggregate_data_count_adds_up_witness :
  aggregate_data (JList [JDict [("tag", JStr "a")]; JDict [("tag", JStr "b")];
                         JDict [("tag", JStr "a")]])
                 (JStr "tag") (JStr "count")
  = Ok (JDict [("success", JBool true); ("field", JStr "tag"); ("operation", JStr "count");
               ("total_values", JInt 3); ("result", JInt 3);
               ("value_counts", JList [JList [JStr "a"; JInt 2]; JList [JStr "b"; JInt 1]])])
  /\ exists counts,
      [("success", JBool true); ("field", JStr "tag"); ("operation", JStr "count");
       ("total_values", JInt 3); ("result", JInt 3);
       ("value_counts", JList [JList [JStr "a"; JInt 2]; JList [JStr "b"; JInt 1]])]
      = aggregate_header (JList [JDict [("tag", JStr "a")]; JDict [("tag", JStr "b")];
                                 JDict [("tag", JStr "a")]]) (JStr "tag") (JStr "count")
        ++ [("result", JNat (List.length
                               (extract_values (JStr "tag")
                                  (JList [JDict [("tag", JStr "a")]; JDict [("tag", JStr "b")];
                                          JDict [("tag", JStr "a")]]))));
            ("value_counts", items_json counts)]
      /\ total_count counts
         = Z.of_nat (List.length
                       (extract_values (JStr "tag")
                          (JList [JDict [("tag", JStr "a")]; JDict [("tag", JStr "b")];
                                  JDict [("tag", JStr "a")]])))
      /\ Forall (fun kn => 1 <= snd kn) counts.
Proof.
  split; [reflexivity |].
  apply (aggregate_data_count_adds_up
           (JList [JDict [("tag", JStr "a")]; JDict [("tag", JStr "b")];
                   JDict [("tag", JStr "a")]]) (JStr "tag")); reflexivity.
Defined.

Lemma numeric_ints (values : list json) :
  Forall (fun v => is_numeric v = true -> exists z, v = JInt z) values ->
  filter is_numeric values = map JInt (int_values values).
Proof.
  induction 1 as [| v r Hv _ IH]; [reflexivity |].
  cbn [filter int_values flat_map]. fold (int_values r).
  destruct (is_numeric v) eqn:Hnum.
  - destruct (Hv eq_refl) as (z & ->). cbn [app map]. rewrite IH. reflexivity.
  - destruct v; try discriminate Hnum; exact IH.
Qed.

Lemma py_min_ints (z0 : Z) (zs : list Z) :
  py_min (JInt z0) (map JInt zs) = JInt (fold_left Z.min zs z0).
Proof.
  unfold py_min. revert z0. induction zs as [| z r IH]; intros z0; [reflexivity |].
  cbn [map fold_left]. unfold num_lt at 2. cbn [as_num num_compare op_holds].
  destruct (z ?= z0) eqn:Hcmp.
  - rewrite IH. f_equal. f_equal. apply Z.compare_eq in Hcmp. lia.
  - rewrite IH. f_equal. f_equal. rewrite Z.compare_lt_iff in Hcmp. lia.
  - rewrite IH. f_equal. f_equal. rewrite Z.compare_gt_iff in Hcmp. lia.
Qed.

Lemma py_max_ints (z0 : Z) (zs : list Z) :
  py_max (JInt z0) (map JInt zs) = JInt (fold_left Z.max zs z0).
Proof.
  unfold py_max. revert z0. induction zs as [| z r IH]; intros z0; [reflexivity |].
  cbn [map fold_left]. unfold num_lt at 2. cbn [as_num num_compare op_holds].
  destruct (z0 ?= z) eqn:Hcmp.
  - rewrite IH. f_equal. f_equal. apply Z.compare_eq in Hcmp. lia.
  - rewrite IH. f_equal. f_equal. rewrite Z.compare_lt_iff in Hcmp. lia.
  - rewrite IH. f_equal. f_equal. rewrite Z.compare_gt_iff in Hcmp. lia.
Qed.

Lemma fold_min_least (zs : list Z) (z0 : Z) :
  In (fold_left Z.min zs z0) (z0 :: zs)
  /\ Forall (fun z => fold_left Z.min zs z0 <= z) (z0 :: zs).
Proof.
  revert z0. induction zs as [| z r IH]; intros z0.
  - simpl. split; [left; reflexivity | constructor; [lia | constructor]].
  - cbn [fold_left]. destruct (IH (Z.min z0 z)) as (Hin & Hall).
    inversion Hall as [| ? ? Hhead Htail]; subst. split.
    + destruct Hin as [Hin | Hin]; [| right; right; exact Hin].
      rewrite <- Hin.
      destruct (Z.min_spec z0 z) as [[_ E] | [_ E]]; rewrite E;
        [left | right; left]; reflexivity.
    + constructor; [lia | constructor; [lia | exact Htail]].
Qed.

Lemma fold_max_greatest (zs : list Z) (z0 : Z) :
  In (fold_left Z.max zs z0) (z0 :: zs)
  /\ Forall (fun z => z <= fold_left Z.max zs z0) (z0 :: zs).
Proof.
  revert z0. induction zs as [| z r IH]; intros z0.
  - simpl. split; [left; reflexivity | constructor; [lia | constructor]].
  - cbn [fold_left]. destruct (IH (Z.max z0 z)) as (Hin & Hall).
    inversion Hall as [| ? ? Hhead Htail]; subst. split.
    + destruct Hin as [Hin | Hin]; [| right; right; exact Hin].
      rewrite <- Hin.
      destruct (Z.max_spec z0 z) as [[_ E] | [_ E]]; rewrite E;
        [right; left | left]; reflexivity.
    + constructor; [lia | constructor; [lia | exact Htail]].
Qed.

(** X13.  When the numeric values bound to the field are integers and
    there is at least one, the operations [min] and [max] of
    [aggregate_data] return the least and the greatest of them, and
    [numeric_values_count] is their number; values that are not numeric
    are passed over. *)
Theorem aggregate_data_min_max (D field : json) :
  Forall (fun v => is_numeric v = true -> exists z, v = JInt z) (extract_values field D) ->
  int_values (extract_values field D) <> [] ->
  exists lo hi,
    In lo (int_values (extract_values field D))
    /\ In hi (int_values (extract_values field D))
    /\ Forall (fun z => lo <= z <= hi) (int_values (extract_values field D))
    /\ aggregate_data D field (JStr "min")
       = Ok (JDict (aggregate_header D field (JStr "min")
                    ++ [("result", JInt lo);
                        ("numeric_values_count",
                         JNat (List.length (int_values (extract_values field D))))]))
    /\ aggregate_data D field (JStr "max")
       = Ok (JDict (aggregate_header D field (JStr "max")
                    ++ [("result", JInt hi);
                        ("numeric_values_count",
                         JNat (List.length (int_values (extract_values field D))))])).
Proof.
  intros Hints Hsome. pose proof (numeric_ints _ Hints) as Hnum.
  destruct (int_values (extract_values field D)) as [| z0 zs] eqn:Hzs; [contradiction |].
  exists (fold_left Z.min zs z0), (fold_left Z.max zs z0).
  destruct (fold_min_least zs z0) as (Hin_lo & Hlo).
  destruct (fold_max_greatest zs z0) as (Hin_hi & Hhi).
  split; [exact Hin_lo | split; [exact Hin_hi | split]].
  - rewrite Forall_forall in *. intros z Hz. split; [apply Hlo | apply Hhi]; exact Hz.
  - unfold aggregate_data. cbn [py_eq String.eqb Ascii.eqb Bool.eqb existsb elem_eq is_nan
                                andb orb]. rewrite Hnum. cbn [map List.length].
    rewrite py_min_ints, py_max_ints, length_map. split; reflexivity.
Qed.

Lemma aggregate_data_min_max_witness :
  Forall (fun v => is_numeric v = true -> exists z, v = JInt z)
         (extract_values (JStr "views") two_posts)
  /\ int_values (extract_values (JStr "views") two_posts) <> []
  /\ aggregate_data two_posts (JStr "views") (JStr "min")
     = Ok (JDict [("success", JBool true); ("field", JStr "views"); ("operation", JStr "min");
                  ("total_values", JInt 2); ("result", JInt 10);
                  ("numeric_values_count", JInt 2)])
  /\ exists lo hi,
      In lo (int_values (extract_values (JStr "views") two_posts))
      /\ In hi (int_values (extract_values (JStr "views") two_posts))
      /\ Forall (fun z => lo <= z <= hi) (int_values (extract_values (JStr "views") two_posts))
      /\ aggregate_data two_posts (JStr "views") (JStr "min")
         = Ok (JDict (aggregate_header two_posts (JStr "views") (JStr "min")
                      ++ [("result", JInt lo);
                          ("numeric_values_count",
                           JNat (List.length
                                   (int_values (extract_values (JStr "views") two_posts))))]))
      /\ aggregate_data two_posts (JStr "views") (JStr "max")
         = Ok (JDict (aggregate_header two_posts (JStr "views") (JStr "max")
                      ++ [("result", JInt hi);
                          ("numeric_values_count",
                           JNat (List.length
                                   (int_values (extract_values (JStr "views") two_posts))))])).
Proof.
  assert (Hints : Forall (fun v => is_numeric v = true -> exists z, v = JInt z)
                         (extract_values (JStr "views") two_posts)).
  { repeat constructor; intros _; eauto. }
  assert (Hsome : int_values (extract_values (JStr "views") two_posts) <> [])
    by discriminate.
  split; [exact Hints | split; [exact Hsome | split; [reflexivity |]]].
  exact (aggregate_data_min_max two_posts (JStr "views") Hints Hsome).
Defined.

(** X14.  A field that is bound nowhere in the document: the operation
    [count] succeeds with the result 0 and no value counts, while [sum],
    [avg], [min] and [max] return the error [No numeric values found
    for field '<field>'].  The operations are told apart before the
    data is looked at: any other operation returns [Unknown operation:
    <operation>], whatever the document. *)
Theorem aggregate_data_absent_field (D field : json) :
  (extract_values field D = [] ->
   aggregate_data D field (JStr "count")
   = Ok (JDict [("success", JBool true); ("field", field); ("operation", JStr "count");
                ("total_values", JInt 0); ("result", JInt 0); ("value_counts", JList [])])
   /\ forall op, In op ["sum"; "avg"; "min"; "max"] ->
                 aggregate_data D field (JStr op)
                 = Ok (error_dict ("No numeric values found for field '"
                                   +++ py_str field +++ "'")))
  /\ (forall operation,
         Forall (fun op => py_eq operation (JStr op) = false)
                ["count"; "sum"; "avg"; "min"; "max"] ->
         aggregate_data D field operation
         = Ok (error_dict ("Unknown operation: " +++ py_str operation))).
Proof.
  split.
  - intros Hnone. unfold aggregate_data. rewrite Hnone. split; [reflexivity |].
    intros op [<- | [<- | [<- | [<- | []]]]]; reflexivity.
  - intros operation Hop. unfold aggregate_data.
    inversion Hop as [| ? ? Hcount H1]; subst. inversion H1 as [| ? ? Hsum H2]; subst.
    inversion H2 as [| ? ? Havg H3]; subst. inversion H3 as [| ? ? Hmin H4]; subst.
    inversion H4 as [| ? ? Hmax _]; subst.
    rewrite Hcount. cbn [existsb]. rewrite !elem_eq_str, Hsum, Havg, Hmin, Hmax. reflexivity.
Qed.

Lemma aggregate_data_absent_field_witness :
  extract_values (JStr "likes") two_posts = []
  /\ Forall (fun op => py_eq (JStr "median") (JStr op) = false)
            ["count"; "sum"; "avg"; "min"; "max"]
  /\ aggregate_data two_posts (JStr "likes") (JStr "sum")
     = Ok (error_dict "No numeric values found for field 'likes'")
  /\ aggregate_data two_posts (JStr "likes") (JStr "median")
     = Ok (error_dict "Unknown operation: median").
Proof.
  assert (Hop : Forall (fun op => py_eq (JStr "median") (JStr op) = false)
                       ["count"; "sum"; "avg"; "min"; "max"])
    by (repeat constructor).
  split; [reflexivity | split; [exact Hop |]].
  destruct (aggregate_data_absent_field two_posts (JStr "likes")) as (Habsent & Hunknown).
  split.
  - destruct (Habsent eq_refl) as (_ & Hsum). apply (Hsum "sum"). left. reflexivity.
  - exact (Hunknown (JStr "median") Hop).
Defined.

Lemma sum_from_ints (zs : list Z) (acc : Z) :
  sum_from (NZ acc) (map JInt zs) = Ok (NZ (acc + fold_right Z.add 0 zs)).
Proof.
  revert acc. induction zs as [| z r IH]; intros acc; cbn [map sum_from fold_right].
  - rewrite Z.add_0_r. reflexivity.
  - cbn [as_num num_add bind]. rewrite IH. rewrite Z.add_assoc. reflexivity.
Qed.

(** X30.  When the numeric values bound to the field are integers and
    there is at least one, the operation [avg] of [aggregate_data]
    returns, as a float, the exact sum of these integers divided by
    their number and rounded once to the nearest float, provided this
    quotient is in the range of the floats. *)
Theorem aggregate_data_avg (D field : json) :
  Forall (fun v => is_numeric v = true -> exists z, v = JInt z) (extract_values field D) ->
  int_values (extract_values field D) <> [] ->
  is_finite (float_of_ratio (fold_right Z.add 0 (int_values (extract_values field D)))
                            (Z.of_nat (List.length (int_values (extract_values field D)))))
  = true ->
  aggregate_data D field (JStr "avg")
  = Ok (JDict (aggregate_header D field (JStr "avg")
               ++ [("result",
                    JFloat (float_of_ratio
                              (fold_right Z.add 0 (int_values (extract_values field D)))
                              (Z.of_nat (List.length (int_values (extract_values field D))))));
                   ("numeric_values_count",
                    JNat (List.length (int_values (extract_values field D))))])).
Proof.
  intros Hints Hsome Hfinite. pose proof (numeric_ints _ Hints) as Hnum.
  unfold aggregate_data.
  cbn [py_eq String.eqb Ascii.eqb Bool.eqb existsb elem_eq is_nan andb orb].
  rewrite Hnum.
  destruct (int_values (extract_values field D)) as [| z0 zs] eqn:Hzs; [contradiction |].
  cbn [map]. change (JInt z0 :: map JInt zs) with (map JInt (z0 :: zs)).
  unfold py_sum. rewrite sum_from_ints, Z.add_0_l, length_map. cbn [bind].
  unfold num_truediv.
  replace (Z.of_nat (List.length (z0 :: zs)) =? 0) with false
    by (symmetry; apply Z.eqb_neq; cbn [List.length]; lia).
  replace (0 <? Z.of_nat (List.length (z0 :: zs))) with true
    by (symmetry; apply Z.ltb_lt; cbn [List.length]; lia).
  rewrite Hfinite. reflexivity.
Qed.

(** The average of 10 and 20 views. *)
Lemma aggregate_data_avg_witness :
  Forall (fun v => is_numeric v = true -> exists z, v = JInt z)
         (extract_values (JStr "views") two_posts)
  /\ int_values (extract_values (JStr "views") two_posts) <> []
  /\ is_finite (float_of_ratio 30 2) = true
  /\ aggregate_data two_posts (JStr "views") (JStr "avg")
     = Ok (JDict [("success", JBool true); ("field", JStr "views"); ("operation", JStr "avg");
                  ("total_values", JInt 2); ("result", JFloat (float_of_ratio 30 2));
                  ("numeric_values_count", JInt 2)]).
Proof.
  assert (Hints : Forall (fun v => is_numeric v = true -> exists z, v = JInt z)
                         (extract_values (JStr "views") two_posts)).
  { repeat constructor; intros _; eauto. }
  assert (Hsome : int_values (extract_values (JStr "views") two_posts) <> [])
    by discriminate.
  split; [exact Hints | split; [exact Hsome | split; [vm_compute; reflexivity |]]].
  apply (aggregate_data_avg two_posts (JStr "views") Hints Hsome). vm_compute. reflexivity.
Defined.

(** ** [extract_hashtags] *)















Lemma insert_by_count_perm (x : string * Z) (l : list (string * Z)) :
  Permutation (insert_by_count x l) (x :: l).
Proof.
  induction l as [| y r IH]; cbn [insert_by_count]; [apply Permutation_refl |].
  destruct (snd y <? snd x); [apply Permutation_refl |].
  apply Permutation_trans with (l' := y :: x :: r); [| apply perm_swap].
  apply perm_skip. exact IH.
Qed.

Lemma insert_by_count_sorted (x : string * Z) (l : list (string * Z)) :
  StronglySorted count_not_below l -> StronglySorted count_not_below (insert_by_count x l).
Proof.
  induction 1 as [| y r Hr IH Hy]; cbn [insert_by_count].
  - constructor; constructor.
  - destruct (snd y <? snd x) eqn:Hlt.
    + apply Z.ltb_lt in Hlt. constructor; [constructor; assumption |].
      constructor; [unfold count_not_below; lia |].
      eapply Forall_impl; [| exact Hy]. unfold count_not_below. intros z Hz. lia.
    + apply Z.ltb_ge in Hlt. constructor; [exact IH |].
      apply (Permutation_Forall (Permutation_sym (insert_by_count_perm x r))).
      constructor; [unfold count_not_below; lia | exact Hy].
Qed.

Lemma by_count_sorted (c acc : list (string * Z)) :
  StronglySorted count_not_below acc ->
  StronglySorted count_not_below (fold_left (fun acc x => insert_by_count x acc) c acc)
  /\ Permutation (fold_left (fun acc x => insert_by_count x acc) c acc) (c ++ acc).
Proof.
  revert acc. induction c as [| x r IH]; intros acc Hacc; cbn [fold_left app].
  - split; [exact Hacc | apply Permutation_refl].
  - destruct (IH _ (insert_by_count_sorted x acc Hacc)) as (Hsorted & Hperm).
    split; [exact Hsorted |].
    apply Permutation_trans with (l' := r ++ insert_by_count x acc); [exact Hperm |].
    apply Permutation_trans with (l' := r ++ x :: acc).
    + apply Permutation_app_head, insert_by_count_perm.
    + apply Permutation_sym, Permutation_middle.
Qed.

(** X16.  [top_10] of [extract_hashtags] holds the most frequent tags:
    it has 10 entries, or all of them when there are fewer; its entries
    are entries of [all_hashtags], in decreasing order of their count,
    and no tag left out is counted more often than a tag of [top_10]. *)
Theorem extract_hashtags_top_10 (D : json) :
  exists counts top rest,
    extract_hashtags D
    = Ok (JDict [("success", JBool true);
                 ("total_hashtags", JNat (List.length (find_hashtags D)));
                 ("unique_hashtags", JNat (List.length counts));
                 ("top_10", tag_pairs top);
                 ("all_hashtags", tag_dict counts)])
    /\ List.length top = Nat.min 10 (List.length counts)
    /\ Permutation (top ++ rest) counts
    /\ StronglySorted count_not_below top
    /\ (forall a b, In a top -> In b rest -> snd b <= snd a).
Proof.
  pose (counts := fold_left count_tag (find_hashtags D) []).
  pose (sorted := fold_left (fun acc x => insert_by_count x acc) counts []).
  destruct (by_count_sorted counts [] (SSorted_nil _)) as (Hsorted & Hperm).
  fold sorted in Hsorted, Hperm. rewrite app_nil_r in Hperm.
  exists counts, (firstn 10 sorted), (skipn 10 sorted).
  rewrite (firstn_skipn 10 sorted).
  rewrite <- (firstn_skipn 10 sorted) in Hsorted.
  split; [reflexivity | split; [| split; [exact Hperm | split]]].
  - rewrite length_firstn, (Permutation_length Hperm). reflexivity.
  - clear Hperm. induction (firstn 10 sorted) as [| a r IH]; [constructor |].
    cbn [app] in Hsorted. inversion Hsorted as [| ? ? Hr Ha]; subst.
    constructor; [exact (IH Hr) |].
    apply Forall_app in Ha. exact (proj1 Ha).
  - clear Hperm. induction (firstn 10 sorted) as [| a r IH]; [intros ? ? [] |].
    cbn [app] in Hsorted. inversion Hsorted as [| ? ? Hr Ha]; subst.
    intros a' b [<- | Ha'] Hb.
    + apply Forall_app in Ha. destruct Ha as (_ & Hrest).
      rewrite Forall_forall in Hrest. exact (Hrest b Hb).
    + exact (IH Hr a' b Ha' Hb).
Qed.

(** ** [compare_files] *)

Lemma py_eq_lists (l m : list json) :
  Forall2 (fun x y => py_eq x y = true) l m -> py_eq (JList l) (JList m) = true.
Proof.
  induction 1 as [| x y l' m' Hxy _ IH]; [reflexivity |].
  cbn [py_eq] in *. rewrite Hxy, orb_true_r. exact IH.
Qed.

Lemma py_eq_dicts (d e : list (string * json)) :
  List.length d = List.length e ->
  Forall (fun kv => exists w, dict_get e (fst kv) = Some w /\ py_eq (snd kv) w = true) d ->
  py_eq (JDict d) (JDict e) = true.
Proof.
  intros Hlen Hall. cbn [py_eq]. rewrite Hlen, Nat.eqb_refl. cbn [andb].
  clear Hlen. induction Hall as [| [k v] r (w & Hw & Hvw) _ IH]; [reflexivity |].
  cbn [fst snd] in Hw, Hvw. rewrite Hw, Hvw, orb_true_r. exact IH.
Qed.

Lemma flat_map_empty {A B : Type} (f : A -> list B) (l : list A) :
  flat_map f l = [] -> Forall (fun x => f x = []) l.
Proof.
  induction l as [| x r IH]; cbn [flat_map]; intros H; [constructor |].
  apply app_eq_nil in H. destruct H as (Hx & Hr). constructor; [exact Hx | exact (IH Hr)].
Qed.

Lemma flat_map_pairs_empty {A B C : Type} (f : nat -> A -> B -> list C)
      (l1 : list A) (l2 : list B) (idx : nat) :
  List.length l1 = List.length l2 ->
  flat_map_pairs f idx l1 l2 = [] ->
  Forall2 (fun x y => exists i, f i x y = []) l1 l2.
Proof.
  revert l2 idx. induction l1 as [| x r1 IH]; intros [| y r2] idx Hlen H;
    try discriminate Hlen; [constructor |].
  cbn [flat_map_pairs] in H. apply app_eq_nil in H. destruct H as (Hxy & Hr).
  constructor; [eauto | apply (IH r2 (S idx)); [simpl in Hlen; lia | exact Hr]].
Qed.

Lemma dict_get_In (d : list (string * json)) (k : string) (v : json) :
  dict_get d k = Some v -> In (k, v) d.
Proof.
  induction d as [| [k' v'] r IH]; cbn [dict_get]; [discriminate |].
  destruct (String.eqb k' k) eqn:E.
  - apply String.eqb_eq in E. subst k'. intros H. inversion H. left. reflexivity.
  - intros H. right. exact (IH H).
Qed.

Lemma dict_has_key (d : list (string * json)) (k : string) :
  dict_has d k = true -> In k (map fst d).
Proof.
  unfold dict_has. destruct (dict_get d k) as [v |] eqn:Hv; [| discriminate].
  intros _. apply in_map_iff. exists (k, v). split; [reflexivity | exact (dict_get_In d k v Hv)].
Qed.

Lemma unique_keys_NoDup (d : list (string * json)) :
  unique_keys d = true -> NoDup (map fst d).
Proof.
  induction d as [| [k v] r IH]; cbn [unique_keys map fst]; [constructor |].
  intros H. apply andb_true_iff in H. destruct H as (Hfresh & Hr).
  constructor; [| exact (IH Hr)].
  intros Hin. apply in_map_iff in Hin. destruct Hin as ([k' v'] & E & Hin).
  cbn [fst] in E. subst k'. rewrite (dict_has_In r k v' Hin) in Hfresh. discriminate Hfresh.
Qed.

Lemma same_type_shape (a b : json) :
  same_type a b = true ->
  match a, b with
  | JNull, JNull | JBool _, JBool _ | JInt _, JInt _ | JFloat _, JFloat _
  | JStr _, JStr _ | JList _, JList _ | JDict _, JDict _ => True
  | _, _ => False
  end.
Proof.
  unfold same_type. destruct a, b; cbn [type_name]; intros H;
    first [exact I | vm_compute in H; discriminate H].
Qed.

(** Two documents for which no difference is found are equal. *)
Lemma compare_recursive_sound (a : json) :
  forall b path,
    well_formed a = true -> well_formed b = true ->
    compare_recursive a b path = [] -> py_eq a b = true.
Proof.
  induction a as [| x | z | f | s | l IH | d IH] using json_ind; intros b path Hwa Hwb H;
    cbn [compare_recursive] in H;
    (destruct (same_type _ b) eqn:Hty; cbn [negb] in H; [| discriminate H]);
    apply same_type_shape in Hty; destruct b as [| y | z' | f' | s' | l' | d'];
    try contradiction;
    try (destruct (py_eq _ _); [reflexivity | discriminate H]).
  - apply app_eq_nil in H. destruct H as (Hlen & Hpairs).
    destruct (Nat.eqb (List.length l) (List.length l')) eqn:Hn; [| discriminate Hlen].
    apply Nat.eqb_eq in Hn. apply py_eq_lists.
    pose proof (flat_map_pairs_empty _ _ _ _ Hn Hpairs) as Hall.
    cbn [well_formed] in Hwa, Hwb. rewrite forallb_forall in Hwa, Hwb.
    clear Hpairs Hn Hlen. induction Hall as [| x y r r' (i & Hxy) _ IHall]; [constructor |].
    inversion IH as [| ? ? Hx Hr]; subst. constructor.
    + apply (Hx y _ (Hwa x (or_introl eq_refl)) (Hwb y (or_introl eq_refl)) Hxy).
    + apply IHall; [exact Hr | |]; intros v Hv; [apply Hwa | apply Hwb]; right; exact Hv.
  - apply app_eq_nil in H. destruct H as (Hleft & Hright).
    apply flat_map_empty in Hleft, Hright.
    cbn [well_formed] in Hwa, Hwb. apply andb_true_iff in Hwa, Hwb.
    destruct Hwa as (Hua & Hwa), Hwb as (Hub & Hwb). rewrite forallb_forall in Hwa, Hwb.
    rewrite Forall_forall in Hleft, Hright, IH.
    assert (Hfound : forall k v, In (k, v) d ->
                                 exists w, dict_get d' k = Some w /\ py_eq v w = true).
    { intros k v Hin. specialize (Hleft (k, v) Hin). cbn beta iota in Hleft.
      destruct (dict_get d' k) as [w |] eqn:Hw; [| discriminate Hleft].
      exists w. split; [reflexivity |].
      apply (IH (k, v) Hin w (path +++ "." +++ k) (Hwa (k, v) Hin)); [| exact Hleft].
      apply (Hwb (k, w)). exact (dict_get_In d' k w Hw). }
    apply py_eq_dicts.
    + pose proof (unique_keys_NoDup d Hua) as Hna. pose proof (unique_keys_NoDup d' Hub) as Hnb.
      assert (Hab : incl (map fst d) (map fst d')).
      { intros k Hk. apply in_map_iff in Hk. destruct Hk as ([k' v] & E & Hin).
        cbn [fst] in E. subst k'. destruct (Hfound k v Hin) as (w & Hw & _).
        apply in_map_iff. exists (k, w). split; [reflexivity | exact (dict_get_In d' k w Hw)]. }
      assert (Hba : incl (map fst d') (map fst d)).
      { intros k Hk. apply in_map_iff in Hk. destruct Hk as ([k' v] & E & Hin).
        cbn [fst] in E. subst k'. specialize (Hright (k, v) Hin). cbn [fst snd] in Hright.
        destruct (dict_has d k) eqn:Hhas; [| discriminate Hright].
        exact (dict_has_key d k Hhas). }
      pose proof (NoDup_incl_length Hna Hab) as H1.
      pose proof (NoDup_incl_length Hnb Hba) as H2.
      rewrite !length_map in H1, H2. lia.
    + apply Forall_forall. intros [k v] Hin. exact (Hfound k v Hin).
Qed.

(** X17.  [compare_files] does not miss a difference: when it reports
    [differences_count] 0 for two files that load, whose dicts have
    distinct keys as every decoded document has, the two documents are
    equal as Python values. *)
Theorem compare_files_sound (w : World) (file1 file2 data1 data2 : json)
        (d : list (string * json)) :
  load_json w file1 = Ok data1 -> load_json w file2 = Ok data2 ->
  well_formed data1 = true -> well_formed data2 = true ->
  compare_files w file1 file2 = Ok (JDict d) ->
  dict_get d "differences_count" = Some (JInt 0) ->
  py_eq data1 data2 = true.
Proof.
  intros H1 H2 Hw1 Hw2 H Hzero. unfold compare_files in H. rewrite H1, H2 in H.
  cbn [bind try_except] in H. inversion H; subst. clear H.
  cbn [dict_get String.eqb Ascii.eqb Bool.eqb] in Hzero. inversion Hzero as [Hlen].
  apply (compare_recursive_sound data1 data2 "root" Hw1 Hw2).
  destruct (compare_recursive data1 data2 "root"); [reflexivity |].
  unfold JNat in Hlen. cbn [List.length] in Hlen. lia.
Qed.

(** Two files with the same entries in another order. *)
Lemma compare_files_sound_witness :
  load_json (world_of [("a.json", "{" +++ quoted "x" +++ ": 1, " +++ quoted "y" +++ ": [2]}");
                       ("b.json", "{" +++ quoted "y" +++ ": [2], " +++ quoted "x" +++ ": 1}")])
            (JStr "a.json")
  = Ok (JDict [("x", JInt 1); ("y", JList [JInt 2])])
  /\ load_json (world_of [("a.json", "{" +++ quoted "x" +++ ": 1, " +++ quoted "y" +++ ": [2]}");
                          ("b.json", "{" +++ quoted "y" +++ ": [2], " +++ quoted "x" +++ ": 1}")])
               (JStr "b.json")
     = Ok (JDict [("y", JList [JInt 2]); ("x", JInt 1)])
  /\ compare_files
       (world_of [("a.json", "{" +++ quoted "x" +++ ": 1, " +++ quoted "y" +++ ": [2]}");
                  ("b.json", "{" +++ quoted "y" +++ ": [2], " +++ quoted "x" +++ ": 1}")])
       (JStr "a.json") (JStr "b.json")
     = Ok (JDict [("success", JBool true); ("file1", JStr "a.json"); ("file2", JStr "b.json");
                  ("differences_count", JInt 0); ("differences", JList [])])
  /\ py_eq (JDict [("x", JInt 1); ("y", JList [JInt 2])])
           (JDict [("y", JList [JInt 2]); ("x", JInt 1)]) = true.
Proof.
  do 3 (split; [vm_compute; reflexivity |]).
  apply (compare_files_sound
           (world_of [("a.json", "{" +++ quoted "x" +++ ": 1, " +++ quoted "y" +++ ": [2]}");
                      ("b.json", "{" +++ quoted "y" +++ ": [2], " +++ quoted "x" +++ ": 1}")])
           (JStr "a.json") (JStr "b.json") _ _
           [("success", JBool true); ("file1", JStr "a.json"); ("file2", JStr "b.json");
            ("differences_count", JInt 0); ("differences", JList [])]);
    vm_compute; reflexivity.
Defined.

(** ** The catalog and [execute_tool] *)

Lemma dispatch_returns (w : World) (tool_name : json) (params : list (string * json)) :
  match dispatch w tool_name params with
  | Rejected _ => True
  | Called c _ => exists result, c = Ok result
  end.
Proof.
  assert (Hmapping : forall c, result_mapping c -> exists result, c = Ok result)
    by (intros c (d & -> & _); eauto).
  unfold dispatch, call, call_retried, missing.
  repeat match goal with
         | |- context [if ?b then _ else _] => destruct b
         end;
    try exact I; apply Hmapping;
    first [ apply get_consolidated_data_mapping | apply get_media_summary_mapping
          | apply search_media_content_mapping | apply list_json_files_mapping
          | apply read_json_file_mapping | apply keyword_search_mapping
          | apply filter_json_mapping | apply aggregate_data_mapping
          | apply extract_hashtags_mapping | apply compare_files_mapping ].
Qed.

(** X18.  The catalog and the dispatcher agree: the names of
    [get_available_tools] are pairwise distinct, and [execute_tool]
    answers [Unknown tool] for exactly the names that are not in the
    catalog; a tool of the catalog is either called or rejected for a
    missing parameter. *)
Theorem catalog_matches_dispatcher (w : World) (tool : string) (params : list (string * json)) :
  NoDup tool_names
  /\ (In tool tool_names
      <-> dispatch w (JStr tool) params <> Rejected (error_dict ("Unknown tool: " +++ tool))).
Proof.
  split.
  - cbv [tool_names get_available_tools map name].
    repeat (constructor; [cbv [In]; intros H;
                          repeat (destruct H as [H | H]; [discriminate H |]); exact H |]).
    constructor.
  - split.
    + intros Hin. cbv [tool_names get_available_tools map name In] in Hin.
      repeat (destruct Hin as [<- | Hin];
              [unfold dispatch, call, call_retried, missing;
               cbn [py_eq String.eqb Ascii.eqb Bool.eqb];
               repeat match goal with
                      | |- context [if ?b then _ else _] => destruct b
                      end; discriminate |]).
      contradiction.
    + intros Hknown. destruct (in_dec string_dec tool tool_names) as [Hin | Hout];
        [exact Hin |].
      exfalso. apply Hknown. exact (dispatch_unknown w tool params Hout).
Qed.

Lemma execute_from_trace (w : World) (tool_name : json) (params : list (string * json))
      (result : json) (evs : list event) (max_retries : nat) :
  dispatch w tool_name params = Called (Ok result) evs ->
  has_error result = true ->
  forall left attempt last_error,
    (attempt + S left = max_retries)%nat ->
    execute_from w tool_name (JDict params) (S left) attempt max_retries last_error
    = (result, attempts_trace evs attempt (S left)).
Proof.
  intros Hdispatch Herr. induction left as [| left IH]; intros attempt last_error Hsum.
  - cbn [execute_from attempts_trace]. rewrite Hdispatch, Herr.
    replace (Nat.ltb attempt (max_retries - 1)) with false
      by (symmetry; apply Nat.ltb_ge; lia).
    rewrite app_nil_r. reflexivity.
  - remember (S left) as left1 eqn:Hleft1.
    cbn [execute_from]. rewrite Hdispatch, Herr.
    replace (Nat.ltb attempt (max_retries - 1)) with true
      by (symmetry; apply Nat.ltb_lt; lia).
    cbn [andb]. subst left1. rewrite IH by lia. reflexivity.
Qed.

(** X19.  What [execute_tool] does with a tool call whose parameters are
    a mapping.  A call that is rejected (unknown tool, missing
    parameter) returns at once.  Otherwise the operation is called and
    returns a result; a result without [error] entry is returned after
    this one call; a result with an [error] entry is retried until
    [max_retries] calls are made, with sleeps of 1, 2, ... seconds in
    between, and the error result of the operation itself is returned,
    never the mapping [Tool execution failed after ... attempts].  With
    [max_retries = 0] nothing is called and that mapping is returned. *)
Theorem execute_tool_outcome (w : World) (tool_name : json) (params : list (string * json))
        (retries : nat) :
  match dispatch w tool_name params with
  | Rejected r => execute_tool w tool_name (JDict params) (S retries) = (r, [])
  | Called c evs =>
      exists result,
        c = Ok result
        /\ execute_tool w tool_name (JDict params) (S retries)
           = (result, if has_error result then attempts_trace evs 0 (S retries) else evs)
  end
  /\ execute_tool w tool_name (JDict params) 0
     = (execution_failed 0 JNull tool_name, []).
Proof.
  split; [| reflexivity].
  pose proof (dispatch_returns w tool_name params) as Hreturns.
  destruct (dispatch w tool_name params) as [r | c evs] eqn:Hdispatch.
  - unfold execute_tool. cbn [execute_from]. rewrite Hdispatch. reflexivity.
  - destruct Hreturns as (result & ->). exists result. split; [reflexivity |].
    destruct (has_error result) eqn:Herr.
    + unfold execute_tool. apply (execute_from_trace w tool_name params result evs);
        [exact Hdispatch | exact Herr | lia].
    + unfold execute_tool. cbn [execute_from]. rewrite Hdispatch, Herr. reflexivity.
Qed.

(** ** The run as a whole *)





Lemma run_from_other_actions (w : World) (model : nat -> py string) (max_iterations : nat) :
  forall left iteration iterations,
    (forall i, (iteration <= i < iteration + left)%nat ->
               exists text d,
                 model i = Ok text
                 /\ json_loads w (extract_json_text (strip text)) = Ok (JDict d)
                 /\ py_eq (get_default d "action" JNull) (JStr "answer") = false
                 /\ py_eq (get_default d "action" JNull) (JStr "use_tool") = false) ->
    run_from w model left iteration max_iterations iterations
    = (Exhausted iterations max_iterations, map Generate (seq iteration left)).
Proof.
  induction left as [| left IH]; intros iteration iterations Hmodel; [reflexivity |].
  destruct (Hmodel iteration ltac:(lia)) as (text & d & Htext & Hloads & Hanswer & Htool).
  assert (Hstep : run_step w iteration iterations text = Continue iterations []).
  { unfold run_step. rewrite Hloads. cbv zeta. rewrite Hanswer, Htool. reflexivity. }
  rewrite (run_from_continue _ _ _ _ _ _ _ _ Htext Hstep).
  rewrite IH by (intros i Hi; apply Hmodel; lia). reflexivity.
Qed.

(** X21.  An action that is neither [answer] nor [use_tool] is passed
    over in silence: when every response decodes to a mapping with such
    an action (or with none), the run invokes the model
    [max_iterations] times, calls no tool, records nothing and ends with
    the exhausted summary over an empty list of iterations. *)
Theorem run_ignores_other_actions (w : World) (model : nat -> py string)
        (max_iterations : nat) :
  (forall i, (i < max_iterations)%nat ->
             exists text d,
               model i = Ok text
               /\ json_loads w (extract_json_text (strip text)) = Ok (JDict d)
               /\ py_eq (get_default d "action" JNull) (JStr "answer") = false
               /\ py_eq (get_default d "action" JNull) (JStr "use_tool") = false) ->
  run w model max_iterations
  = (Exhausted [] max_iterations, map Generate (seq 0 max_iterations)).
Proof.
  intros Hmodel. unfold run. apply run_from_other_actions.
  intros i Hi. apply Hmodel. lia.
Qed.

(** A model that always wants to think. *)
Lemma run_ignores_other_actions_witness :
  (forall i, (i < 3)%nat ->
             exists text d,
               (fun _ : nat => Ok ("{" +++ quoted "action" +++ ": " +++ quoted "think" +++ "}")) i
               = Ok text
               /\ json_loads (world_of []) (extract_json_text (strip text)) = Ok (JDict d)
               /\ py_eq (get_default d "action" JNull) (JStr "answer") = false
               /\ py_eq (get_default d "action" JNull) (JStr "use_tool") = false)
  /\ run (world_of [])
         (fun _ => Ok ("{" +++ quoted "action" +++ ": " +++ quoted "think" +++ "}")) 3
     = (Exhausted [] 3, [Generate 0; Generate 1; Generate 2]).
Proof.
  assert (Hmodel : forall i, (i < 3)%nat ->
             exists text d,
               (fun _ : nat => Ok ("{" +++ quoted "action" +++ ": " +++ quoted "think" +++ "}")) i
               = Ok text
               /\ json_loads (world_of []) (extract_json_text (strip text)) = Ok (JDict d)
               /\ py_eq (get_default d "action" JNull) (JStr "answer") = false
               /\ py_eq (get_default d "action" JNull) (JStr "use_tool") = false).
  { intros i _. eexists. exists [("action", JStr "think")].
    split; [reflexivity | split; [vm_compute; reflexivity | split; reflexivity]]. }
  split; [exact Hmodel |].
  exact (run_ignores_other_actions (world_of []) _ 3 Hmodel).
Defined.

(** ** [list_json_files] *)










(** * The streaming loop of [app.py] *)

Lemma stream_invocations_app (a b : list emitted) :
  stream_invocations (a ++ b) = (stream_invocations a + stream_invocations b)%nat.
Proof. unfold stream_invocations. rewrite filter_app, length_app. reflexivity. Qed.

Lemma stream_invocations_did (evs : list event) :
  stream_invocations (map Did evs) = invocations evs.
Proof.
  unfold stream_invocations, invocations.
  induction evs as [| e r IH]; [reflexivity |].
  cbn [map filter]. destruct e; cbn [List.length]; rewrite ?IH; reflexivity.
Qed.

Lemma execute_tool_invocations (w : World) (tool_name parameters : json) (n : nat) :
  invocations (snd (execute_tool w tool_name parameters n)) = 0%nat.
Proof. unfold execute_tool. apply execute_from_invocations. Qed.

(** What an attempt emits: one model invocation first, then events that
    end the stream only by a last [done]. *)
Lemma stream_attempt_shape (w : World) (response : py string) (call iteration : nat) :
  match stream_attempt w response call iteration with
  | Finish evs =>
      exists body, evs = Did (Generate call) :: body ++ [Yield (Finished (S iteration))]
                   /\ stream_invocations body = 0%nat
                   /\ forallb (fun e => negb (terminal e)) body = true
  | ToolUsed evs =>
      exists body, evs = Did (Generate call) :: body
                   /\ stream_invocations body = 0%nat
                   /\ forallb (fun e => negb (terminal e)) body = true
  | Raised _ evs => evs = [Did (Generate call)]
  end.
Proof.
  assert (Hanswer : forall text,
             exists body,
               Did (Generate call) :: answer_events iteration text
               = Did (Generate call) :: body ++ [Yield (Finished (S iteration))]
               /\ stream_invocations body = 0%nat
               /\ forallb (fun e => negb (terminal e)) body = true).
  { intros text. exists [Yield (complete_status iteration); Await 200; Yield (Content text)].
    split; [reflexivity | split; reflexivity]. }
  unfold stream_attempt. destruct response as [text | e]; [| reflexivity].
  destruct (String.eqb text ""); [reflexivity |].
  destruct (extract_action w (strip text)) as [action_data | e]; [| reflexivity].
  destruct action_data as [| | | | | | d]; try apply Hanswer.
  destruct (truthy (JDict d)); [| apply Hanswer].
  destruct (py_eq _ (JStr "answer")); [apply Hanswer |].
  destruct (py_eq _ (JStr "use_tool")); [| apply Hanswer].
  destruct (negb (truthy _)); [reflexivity |].
  pose proof (execute_tool_invocations w (get_default d "tool" JNull)
                                       (get_default d "parameters" (JDict [])) 2) as Hnone.
  destruct (execute_tool _ _ _ _) as [tool_result evs]. cbn [snd] in Hnone.
  eexists. split; [reflexivity |].
  assert (Hwarn : forall warning : list emitted,
             stream_invocations warning = 0%nat ->
             forallb (fun e => negb (terminal e)) warning = true ->
             stream_invocations
               ([Yield (ToolCall (get_default d "tool" JNull)
                                 (get_default d "parameters" (JDict []))); Await 300]
                ++ map Did evs ++ warning
                ++ [Yield (ToolResult (get_default d "tool" JNull) tool_result); Await 300])
             = 0%nat
             /\ forallb (fun e => negb (terminal e))
                        ([Yield (ToolCall (get_default d "tool" JNull)
                                          (get_default d "parameters" (JDict []))); Await 300]
                         ++ map Did evs ++ warning
                         ++ [Yield (ToolResult (get_default d "tool" JNull) tool_result);
                             Await 300]) = true).
  { intros warning Hw Ht. split.
    - rewrite !stream_invocations_app, stream_invocations_did, Hnone, Hw. reflexivity.
    - rewrite !forallb_app, Ht. cbn [forallb terminal negb andb].
      rewrite andb_true_r. apply forallb_forall. intros e He.
      apply in_map_iff in He. destruct He as (x & <- & _). reflexivity. }
  destruct tool_result as [| | | | | | r]; try (apply Hwarn; reflexivity).
  destruct (dict_has r "error"); apply Hwarn; reflexivity.
Qed.

(** The attempts of one iteration: at most two model invocations, and
    the loop never ends without a result. *)
Lemma stream_attempts_shape (w : World) (model : nat -> py string) (iteration : nat) :
  forall left ai_attempt calls,
    (ai_attempt + left = max_ai_retries)%nat -> (1 <= left)%nat ->
    match stream_attempts w model left ai_attempt calls iteration with
    | Returned evs =>
        exists body last,
          evs = body ++ [Yield last]
          /\ (stream_invocations body <= left)%nat
          /\ forallb (fun e => negb (terminal e)) body = true
          /\ (last = Finished (S iteration)
              \/ exists msg, last = ErrorEvent ("Failed after 2 attempts: " +++ msg))
    | Next evs calls' =>
        (stream_invocations evs <= left)%nat
        /\ forallb (fun e => negb (terminal e)) evs = true
    | Unprocessed _ _ => False
    end.
Proof.
  induction left as [| left IH]; intros ai_attempt calls Hsum Hleft; [lia |].
  cbn [stream_attempts].
  pose proof (stream_attempt_shape w (model calls) calls iteration) as Hshape.
  destruct (stream_attempt w (model calls) calls iteration) as [evs | evs | e evs].
  - destruct Hshape as (body & -> & Hnone & Hterm).
    exists (Did (Generate calls) :: body), (Finished (S iteration)).
    split; [reflexivity | split; [| split; [| left; reflexivity]]].
    + change (Did (Generate calls) :: body) with ([Did (Generate calls)] ++ body).
      rewrite stream_invocations_app, Hnone. cbv [stream_invocations filter List.length]. lia.
    + cbn [forallb terminal negb andb]. exact Hterm.
  - destruct Hshape as (body & -> & Hnone & Hterm). split.
    + change (Did (Generate calls) :: body) with ([Did (Generate calls)] ++ body).
      rewrite stream_invocations_app, Hnone. cbv [stream_invocations filter List.length]. lia.
    + cbn [forallb terminal negb andb]. exact Hterm.
  - subst evs. unfold max_ai_retries in *.
    destruct (Nat.ltb ai_attempt (2 - 1)) eqn:Hlt.
    + apply Nat.ltb_lt in Hlt.
      specialize (IH (S ai_attempt) (S calls) ltac:(lia) ltac:(lia)).
      destruct (stream_attempts w model left (S ai_attempt) (S calls) iteration)
        as [evs | evs calls' | evs calls']; cbn [prepend].
      * destruct IH as (body & last & -> & Hcount & Hterm & Hlast).
        eexists. exists last. split; [rewrite app_assoc; reflexivity |].
        split; [| split; [| exact Hlast]].
        -- rewrite !stream_invocations_app.
           cbv [stream_invocations filter List.length] in *. lia.
        -- rewrite forallb_app, Hterm. reflexivity.
      * destruct IH as (Hcount & Hterm). split.
        -- rewrite !stream_invocations_app.
           cbv [stream_invocations filter List.length] in *. lia.
        -- rewrite forallb_app, Hterm. reflexivity.
      * contradiction.
    + exists [Did (Generate calls)], (ErrorEvent ("Failed after 2 attempts: " +++ exn_str e)).
      split; [reflexivity | split; [| split; [reflexivity | right; eauto]]].
      cbv [stream_invocations filter List.length]. lia.
Qed.

Lemma stream_from_shape (w : World) (model : nat -> py string) (max_iterations : nat) :
  forall left iteration calls,
    (iteration + left = max_iterations)%nat ->
    exists body last,
      stream_from w model left iteration calls max_iterations = body ++ [Yield last]
      /\ (stream_invocations body <= 2 * left)%nat
      /\ forallb (fun e => negb (terminal e)) body = true
      /\ ((exists k, last = Finished k /\ (k <= max_iterations)%nat)
          \/ exists msg, last = ErrorEvent ("Failed after 2 attempts: " +++ msg)).
Proof.
  induction left as [| left IH]; intros iteration calls Hsum.
  - cbn [stream_from]. eexists [_; _], _. split; [reflexivity |].
    split; [cbv [stream_invocations filter List.length]; lia | split; [reflexivity |]].
    left. exists iteration. split; [reflexivity | lia].
  - cbn [stream_from].
    pose proof (stream_attempts_shape w model iteration max_ai_retries 0 calls
                                      eq_refl ltac:(unfold max_ai_retries; lia)) as Hshape.
    destruct (stream_attempts w model max_ai_retries 0 calls iteration)
      as [evs | evs calls' | evs calls']; [| | contradiction].
    + destruct Hshape as (body & last & -> & Hcount & Hterm & Hlast).
      eexists (_ :: _ :: body), last. split; [reflexivity |].
      unfold max_ai_retries in Hcount.
      split; [| split].
      * cbv [stream_invocations filter List.length] in *. lia.
      * cbn [forallb terminal negb andb]. exact Hterm.
      * destruct Hlast as [-> | Herr]; [left | right; exact Herr].
        exists (S iteration). split; [reflexivity | lia].
    + destruct Hshape as (Hcount & Hterm). unfold max_ai_retries in Hcount.
      destruct (IH (S iteration) calls' ltac:(lia))
        as (body & last & -> & Hcount' & Hterm' & Hlast).
      eexists (_ :: _ :: evs ++ body), last.
      split; [cbn [app]; rewrite <- app_assoc; reflexivity |].
      split; [| split; [| exact Hlast]].
      * change (?a :: ?b :: evs ++ body) with ([a; b] ++ evs ++ body).
        rewrite !stream_invocations_app.
        cbv [stream_invocations filter List.length] in *. lia.
      * cbn [forallb terminal negb andb]. rewrite forallb_app, Hterm, Hterm'. reflexivity.
Qed.

Lemma stream_agent_response_shape (w : World) (model : nat -> py string)
      (projects_db : list (string * list (string * json))) (project_id : option string)
      (max_iterations : nat) :
  exists body last,
    stream_agent_response w model projects_db project_id max_iterations = body ++ [Yield last]
    /\ (stream_invocations body <= 2 * max_iterations)%nat
    /\ forallb (fun e => negb (terminal e)) body = true
    /\ ((exists k, last = Finished k /\ (k <= max_iterations)%nat)
        \/ (exists msg, last = ErrorEvent ("Failed after 2 attempts: " +++ msg))
        \/ (exists e, project_context projects_db project_id = Raise e
                      /\ last = ErrorEvent (exn_str e))).
Proof.
  unfold stream_agent_response.
  destruct (project_context projects_db project_id) as [context | e].
  - destruct (stream_from_shape w model max_iterations max_iterations 0 0 eq_refl)
      as (body & last & -> & Hcount & Hterm & Hlast).
    eexists (_ :: _ :: body), last. split; [reflexivity |].
    split; [| split].
    + cbv [stream_invocations filter List.length] in *. lia.
    + cbn [forallb terminal negb andb]. exact Hterm.
    + destruct Hlast as [H | H]; [left; exact H | right; left; exact H].
  - exists [], (ErrorEvent (exn_str e)). split; [reflexivity |].
    split; [cbv [stream_invocations filter List.length]; lia | split; [reflexivity |]].
    right. right. exists e. split; reflexivity.
Qed.

Lemma faltering_attempts (iteration calls : nat) :
  Nat.even calls = true ->
  exists evs, stream_attempts (world_of []) faltering_model max_ai_retries 0 calls iteration
              = Next evs (S (S calls))
              /\ stream_invocations evs = 2%nat.
Proof.
  intros Heven.
  assert (Hodd : Nat.even (S calls) = false).
  { rewrite Nat.even_succ, <- Nat.negb_even, Heven. reflexivity. }
  unfold max_ai_retries. cbn [stream_attempts].
  unfold faltering_model at 1. rewrite Heven. cbn [stream_attempt raise].
  cbn [Nat.ltb Nat.leb Nat.sub max_ai_retries prepend stream_attempts].
  unfold faltering_model at 1. rewrite Hodd.
  assert (Htool : stream_attempt (world_of []) (Ok use_tool_nope) (S calls) iteration
                  = ToolUsed [Did (Generate (S calls));
                              Yield (ToolCall (JStr "nope") (JDict [])); Await 300;
                              Yield (ToolErrorStatus "Unknown tool: nope");
                              Yield (ToolResult (JStr "nope")
                                                (error_dict "Unknown tool: nope"));
                              Await 300]).
  { vm_compute. reflexivity. }
  rewrite Htool. cbn [prepend]. eexists. split; [reflexivity |].
  cbv [stream_invocations filter List.length app]. reflexivity.
Qed.

Lemma faltering_stream (max_iterations : nat) :
  forall left iteration calls,
    Nat.even calls = true ->
    stream_invocations (stream_from (world_of []) faltering_model left iteration calls
                                    max_iterations)
    = (2 * left)%nat.
Proof.
  induction left as [| left IH]; intros iteration calls Heven; [reflexivity |].
  cbn [stream_from].
  destruct (faltering_attempts iteration calls Heven) as (evs & -> & Hevs).
  change (?a :: ?b :: ?r) with ([a; b] ++ r).
  rewrite !stream_invocations_app, Hevs, IH by (cbn [Nat.even]; exact Heven).
  cbv [stream_invocations filter List.length]. lia.
Qed.

(** X23.  The streaming loop is not held to one model invocation per
    iteration: an attempt that fails is repeated once within the
    iteration.  A stream invokes the model at most [2 * max_iterations]
    times, for every world, model and project; and the bound is reached,
    by a model that fails at every first attempt and asks for a tool at
    every second. *)
Theorem stream_invocations_bounded (w : World) (model : nat -> py string)
        (projects_db : list (string * list (string * json))) (project_id : option string)
        (max_iterations : nat) :
  (stream_invocations (stream_agent_response w model projects_db project_id max_iterations)
   <= 2 * max_iterations)%nat
  /\ stream_invocations (stream_agent_response (world_of []) faltering_model [] None
                                               max_iterations)
     = (2 * max_iterations)%nat.
Proof.
  split.
  - destruct (stream_agent_response_shape w model projects_db project_id max_iterations)
      as (body & last & -> & Hcount & _).
    rewrite stream_invocations_app. cbv [stream_invocations filter List.length] in *. lia.
  - unfold stream_agent_response. cbn [project_context].
    change (?a :: ?b :: ?r) with ([a; b] ++ r). cbn [app].
    change (?a :: ?b :: ?r) with ([a; b] ++ r).
    rewrite stream_invocations_app, faltering_stream by reflexivity.
    cbv [stream_invocations filter List.length]. lia.
Qed.

Lemma project_context_raises (projects_db : list (string * list (string * json)))
      (project_id : option string) (e : exn) :
  project_context projects_db project_id = Raise e ->
  In (exn_str e) ["'name'"; "'description'"; "'status'"].
Proof.
  unfold project_context. destruct project_id as [id |]; [| discriminate].
  destruct (if String.eqb id "" then None else project_of projects_db id) as [project |];
    [| discriminate].
  cbn [py_getitem].
  destruct (dict_get project "name"); cbn [bind];
    [| intros H; inversion H; left; reflexivity].
  destruct (dict_get project "description"); cbn [bind];
    [| intros H; inversion H; right; left; reflexivity].
  destruct (dict_get project "status"); cbn [bind];
    [discriminate | intros H; inversion H; right; right; left; reflexivity].
Qed.

(** X24.  Every stream ends, and ends once: its last event is [done] or
    [error], and no event before it is.  A [done] event counts at most
    [max_iterations] iterations.  An [error] event reports either the
    second failure of an attempt ([Failed after 2 attempts: ...]) or the
    field that the project of the request lacks; the message [Failed to
    process iteration] is never sent. *)
Theorem stream_ends_once (w : World) (model : nat -> py string)
        (projects_db : list (string * list (string * json))) (project_id : option string)
        (max_iterations : nat) :
  exists body last,
    stream_agent_response w model projects_db project_id max_iterations = body ++ [Yield last]
    /\ forallb (fun e => negb (terminal e)) body = true
    /\ ((exists k, last = Finished k /\ (k <= max_iterations)%nat)
        \/ (exists msg, last = ErrorEvent msg
                        /\ (starts_with "Failed after 2 attempts: " msg = true
                            \/ In msg ["'name'"; "'description'"; "'status'"])))
    /\ ~ In (Yield (ErrorEvent "Failed to process iteration"))
            (stream_agent_response w model projects_db project_id max_iterations).
Proof.
  destruct (stream_agent_response_shape w model projects_db project_id max_iterations)
    as (body & last & Hstream & _ & Hterm & Hlast).
  assert (Hlast' : (exists k, last = Finished k /\ (k <= max_iterations)%nat)
                   \/ (exists msg, last = ErrorEvent msg
                                   /\ (starts_with "Failed after 2 attempts: " msg = true
                                       \/ In msg ["'name'"; "'description'"; "'status'"]))).
  { destruct Hlast as [H | [(msg & ->) | (e & He & ->)]]; [left; exact H | right | right].
    - eexists. split; [reflexivity |]. left. apply starts_with_spec. eauto.
    - eexists. split; [reflexivity |]. right. exact (project_context_raises _ _ _ He). }
  exists body, last. split; [exact Hstream | split; [exact Hterm | split; [exact Hlast' |]]].
  rewrite Hstream. intros Hin. apply in_app_iff in Hin. destruct Hin as [Hin | [Hin | []]].
  - rewrite forallb_forall in Hterm. specialize (Hterm _ Hin). discriminate Hterm.
  - inversion Hin as [E]. destruct Hlast' as [(k & -> & _) | (msg & -> & Hmsg)];
      [discriminate E |].
    inversion E; subst. destruct Hmsg as [H | H].
    + vm_compute in H. discriminate H.
    + repeat (destruct H as [H | H]; [discriminate H |]). exact H.
Qed.



(** X26.  The streaming loop answers with the text of the model when it
    finds no action in it.  When none of the three extraction methods
    yields a non-empty mapping, or the mapping found has an action that
    is neither [answer] nor [use_tool], the stream ends at once, with
    the response of the model, stripped of surrounding white space and
    otherwise as the model wrote it, as its [content]; it sends no
    [error] event. *)
Theorem stream_answers_with_response (w : World) (model : nat -> py string)
        (projects_db : list (string * list (string * json))) (project_id : option string)
        (max_iterations : nat) (context action_data : json) (text : string) :
  project_context projects_db project_id = Ok context ->
  model 0%nat = Ok text ->
  text <> "" ->
  extract_action w (strip text) = Ok action_data ->
  match action_data with
  | JDict d =>
      d = []
      \/ (py_eq (get_default d "action" JNull) (JStr "answer") = false
          /\ py_eq (get_default d "action" JNull) (JStr "use_tool") = false)
  | _ => True
  end ->
  stream_agent_response w model projects_db project_id (S max_iterations)
  = [Yield (Status "Agent initialized, analyzing query..."); Await 300;
     Yield (Status ("Iteration 1/" +++ str_of_nat (S max_iterations) +++ ": Thinking..."));
     Await 200;
     Did (Generate 0);
     Yield (Status "Complete! Used 1 iteration(s)"); Await 200;
     Yield (Content (JStr (strip text)));
     Yield (Finished 1)].
Proof.
  intros Hcontext Hmodel Htext Hextract Haction.
  assert (Hattempt : stream_attempt w (model 0%nat) 0 0
                     = Finish (Did (Generate 0) :: answer_events 0 (JStr (strip text)))).
  { unfold stream_attempt. rewrite Hmodel.
    replace (String.eqb text "") with false
      by (symmetry; apply String.eqb_neq; exact Htext).
    rewrite Hextract. destruct action_data as [| | | | | | d]; try reflexivity.
    destruct Haction as [-> | (Hanswer & Htool)]; [reflexivity |].
    cbv zeta. rewrite Hanswer, Htool. destruct (truthy (JDict d)); reflexivity. }
  unfold stream_agent_response. rewrite Hcontext.
  cbn [stream_from app]. unfold max_ai_retries. cbn [stream_attempts]. rewrite Hattempt.
  reflexivity.
Qed.

(** A fenced block that is not JSON: the whole response is the answer,
    fence included. *)
Lemma stream_answers_with_response_witness :
  project_context [] None = Ok (JDict [])
  /\ fenced_oops <> ""
  /\ extract_action (world_of []) (strip fenced_oops) = Ok JNull
  /\ stream_agent_response (world_of []) (fun _ => Ok fenced_oops) [] None 3
     = [Yield (Status "Agent initialized, analyzing query..."); Await 300;
        Yield (Status "Iteration 1/3: Thinking..."); Await 200;
        Did (Generate 0);
        Yield (Status "Complete! Used 1 iteration(s)"); Await 200;
        Yield (Content (JStr fenced_oops));
        Yield (Finished 1)].
Proof.
  assert (Htext : fenced_oops <> "") by discriminate.
  split; [reflexivity | split; [exact Htext | split; [vm_compute; reflexivity |]]].
  exact (stream_answers_with_response
           (world_of []) (fun _ => Ok fenced_oops) [] None 2 (JDict []) JNull fenced_oops
           eq_refl eq_refl Htext eq_refl I).
Defined.

(** * The endpoints of [app.py] over the tools *)

Lemma needs_consolidation_outcome (result : json) :
  result_mapping (Ok result) ->
  (has_error result = false /\ App.needs_consolidation result = Ok result)
  \/ (exists error,
         field_of result "error" = Some error
         /\ App.needs_consolidation result
            = Ok (JDict [("success", JBool false); ("error", error);
                         ("needs_consolidation", JBool true)])).
Proof.
  intros (d & E & _). inversion E; subst. unfold App.needs_consolidation.
  cbn [py_in bind has_error field_of py_getitem]. unfold dict_has.
  destruct (dict_get d "error") as [error |]; cbn [bind].
  - right. exists error. split; reflexivity.
  - left. split; reflexivity.
Qed.

(** X27.  The two endpoints over the consolidated data always answer
    with a body for a valid platform, never with an HTTP error: the
    success mapping of the operation as it is, or, made from its error
    mapping, [{"success": False, "error": ..., "needs_consolidation":
    True}].  A platform other than [instagram], [youtube] and [all] is
    refused with status 500: the [HTTPException] with status 400 that
    the endpoint raises is caught by its own handler and wrapped. *)
Theorem consolidated_endpoints_respond (http_exception_str : Z -> string -> string)
        (w : World) (platform : string) :
  let answers (operation : py json) (response : App.http json) :=
    exists result,
      operation = Ok result
      /\ ((has_error result = false /\ response = App.Respond result)
          \/ exists error,
              field_of result "error" = Some error
              /\ response = App.Respond (JDict [("success", JBool false); ("error", error);
                                            ("needs_consolidation", JBool true)])) in
  answers (get_media_summary w (JStr "all")) (App.get_consolidated_summary http_exception_str w)
  /\ (In platform ["instagram"; "youtube"; "all"] ->
      answers (get_consolidated_data w (JStr platform))
              (App.get_consolidated_data http_exception_str w platform))
  /\ (~ In platform ["instagram"; "youtube"; "all"] ->
      App.get_consolidated_data http_exception_str w platform
      = App.HTTPError 500 ("Error loading data: " +++ http_exception_str 400 "Invalid platform")).
Proof.
  cbv zeta. split; [| split].
  - destruct (get_media_summary_mapping w (JStr "all")) as (d & Hd & Hkind).
    exists (JDict d). split; [exact Hd |].
    unfold App.get_consolidated_summary. rewrite Hd. cbn [bind].
    destruct (needs_consolidation_outcome (JDict d)) as [(Hno & ->) | (error & Herr & ->)];
      [exists d; split; [reflexivity | exact Hkind] | left | right].
    + split; [exact Hno | reflexivity].
    + exists error. split; [exact Herr | reflexivity].
  - intros Hvalid.
    assert (Hin : existsb (String.eqb platform) ["instagram"; "youtube"; "all"] = true).
    { apply existsb_exists. exists platform. split; [exact Hvalid | apply String.eqb_refl]. }
    destruct (get_consolidated_data_mapping w (JStr platform)) as (d & Hd & Hkind).
    exists (JDict d). split; [exact Hd |].
    unfold App.get_consolidated_data. rewrite Hin, Hd. cbn [negb bind].
    destruct (needs_consolidation_outcome (JDict d)) as [(Hno & ->) | (error & Herr & ->)];
      [exists d; split; [reflexivity | exact Hkind] | left | right].
    + split; [exact Hno | reflexivity].
    + exists error. split; [exact Herr | reflexivity].
  - intros Hinvalid.
    assert (Hout : existsb (String.eqb platform) ["instagram"; "youtube"; "all"] = false).
    { destruct (existsb _ _) eqn:E; [| reflexivity]. exfalso. apply Hinvalid.
      apply existsb_exists in E. destruct E as (x & Hx & Heq).
      apply String.eqb_eq in Heq. subst x. exact Hx. }
    unfold App.get_consolidated_data. rewrite Hout. reflexivity.
Qed.

(** No consolidated data at all, and a platform that is not one. *)
Lemma consolidated_endpoints_respond_witness :
  In "all" ["instagram"; "youtube"; "all"]
  /\ ~ In "tiktok" ["instagram"; "youtube"; "all"]
  /\ App.get_consolidated_data (fun _ detail => detail) (world_of []) "tiktok"
     = App.HTTPError 500 "Error loading data: Invalid platform"
  /\ exists result,
      get_consolidated_data (world_of []) (JStr "all") = Ok result
      /\ ((has_error result = false
           /\ App.get_consolidated_data (fun _ detail => detail) (world_of []) "all"
              = App.Respond result)
          \/ exists error,
              field_of result "error" = Some error
              /\ App.get_consolidated_data (fun _ detail => detail) (world_of []) "all"
                 = App.Respond (JDict [("success", JBool false); ("error", error);
                                   ("needs_consolidation", JBool true)])).
Proof.
  assert (Hvalid : In "all" ["instagram"; "youtube"; "all"])
    by (right; right; left; reflexivity).
  assert (Hinvalid : ~ In "tiktok" ["instagram"; "youtube"; "all"]).
  { intros H. repeat (destruct H as [H | H]; [discriminate H |]). exact H. }
  split; [exact Hvalid | split; [exact Hinvalid |]].
  split.
  - destruct (consolidated_endpoints_respond (fun _ detail => detail) (world_of []) "tiktok")
      as (_ & _ & H).
    exact (H Hinvalid).
  - destruct (consolidated_endpoints_respond (fun _ detail => detail) (world_of []) "all")
      as (_ & H & _).
    exact (H Hvalid).
Defined.

(** X28.  [execute_tool_directly] answers a request without a tool name
    (absent, empty or otherwise falsy) with status 500, not 400, and
    calls nothing: its own handler catches the [HTTPException] it
    raises.  With a tool name, and once the agent is constructed, it
    always answers with a body whose [success] entry is [True], also
    when the result of the tool is an error mapping; for a tool that is
    not in the catalog the body is [{"success": True, "tool": name,
    "result": {"error": "Unknown tool: name"}}]. *)
Theorem execute_tool_directly_outcome (http_exception_str : Z -> string -> string)
        (w : World) (new_agent : py unit) (request : list (string * json)) :
  (truthy (get_default request "tool" JNull) = false ->
   App.execute_tool_directly http_exception_str w new_agent request
   = (App.HTTPError 500 ("Tool execution error: " +++ http_exception_str 400 "Missing tool name"),
      []))
  /\ (truthy (get_default request "tool" JNull) = true -> new_agent = Ok tt ->
      exists result evs,
        execute_tool w (get_default request "tool" JNull)
                     (get_default request "parameters" (JDict [])) 2 = (result, evs)
        /\ App.execute_tool_directly http_exception_str w new_agent request
           = (App.Respond (JDict [("success", JBool true);
                              ("tool", get_default request "tool" JNull);
                              ("result", result)]), evs))
  /\ (forall tool, ~ In tool tool_names -> tool <> "" -> new_agent = Ok tt ->
                   dict_get request "tool" = Some (JStr tool) ->
                   dict_get request "parameters" = None ->
                   App.execute_tool_directly http_exception_str w new_agent request
                   = (App.Respond (JDict [("success", JBool true); ("tool", JStr tool);
                                      ("result", error_dict ("Unknown tool: " +++ tool))]),
                      [])).
Proof.
  split; [| split].
  - intros Hfalsy. unfold App.execute_tool_directly. rewrite Hfalsy. reflexivity.
  - intros Htruthy ->. unfold App.execute_tool_directly. rewrite Htruthy. cbn [negb].
    destruct (execute_tool _ _ _ _) as [result evs]. exists result, evs.
    split; reflexivity.
  - intros tool Hunknown Hname -> Htool Hparams. unfold App.execute_tool_directly, get_default.
    rewrite Htool, Hparams. cbn [truthy].
    replace (String.eqb tool "") with false
      by (symmetry; apply String.eqb_neq; exact Hname).
    cbn [negb]. unfold execute_tool. cbn [execute_from].
    rewrite (dispatch_unknown w tool [] Hunknown). reflexivity.
Qed.

Lemma execute_tool_directly_outcome_witness :
  truthy (get_default [("parameters", JDict [])] "tool" JNull) = false
  /\ ~ In "nope" tool_names
  /\ App.execute_tool_directly (fun _ detail => detail) (world_of []) (Ok tt)
                           [("parameters", JDict [])]
     = (App.HTTPError 500 "Tool execution error: Missing tool name", [])
  /\ App.execute_tool_directly (fun _ detail => detail) (world_of []) (Ok tt)
                           [("tool", JStr "nope")]
     = (App.Respond (JDict [("success", JBool true); ("tool", JStr "nope");
                        ("result", error_dict "Unknown tool: nope")]), []).
Proof.
  assert (Hunknown : ~ In "nope" tool_names).
  { cbv [tool_names get_available_tools map name In].
    intros H. repeat (destruct H as [H | H]; [discriminate H |]). exact H. }
  split; [reflexivity | split; [exact Hunknown | split]].
  - destruct (execute_tool_directly_outcome (fun _ detail => detail) (world_of []) (Ok tt)
                                            [("parameters", JDict [])]) as (H & _).
    exact (H eq_refl).
  - destruct (execute_tool_directly_outcome (fun _ detail => detail) (world_of []) (Ok tt)
                                            [("tool", JStr "nope")]) as (_ & _ & H).
    apply (H "nope" Hunknown); [discriminate | reflexivity | reflexivity | reflexivity].
Defined.
